(** * csi-local-sparse: a shallow embedding of the node-local storage engine

    The development follows the Go packages of the repository:
    - [volumes]: the sparse-file volume controller
      (internal/volumes/volume_conroller.go) and the Linux mounter
      (internal/volumes/mounter.go);
    - [plugin]: the constants, the capacity-range arithmetic and the
      controller and node RPC handlers (internal/plugin).

    Go's [int64] is [Z] with the wrap-around written out where the code
    does arithmetic, Go's [(T, error)] is [result T], a bare [error] is
    [option error] ([None] is [nil]), and the host (image files, external
    tools, statfs) is an explicit state plus a per-call oracle. *)

From Stdlib Require Import ZArith Lia Ascii String DecimalString.
From stdpp Require Import base option list strings gmap.

Local Open Scope string_scope.
Local Open Scope Z_scope.

(** ** Go runtime prelude *)

Module golang.

(** Two's complement reading of an integer as [int64]. *)
Definition wrap64 (z : Z) : Z := (z + 2 ^ 63) mod 2 ^ 64 - 2 ^ 63.

Definition int64_range (z : Z) : Prop := - 2 ^ 63 <= z < 2 ^ 63.

(** [error]: the two sentinel values of package volumes are compared by
    identity in the handlers ([err == volumes.ErrorVolumeNotFound]); every
    [fmt.Errorf] / [errors.New] value is a fresh error that equals neither,
    also when it wraps a sentinel with [%w]. *)
Inductive error : Type :=
  | ErrorVolumeNotFound
  | ErrorVolumeAlreadyExists
  | Errorf (msg : string).

#[global] Instance error_eq_dec : EqDecision error.
Proof. solve_decision. Defined.

(** [err.Error()] *)
Definition Error (e : error) : string :=
  match e with
  | ErrorVolumeNotFound => "volume not found"
  | ErrorVolumeAlreadyExists => "volume already exists"
  | Errorf msg => msg
  end.

Inductive result (A : Type) : Type :=
  | Ok (a : A)
  | Err (e : error).
Arguments Ok {A} a.
Arguments Err {A} e.

(** [%d] and [strconv.FormatInt(_, 10)] *)
Definition itoa (z : Z) : string := NilZero.string_of_int (Z.to_int z).

(** The double-quote character, for [%q] of a plain tool name. *)
Definition dquote : string := String (Ascii.ascii_of_nat 34) EmptyString.
Definition quoted (s : string) : string := dquote +:+ s +:+ dquote.

(** [strings.TrimSuffix] *)
Definition has_suffix (s suffix : string) : bool :=
  String.prefix (String.rev suffix) (String.rev s).

Definition TrimSuffix (s suffix : string) : string :=
  if has_suffix s suffix
  then String.substring 0 (String.length s - String.length suffix) s
  else s.

(** [strings.TrimSpace], on the ASCII white space of tool output
    (tab, line feed, vertical tab, form feed, carriage return, space);
    bytes from 0x80 on are kept. *)
Definition is_space (a : Ascii.ascii) : bool :=
  let n := Ascii.nat_of_ascii a in
  ((9 <=? n)%nat && (n <=? 13)%nat) || (n =? 32)%nat.

Fixpoint trim_left (s : string) : string :=
  match s with
  | EmptyString => EmptyString
  | String a s' => if is_space a then trim_left s' else s
  end.

Definition TrimSpace (s : string) : string :=
  String.rev (trim_left (String.rev (trim_left s))).

(** [strings.Split(s, sep)] for a one-byte separator: the pieces between
    the separators, never an empty list. *)
Fixpoint Split_aux (sep : Ascii.ascii) (acc : string) (s : string) : list string :=
  match s with
  | EmptyString => [String.rev acc]
  | String a s' =>
    if Ascii.eqb a sep then String.rev acc :: Split_aux sep EmptyString s'
    else Split_aux sep (String a acc) s'
  end.

Definition Split (s : string) (sep : Ascii.ascii) : list string :=
  Split_aux sep EmptyString s.

(** [strings.Join] *)
Fixpoint Join (elems : list string) (sep : string) : string :=
  match elems with
  | [] => EmptyString
  | [x] => x
  | x :: rest => x +:+ sep +:+ Join rest sep
  end.

(** Whether a text is free of [%], so that formatting it again with no
    operands gives it back. *)
Fixpoint percent_free (s : string) : bool :=
  match s with
  | EmptyString => true
  | String a s' => negb (Ascii.eqb a "%"%char) && percent_free s'
  end.

(** A call either returns or panics (a nil pointer dereference). *)
Inductive returns (A : Type) : Type :=
  | Return (a : A)
  | Panic.
Arguments Return {A} a.
Arguments Panic {A}.

End golang.

Export golang.

(** ** Package volumes *)

Module volumes.

(** *** The host

    The images directory is a finite map from paths to nodes; a regular
    file carries its logical length ([st_size]).  The bytes inside an image
    are written by mkfs, resize2fs and the mounted filesystem and are never
    read by the controller, so they are not part of the state.

    [os.Stat] is a lookup: a missing path is the [IsNotExist] error, any
    other path yields its [FileInfo].  A tool that runs (no error from
    the oracle below) has the effect its manual page describes; every
    other outcome of a tool (a missing parent directory, a full disk, a
    cancelled context) is an error of the oracle and leaves the files as
    they were. *)
Inductive node : Type :=
  | RegularFile (st_size : Z)
  | Directory.

#[global] Instance node_eq_dec : EqDecision node.
Proof. solve_decision. Defined.

Abbreviation Files := (gmap string node).

(** [exec.LookPath]: found, the bare [exec.ErrNotFound], or another error
    (with its text). *)
Inductive LookPathResult : Type :=
  | Found
  | ErrNotFound
  | LookPathError (msg : string).

(** syscall.Statfs_t, the fields the controller reads. *)
Record Statfs_t : Type := {
  Bsize : Z;
  Blocks : Z;
  Bfree : Z;
  Bavail : Z;
  Ffiles : Z;
  Ffree : Z
}.

(** What one call observes of the host beyond the image files: which tools
    are on [$PATH], whether running a command fails ([cmd_err]: the text of
    the error of [CombinedOutput], e.g. a non-zero exit or a cancelled
    context), what it prints ([cmd_out], for the commands that query the
    kernel: losetup, findmnt), and [syscall.Statfs]. *)
Record Env : Type := {
  LookPath : string -> LookPathResult;
  cmd_err : string -> list string -> option string;
  cmd_out : string -> list string -> string;
  Statfs : string -> result Statfs_t
}.

(** The preamble of every tool call:
    [if _, err := exec.LookPath(cmd); err != nil { ... }]. *)
Definition checkExecutable (e : Env) (cmd : string) : option error :=
  match LookPath e cmd with
  | Found => None
  | ErrNotFound => Some (Errorf (quoted cmd +:+ " executable not found in $PATH"))
  | LookPathError msg => Some (Errorf ("error on check executable: " +:+ msg))
  end.

(** [fmt.Errorf("error exec command (%s): %w", cmd, err)] *)
Definition execError (cmd msg : string) : error :=
  Errorf ("error exec command (" +:+ cmd +:+ "): " +:+ msg).

(** The effect of [truncate -s SIZE FILE] (GNU coreutils) when it runs: a
    SIZE with a leading minus sign reduces the current length by that
    amount, not below zero; the file is created when absent; a directory
    cannot be opened for writing. *)
Definition truncate_effect (fs : Files) (filename : string) (sizeBytes : Z)
  : option Files :=
  match fs !! filename with
  | Some Directory => None
  | Some (RegularFile len) =>
    Some (<[filename := RegularFile (if sizeBytes <? 0 then Z.max 0 (len + sizeBytes)
                                     else sizeBytes)]> fs)
  | None =>
    Some (<[filename := RegularFile (if sizeBytes <? 0 then Z.max 0 (0 + sizeBytes)
                                     else sizeBytes)]> fs)
  end.

(** The effect of [rm -f FILE]: the file is unlinked; a directory is
    refused; a missing file is not an error. *)
Definition rm_effect (fs : Files) (filename : string) : option Files :=
  match fs !! filename with
  | Some Directory => None
  | _ => Some (delete filename fs)
  end.

(** What [stat -c %s FILE] prints when it runs: the logical length of a
    regular file.  (For a directory it prints the size of the directory
    entry, 4096 here; the controller asks only after [isFileExists].)  A
    missing file makes stat fail. *)
Definition stat_size (fs : Files) (filename : string) : option Z :=
  match fs !! filename with
  | Some (RegularFile len) => Some len
  | Some Directory => Some 4096
  | None => None
  end.

(** *** The VolumeController interface

    The methods the modelled handlers and the controller itself call.
    [GetVolumeStats], [AttachDevice], [DetachDevice] and [FormatIfNot]
    belong to staging and statistics and are left out. *)

Class VolumeController (T : Type) : Type := {
  Create : T -> Env -> Files -> string -> Z -> option error * Files;
  Delete : T -> Env -> Files -> string -> option error * Files;
  GetCapacity : T -> Env -> result Z;
  GetVolumeSize : T -> Env -> Files -> string -> result Z;
  ExpandVolumeSize : T -> Env -> Files -> string -> Z -> option error * Files;
  ResizeDeviceFileSystem : T -> Env -> Files -> string -> option error * Files;
  GetDeviceByVolumeId : T -> Env -> Files -> string -> result string
}.

(** *** SparseFileVolumeController *)

Module SparseFileVolumeController.

Record t : Type := {
  imagesDir : string;
  directIO : bool
}.

(** [getImageFullPath] *)
Definition getImageFullPath (s : t) (volumeId : string) : string :=
  TrimSuffix (imagesDir s) "/" +:+ "/" +:+ volumeId +:+ ".img".

(** [isFileExists] *)
Definition isFileExists (fs : Files) (filename : string) : bool :=
  match fs !! filename with
  | None => false
  | Some Directory => false
  | Some (RegularFile _) => true
  end.

(** [truncate] *)
Definition truncate (e : Env) (fs : Files) (filename : string) (sizeBytes : Z)
  : option error * Files :=
  let truncateCmd := "truncate" in
  match checkExecutable e truncateCmd with
  | Some err => (Some err, fs)
  | None =>
    let args := ["-s"; itoa sizeBytes; filename] in
    match cmd_err e truncateCmd args with
    | Some msg => (Some (execError truncateCmd msg), fs)
    | None =>
      match truncate_effect fs filename sizeBytes with
      | None => (Some (execError truncateCmd "exit status 1"), fs)
      | Some fs' => (None, fs')
      end
    end
  end.

(** [Create] *)
Definition Create (s : t) (e : Env) (fs : Files) (volumeId : string) (sizeBytes : Z)
  : option error * Files :=
  if String.eqb volumeId "" then (Some (Errorf "volumeId can't be empty"), fs)
  else if sizeBytes =? 0 then (Some (Errorf "size can't be equal 0"), fs)
  else
    let filename := getImageFullPath s volumeId in
    if isFileExists fs filename then (None, fs)
    else
      match truncate e fs filename sizeBytes with
      | (Some err, fs') => (Some (Errorf ("error truncate file: " +:+ Error err)), fs')
      | (None, fs') => (None, fs')
      end.

(** [Delete] *)
Definition Delete (s : t) (e : Env) (fs : Files) (volumeId : string)
  : option error * Files :=
  if String.eqb volumeId "" then (Some (Errorf "volumeId can't be empty"), fs)
  else
    let filename := getImageFullPath s volumeId in
    if negb (isFileExists fs filename) then (None, fs)
    else
      let removeCmd := "rm" in
      match checkExecutable e removeCmd with
      | Some err => (Some err, fs)
      | None =>
        let args := ["-f"; filename] in
        match cmd_err e removeCmd args with
        | Some msg => (Some (execError removeCmd msg), fs)
        | None =>
          match rm_effect fs filename with
          | None => (Some (execError removeCmd "exit status 1"), fs)
          | Some fs' => (None, fs')
          end
        end
      end.

(** [GetCapacity] *)
Definition GetCapacity (s : t) (e : Env) : result Z :=
  match Statfs e (imagesDir s) with
  | Err err => Err (Errorf ("error get storage capacity stats: " +:+ Error err))
  | Ok st =>
    let avail := wrap64 (wrap64 (Bfree st) * wrap64 (Bsize st)) in
    Ok avail
  end.

(** [strconv.ParseInt(strings.TrimSpace(string(out)), 10, 64)] on what
    [stat -c %s] printed for a file of length [len]: the decimal text
    parses back to [len] unless it does not fit [int64]. *)
Definition parseStatSize (len : Z) : result Z :=
  if (- 2 ^ 63 <=? len) && (len <? 2 ^ 63) then Ok len
  else Err (Errorf ("error parse output: strconv.ParseInt: parsing "
                    +:+ quoted (itoa len) +:+ ": value out of range")).

(** [GetVolumeSize] *)
Definition GetVolumeSize (s : t) (e : Env) (fs : Files) (volumeId : string)
  : result Z :=
  if String.eqb volumeId "" then Err (Errorf "volumeId can't be empty")
  else
    let filename := getImageFullPath s volumeId in
    if negb (isFileExists fs filename) then Err ErrorVolumeNotFound
    else
      let statCmd := "stat" in
      match checkExecutable e statCmd with
      | Some err => Err err
      | None =>
        let args := ["-c"; "%s"; filename] in
        match cmd_err e statCmd args with
        | Some msg => Err (execError statCmd msg)
        | None =>
          match stat_size fs filename with
          | None => Err (execError statCmd "exit status 1")
          | Some len => parseStatSize len
          end
        end
      end.

(** [ExpandVolumeSize] *)
Definition ExpandVolumeSize (s : t) (e : Env) (fs : Files) (volumeId : string)
    (newSizeBytes : Z) : option error * Files :=
  if String.eqb volumeId "" then (Some (Errorf "volumeId can't be empty"), fs)
  else if newSizeBytes <=? 0 then (Some (Errorf "size can't be less or equal 0"), fs)
  else
    let filename := getImageFullPath s volumeId in
    if negb (isFileExists fs filename) then (Some ErrorVolumeNotFound, fs)
    else
      match GetVolumeSize s e fs volumeId with
      | Err err => (Some (Errorf ("error get current volume size: " +:+ Error err)), fs)
      | Ok currentSize =>
        match GetCapacity s e with
        | Err err => (Some (Errorf ("error get storage capacity: " +:+ Error err)), fs)
        | Ok available =>
          let addSize := wrap64 (newSizeBytes - currentSize) in
          if available <=? addSize then
            (Some (Errorf ("addiditional space (" +:+ itoa addSize
                           +:+ ") is not available. " +:+ itoa available
                           +:+ " bytes is available on storage")), fs)
          else if 0 <? addSize then
            match truncate e fs filename newSizeBytes with
            | (Some err, fs') => (Some (Errorf ("error truncate file: " +:+ Error err)), fs')
            | (None, fs') => (None, fs')
            end
          else (None, fs)
        end
      end.

(** [GetDeviceByVolumeId] *)
Definition GetDeviceByVolumeId (s : t) (e : Env) (fs : Files) (volumeId : string)
  : result string :=
  if String.eqb volumeId "" then Err (Errorf "volumeId can't be empty")
  else
    let filename := getImageFullPath s volumeId in
    if negb (isFileExists fs filename) then Err ErrorVolumeNotFound
    else
      let loSetupCmd := "losetup" in
      match checkExecutable e loSetupCmd with
      | Some err => Err err
      | None =>
        let args := ["--associated"; filename] in
        match cmd_err e loSetupCmd args with
        | Some msg => Err (execError loSetupCmd msg)
        | None =>
          let outStr := Split (TrimSpace (cmd_out e loSetupCmd args)) ":"%char in
          match outStr with
          | dev :: _ => Ok dev
          | [] => Ok ""
          end
        end
      end.

(** [expandLoopDevice] *)
Definition expandLoopDevice (e : Env) (device : string) : option error :=
  let loSetupCmd := "losetup" in
  match checkExecutable e loSetupCmd with
  | Some err => Some err
  | None =>
    let args := ["--set-capacity"; device] in
    match cmd_err e loSetupCmd args with
    | Some msg => Some (execError loSetupCmd msg)
    | None => None
    end
  end.

(** [resizeFs] *)
Definition resizeFs (e : Env) (fs : Files) (filename : string) : option error :=
  if negb (isFileExists fs filename) then Some ErrorVolumeNotFound
  else
    let resize2fsCmd := "resize2fs" in
    match checkExecutable e resize2fsCmd with
    | Some err => Some err
    | None =>
      let args := [filename] in
      match cmd_err e resize2fsCmd args with
      | Some msg => Some (execError resize2fsCmd msg)
      | None => None
      end
    end.

(** [ResizeDeviceFileSystem] *)
Definition ResizeDeviceFileSystem (s : t) (e : Env) (fs : Files) (volumeId : string)
  : option error * Files :=
  if String.eqb volumeId "" then (Some (Errorf "volumeId can't be empty"), fs)
  else
    let filename := getImageFullPath s volumeId in
    if negb (isFileExists fs filename) then (Some ErrorVolumeNotFound, fs)
    else
      match GetDeviceByVolumeId s e fs volumeId with
      | Err err => (Some (Errorf ("error get loop device: " +:+ Error err)), fs)
      | Ok dev =>
        if String.eqb dev "" then (Some ErrorVolumeNotFound, fs)
        else
          match expandLoopDevice e dev with
          | Some err => (Some (Errorf ("error expand loop device: " +:+ Error err)), fs)
          | None =>
            match resizeFs e fs filename with
            | Some err => (Some (Errorf ("error resize filesystem: " +:+ Error err)), fs)
            | None => (None, fs)
            end
          end
      end.

End SparseFileVolumeController.

#[global] Instance SparseFile_VolumeController
  : VolumeController SparseFileVolumeController.t := {|
  Create := SparseFileVolumeController.Create;
  Delete := SparseFileVolumeController.Delete;
  GetCapacity := SparseFileVolumeController.GetCapacity;
  GetVolumeSize := SparseFileVolumeController.GetVolumeSize;
  ExpandVolumeSize := SparseFileVolumeController.ExpandVolumeSize;
  ResizeDeviceFileSystem := SparseFileVolumeController.ResizeDeviceFileSystem;
  GetDeviceByVolumeId := SparseFileVolumeController.GetDeviceByVolumeId
|}.

(** *** LinuxMounter *)

Module LinuxMounter.

(** The entries of [findMntResponse]. *)
Record fileSystem : Type := {
  Target : string;
  Propagation : string;
  FsType : string;
  Options : string
}.

Record findMntResponse : Type := {
  FileSystems : list fileSystem
}.

Section IsMounted.

(** [json.Unmarshal(out, &resp)] for [var resp *findMntResponse]: an
    error, or the decoded value; the JSON text [null] decodes to a nil
    [resp] ([Ok None]). *)
Variable json_Unmarshal : string -> result (option findMntResponse).

(** The loop [for _, fs := range resp.FileSystems], started with the
    current value of [isMounted]. *)
Fixpoint rangeFileSystems (target : string) (l : list fileSystem) (isMounted : bool)
  : bool * option error :=
  match l with
  | [] => (isMounted, None)
  | fs :: rest =>
    if negb (String.eqb (Propagation fs) "shared") then
      (true, Some (Errorf ("bad mount propagation (" +:+ Propagation fs
                           +:+ ") for target " +:+ target)))
    else rangeFileSystems target rest
           (if String.eqb (Target fs) target then true else isMounted)
  end.

Definition findmntArgs (target : string) : list string :=
  ["-o"; "TARGET,PROPAGATION,FSTYPE,OPTIONS"; "-J"; "-M"; target].

(** [IsMounted] *)
Definition IsMounted (e : Env) (target : string) : returns (bool * option error) :=
  if String.eqb target "" then
    Return (false, Some (Errorf "isMounted target can't be empty"))
  else
    let findMntCmd := "findmnt" in
    match checkExecutable e findMntCmd with
    | Some err => Return (false, Some err)
    | None =>
      let args := findmntArgs target in
      let out := cmd_out e findMntCmd args in
      match cmd_err e findMntCmd args with
      | Some msg =>
        if String.eqb (TrimSpace out) "" then Return (false, None)
        else Return (false, Some (execError findMntCmd msg))
      | None =>
        if String.eqb (TrimSpace out) "" then Return (false, None)
        else
          match json_Unmarshal out with
          | Err err => Return (false, Some (Errorf ("error on unmarshal: " +:+ Error err)))
          | Ok None => Panic
          | Ok (Some resp) => Return (rangeFileSystems target (FileSystems resp) false)
          end
      end
    end.

End IsMounted.

End LinuxMounter.

End volumes.

(** ** Package plugin *)

Module plugin.

Import volumes.

(** *** constants.go *)

Definition Kb : Z := Z.shiftl 1 (10 * 1).
Definition Mb : Z := Z.shiftl 1 (10 * 2).
Definition Gb : Z := Z.shiftl 1 (10 * 3).

Definition defaultVolumeSize : Z := 1 * Gb.
Definition minimumVolumeSize : Z := 1 * Gb.
Definition maximumVolumeSize : Z := 200 * Gb.
Definition maxVolumesPerNode : Z := 200.

(** *** The messages of the CSI contract that the handlers read or build *)

Record CapacityRange : Type := {
  RequiredBytes : Z;
  LimitBytes : Z
}.

Inductive VolumeCapability_AccessMode_Mode : Type :=
  | UNKNOWN
  | SINGLE_NODE_WRITER
  | SINGLE_NODE_READER_ONLY
  | MULTI_NODE_READER_ONLY
  | MULTI_NODE_SINGLE_WRITER
  | MULTI_NODE_MULTI_WRITER
  | SINGLE_NODE_SINGLE_WRITER
  | SINGLE_NODE_MULTI_WRITER
  | Mode_number (n : Z) (* an enum number without a name *).

#[global] Instance Mode_eq_dec : EqDecision VolumeCapability_AccessMode_Mode.
Proof. solve_decision. Defined.

(** [Mode.String()] *)
Definition Mode_String (m : VolumeCapability_AccessMode_Mode) : string :=
  match m with
  | UNKNOWN => "UNKNOWN"
  | SINGLE_NODE_WRITER => "SINGLE_NODE_WRITER"
  | SINGLE_NODE_READER_ONLY => "SINGLE_NODE_READER_ONLY"
  | MULTI_NODE_READER_ONLY => "MULTI_NODE_READER_ONLY"
  | MULTI_NODE_SINGLE_WRITER => "MULTI_NODE_SINGLE_WRITER"
  | MULTI_NODE_MULTI_WRITER => "MULTI_NODE_MULTI_WRITER"
  | SINGLE_NODE_SINGLE_WRITER => "SINGLE_NODE_SINGLE_WRITER"
  | SINGLE_NODE_MULTI_WRITER => "SINGLE_NODE_MULTI_WRITER"
  | Mode_number n => itoa n
  end.

(** The [AccessType] oneof; an unset oneof is [None]. *)
Inductive VolumeCapability_AccessType : Type :=
  | VolumeCapability_Block
  | VolumeCapability_Mount (FsType : string) (MountFlags : list string).

(** A capability; [AccessMode] is a pointer and may be nil ([None]). *)
Record VolumeCapability : Type := {
  AccessType : option VolumeCapability_AccessType;
  AccessMode : option VolumeCapability_AccessMode_Mode
}.

Record Topology : Type := {
  Segments : gmap string string
}.

Record TopologyRequirement : Type := {
  Requisite : list Topology;
  Preferred : list Topology
}.

Record CreateVolumeRequest : Type := {
  Name : string;
  CapacityRange_ : option CapacityRange;
  VolumeCapabilities : list VolumeCapability;
  AccessibilityRequirements : option TopologyRequirement
}.

Record Volume : Type := {
  CapacityBytes : Z;
  VolumeId : string;
  AccessibleTopology : list Topology
}.

Record CreateVolumeResponse : Type := {
  Volume_ : Volume
}.

Record DeleteVolumeRequest : Type := {
  DeleteVolumeRequest_VolumeId : string
}.

Inductive DeleteVolumeResponse : Type := Build_DeleteVolumeResponse.

Record ControllerExpandVolumeRequest : Type := {
  ControllerExpandVolumeRequest_VolumeId : string;
  ControllerExpandVolumeRequest_CapacityRange : option CapacityRange
}.

Record ControllerExpandVolumeResponse : Type := {
  ControllerExpandVolumeResponse_CapacityBytes : Z;
  NodeExpansionRequired : bool
}.

Record NodeExpandVolumeRequest : Type := {
  NodeExpandVolumeRequest_VolumeId : string;
  NodeExpandVolumeRequest_CapacityRange : option CapacityRange;
  NodeExpandVolumeRequest_VolumeCapability : option VolumeCapability
}.

Record NodeExpandVolumeResponse : Type := {
  NodeExpandVolumeResponse_CapacityBytes : Z
}.

(** google.golang.org/grpc/codes *)
Inductive Code : Type :=
  | OK | Canceled | Unknown | InvalidArgument | DeadlineExceeded | NotFound
  | AlreadyExists | PermissionDenied | ResourceExhausted | FailedPrecondition
  | Aborted | OutOfRange | Unimplemented | Internal | Unavailable | DataLoss
  | Unauthenticated.

#[global] Instance Code_eq_dec : EqDecision Code.
Proof. solve_decision. Defined.

(** What a handler returns: a response, or a [status.Error(code, message)]. *)
Inductive rpc (A : Type) : Type :=
  | Reply (response : A)
  | Status (code : Code) (message : string).
Arguments Reply {A} response.
Arguments Status {A} code message.

(** The lines written through the plugin's own logger ([p.logger]). *)
Inductive Level : Type := DebugLevel | InfoLevel | ErrorLevel.

Record LogEntry : Type := {
  level : Level;
  text : string;
  fields : list (string * string)
}.

(** The outcome of one handler call: what it returns (or a panic), the
    image files it leaves, and what it logged. *)
Record Handled (A : Type) : Type := {
  reply : returns (rpc A);
  files : Files;
  logged : list LogEntry
}.
Arguments reply {A} _.
Arguments files {A} _.
Arguments logged {A} _.

(** *** plugin.go *)

Record Plugin (T : Type) : Type := {
  name : string;
  version : string;
  nodeId : string;
  nodeNameTopologyKey : string;
  socket : string;
  volumeController : T
}.
Arguments name {T} _.
Arguments version {T} _.
Arguments nodeId {T} _.
Arguments nodeNameTopologyKey {T} _.
Arguments socket {T} _.
Arguments volumeController {T} _.

(** *** controller.go and node.go *)

(** [calculateVolumeSize]; a nil range is [None].  On an error Go
    returns [(0, err)]; every caller drops the zero. *)
Definition calculateVolumeSize (capRange : option CapacityRange) : result Z :=
  match capRange with
  | None => Ok defaultVolumeSize
  | Some capRange =>
    let required := RequiredBytes capRange in
    let requiredSet := 0 <? required in
    let limit := LimitBytes capRange in
    let limitSet := 0 <? limit in
    if negb requiredSet && negb limitSet then Ok defaultVolumeSize
    else if requiredSet && limitSet && (limit <? required) then
      Err (Errorf ("limit (" +:+ itoa limit +:+ ") can't be less than required ("
                   +:+ itoa required +:+ ") size"))
    else if requiredSet && (required <? minimumVolumeSize) then
      Err (Errorf ("required (" +:+ itoa required
                   +:+ ") can't be less than minimum supported volume size ("
                   +:+ itoa minimumVolumeSize +:+ ")"))
    else if limitSet && (limit <? minimumVolumeSize) then
      Err (Errorf ("limit (" +:+ itoa limit
                   +:+ ") can't be less than minimum supported volume size ("
                   +:+ itoa minimumVolumeSize +:+ ")"))
    else if requiredSet && (maximumVolumeSize <? required) then
      Err (Errorf ("required (" +:+ itoa required
                   +:+ ") can't be greater than maximum supported volume size ("
                   +:+ itoa maximumVolumeSize +:+ ")"))
    else if limitSet && (maximumVolumeSize <? limit) then
      Err (Errorf ("limit (" +:+ itoa limit
                   +:+ ") can't be greater than maximum supported volume size ("
                   +:+ itoa maximumVolumeSize +:+ ")"))
    else if requiredSet && limitSet && (required =? limit) then Ok limit
    else if limitSet then Ok limit
    else if requiredSet then Ok required
    else Ok defaultVolumeSize
  end.

Definition logDebug (msg : string) (fs : list (string * string)) : LogEntry :=
  {| level := DebugLevel; text := msg; fields := fs |}.
Definition logInfo (msg : string) (fs : list (string * string)) : LogEntry :=
  {| level := InfoLevel; text := msg; fields := fs |}.
Definition logError (msg : string) (fs : list (string * string)) : LogEntry :=
  {| level := ErrorLevel; text := msg; fields := fs |}.

Section Handlers.

Context {T : Type} `{VolumeController T}.

(** [fmt.Sprintf(format)] without operands, as [status.Errorf] applies it
    to a message that was already formatted: the identity on a text
    without [%]; a [%] in it is read as a verb with a missing operand. *)
Variable fmt_Sprintf0 : string -> string.

(** The loop over [request.VolumeCapabilities] of CreateVolume: the first
    capability that is refused ends the call. *)
Fixpoint rangeVolumeCapabilities (volumeId : string) (l : list VolumeCapability)
  : option (returns (rpc CreateVolumeResponse)) :=
  match l with
  | [] => None
  | c :: rest =>
    match AccessMode c with
    | None => Some Panic
    | Some mode =>
      if negb (bool_decide (mode = SINGLE_NODE_WRITER)) then
        Some (Return (Status InvalidArgument
          ("CreateVolume (" +:+ volumeId +:+ ") unsupported access mode: "
           +:+ Mode_String mode)))
      else
        match AccessType c with
        | Some (VolumeCapability_Mount _ _) => rangeVolumeCapabilities volumeId rest
        | _ =>
          Some (Return (Status InvalidArgument
            ("CreateVolume (" +:+ volumeId +:+ ") unsupported access type")))
        end
    end
  end.

(** [CreateVolume] *)
Definition CreateVolume (p : Plugin T) (e : Env) (fs : Files)
    (request : CreateVolumeRequest) : Handled CreateVolumeResponse :=
  let volumeId := Name request in
  let l0 := [logDebug "CreateVolume called" [("volume_id", Name request)]] in
  if String.eqb volumeId "" then
    {| reply := Return (Status InvalidArgument "CreateVolume invalid argument: name");
       files := fs; logged := l0 |}
  else if (length (VolumeCapabilities request) =? 0)%nat then
    {| reply := Return (Status InvalidArgument
         ("CreateVolume (" +:+ volumeId +:+ ") invalid argument: volumeCapabilities"));
       files := fs; logged := l0 |}
  else
    match rangeVolumeCapabilities volumeId (VolumeCapabilities request) with
    | Some r => {| reply := r; files := fs; logged := l0 |}
    | None =>
      match AccessibilityRequirements request with
      | None => {| reply := Panic; files := fs; logged := l0 |}
      | Some requirements =>
        let topologyList := Preferred requirements in
        match topologyList with
        | [] =>
          {| reply := Return (Status InvalidArgument
               ("CreateVolume (" +:+ volumeId
                +:+ ") invalid argument: no preferred topology set"));
             files := fs;
             logged := l0 ++ [logError "No preferred topology set. Make sure that external-provisioner run with --strict-topology flag." []] |}
        | topology0 :: _ =>
          let segments := Segments topology0 in
          match segments !! nodeNameTopologyKey p with
          | None =>
            {| reply := Return (Status InvalidArgument
                 (fmt_Sprintf0 ("CreateVolume (" +:+ volumeId +:+ ") topology key ("
                                +:+ nodeNameTopologyKey p +:+ ") not found")));
               files := fs; logged := l0 |}
          | Some nodeName =>
            match calculateVolumeSize (CapacityRange_ request) with
            | Err err =>
              {| reply := Return (Status OutOfRange
                   ("CreateVolume (" +:+ volumeId
                    +:+ ") invalid argument: capacityRange: " +:+ Error err));
                 files := fs; logged := l0 |}
            | Ok size =>
              match Create (volumeController p) e fs volumeId size with
              | (Some err, fs') =>
                if bool_decide (err = ErrorVolumeAlreadyExists) then
                  {| reply := Return (Reply {| Volume_ :=
                       {| VolumeId := volumeId; CapacityBytes := size;
                          AccessibleTopology := [] |} |});
                     files := fs';
                     logged := l0 ++ [logInfo "Volume already exists" [("volume_id", volumeId)]] |}
                else
                  {| reply := Return (Status Internal
                       ("CreateVolume (" +:+ volumeId +:+ ") error create volume: "
                        +:+ Error err));
                     files := fs'; logged := l0 |}
              | (None, fs') =>
                {| reply := Return (Reply {| Volume_ :=
                     {| CapacityBytes := size; VolumeId := volumeId;
                        AccessibleTopology :=
                          [ {| Segments := {[ nodeNameTopologyKey p := nodeName ]} |} ] |} |});
                   files := fs';
                   logged := l0 ++ [logInfo "Volume was created" [("volume_id", volumeId)]] |}
              end
            end
          end
        end
      end
    end.

(** [DeleteVolume] *)
Definition DeleteVolume (p : Plugin T) (e : Env) (fs : Files)
    (request : DeleteVolumeRequest) : Handled DeleteVolumeResponse :=
  let volumeId := DeleteVolumeRequest_VolumeId request in
  let l0 := [logDebug "DeleteVolume called" [("volume_id", volumeId)]] in
  if String.eqb volumeId "" then
    {| reply := Return (Status InvalidArgument "DeleteVolume invalid argument: volumeId");
       files := fs; logged := l0 |}
  else
    match Delete (volumeController p) e fs volumeId with
    | (Some err, fs') =>
      if bool_decide (err = ErrorVolumeNotFound) then
        {| reply := Return (Reply Build_DeleteVolumeResponse);
           files := fs';
           logged := l0 ++ [logInfo "Assuming volume is already deleted because it does not exist"
                                    [("volume_id", volumeId)]] |}
      else
        {| reply := Return (Status Internal
             ("DeleteVolume (" +:+ volumeId +:+ ") error delete volume: " +:+ Error err));
           files := fs'; logged := l0 |}
    | (None, fs') =>
      {| reply := Return (Reply Build_DeleteVolumeResponse);
         files := fs';
         logged := l0 ++ [logInfo "Volume was deleted" [("volume_id", volumeId)]] |}
    end.

(** [ControllerExpandVolume] *)
Definition ControllerExpandVolume (p : Plugin T) (fs : Files)
    (request : ControllerExpandVolumeRequest) : Handled ControllerExpandVolumeResponse :=
  let volumeId := ControllerExpandVolumeRequest_VolumeId request in
  let l0 := [logDebug "ControllerExpandVolume called" [("volume_id", volumeId)]] in
  if String.eqb volumeId "" then
    {| reply := Return (Status InvalidArgument "ControllerExpandVolume invalid argument: name");
       files := fs; logged := l0 |}
  else
    match calculateVolumeSize (ControllerExpandVolumeRequest_CapacityRange request) with
    | Err err =>
      {| reply := Return (Status OutOfRange
           ("ControllerExpandVolume (" +:+ volumeId
            +:+ ") invalid argument: capacityRange: " +:+ Error err));
         files := fs; logged := l0 |}
    | Ok size =>
      {| reply := Return (Reply {| ControllerExpandVolumeResponse_CapacityBytes := size;
                                   NodeExpansionRequired := true |});
         files := fs; logged := l0 |}
    end.

(** [NodeExpandVolume] *)
Definition NodeExpandVolume (p : Plugin T) (e : Env) (fs : Files)
    (request : NodeExpandVolumeRequest) : Handled NodeExpandVolumeResponse :=
  let volumeId := NodeExpandVolumeRequest_VolumeId request in
  let l0 := [logDebug "NodeExpandVolume called" [("volume_id", volumeId)]] in
  if String.eqb (NodeExpandVolumeRequest_VolumeId request) "" then
    {| reply := Return (Status InvalidArgument "NodeExpandVolume invalid argument: VolumeId");
       files := fs; logged := l0 |}
  else
    match NodeExpandVolumeRequest_VolumeCapability request with
    | None =>
      {| reply := Return (Status InvalidArgument
           ("NodeExpandVolume (" +:+ volumeId +:+ ") invalid argument: VolumeCapability"));
         files := fs; logged := l0 |}
    | Some capability =>
      match AccessType capability with
      | Some (VolumeCapability_Mount _ _) =>
        match calculateVolumeSize (NodeExpandVolumeRequest_CapacityRange request) with
        | Err err =>
          {| reply := Return (Status OutOfRange
               ("NodeExpandVolume (" +:+ volumeId
                +:+ ") invalid argument: capacityRange: " +:+ Error err));
             files := fs; logged := l0 |}
        | Ok size =>
          match ExpandVolumeSize (volumeController p) e fs volumeId size with
          | (Some err, fs') =>
            if bool_decide (err = ErrorVolumeNotFound) then
              {| reply := Return (Status NotFound
                   ("NodeExpandVolume error expand volume size: volume (" +:+ volumeId
                    +:+ ") not found"));
                 files := fs'; logged := l0 |}
            else
              {| reply := Return (Status Internal
                   ("NodeExpandVolume (" +:+ volumeId +:+ ") error expand volume size: "
                    +:+ Error err));
                 files := fs'; logged := l0 |}
          | (None, fs') =>
            match ResizeDeviceFileSystem (volumeController p) e fs' volumeId with
            | (Some err, fs'') =>
              {| reply := Return (Status Internal
                   ("NodeExpandVolume (" +:+ volumeId +:+ ") error resize filesystem: "
                    +:+ Error err));
                 files := fs''; logged := l0 |}
            | (None, fs'') =>
              {| reply := Return (Reply {| NodeExpandVolumeResponse_CapacityBytes := size |});
                 files := fs'';
                 logged := l0 ++ [logInfo "NodeExpandVolume volume was expanded"
                                          [("volume_id", volumeId)]] |}
            end
          end
        end
      | _ =>
        {| reply := Return (Status Unimplemented
             ("NodeExpandVolume (" +:+ volumeId +:+ ") unsupported access type"));
           files := fs; logged := l0 |}
      end
    end.

End Handlers.

End plugin.

(** ** Package volumes, the staging side

    The rest of the controller (loop devices, filesystem, statistics) and
    the rest of the mounter.  The loop table and the mount table live in
    the kernel; the code asks for them afresh through losetup and findmnt
    on every call, so here they are what the oracle answers, and the
    image files are as before. *)

Module volumes_node.

Import volumes.

(** What the staging side observes beyond [Env]: for a command that
    failed, whether the error is an [exec.ExitError] and its exit code
    ([None]: another kind of error, e.g. the command could not be
    started), and the error of [os.MkdirAll], if any. *)
Record NodeEnv : Type := {
  host : Env;
  ExitCode : string -> list string -> option Z;
  MkdirAll : string -> option string
}.

(** VolumeStatistics *)
Record VolumeStatistics : Type := {
  AvailableBytes : Z;
  UsedBytes : Z;
  TotalBytes : Z;
  AvailableInodes : Z;
  UsedInodes : Z;
  TotalInodes : Z
}.

(** The methods of the VolumeController interface that staging and
    statistics use. *)
Class VolumeControllerNode (T : Type) : Type := {
  GetVolumeStats : T -> Env -> string -> result VolumeStatistics;
  AttachDevice : T -> Env -> Files -> string -> result string;
  DetachDevice : T -> Env -> Files -> string -> option error;
  FormatIfNot : T -> NodeEnv -> Files -> string -> string -> returns (option error)
}.

(** The Mounter interface. *)
Class Mounter (M : Type) : Type := {
  Mount : M -> NodeEnv -> string -> string -> list string -> returns (option error);
  Unmount : M -> NodeEnv -> string -> returns (option error);
  IsMounted : M -> NodeEnv -> string -> returns (bool * option error)
}.

Module SparseFileVolumeController.

Import volumes.SparseFileVolumeController.

(** [GetVolumeStats] *)
Definition GetVolumeStats (s : t) (e : Env) (path : string) : result VolumeStatistics :=
  if String.eqb path "" then Err (Errorf "path can't be empty")
  else
    match Statfs e path with
    | Err err => Err (Errorf ("error get volume capacity stats: " +:+ Error err))
    | Ok fs =>
      Ok {| AvailableBytes := wrap64 (wrap64 (Bavail fs) * wrap64 (Bsize fs));
            TotalBytes := wrap64 (wrap64 (Blocks fs) * wrap64 (Bsize fs));
            UsedBytes := wrap64 (wrap64 (wrap64 (Blocks fs) - wrap64 (Bfree fs))
                                 * wrap64 (Bsize fs));
            AvailableInodes := wrap64 (Ffree fs);
            TotalInodes := wrap64 (Ffiles fs);
            UsedInodes := wrap64 (wrap64 (Ffiles fs) - wrap64 (Ffree fs)) |}
    end.

(** The arguments of [losetup] in AttachDevice. *)
Definition attachArgs (s : t) (filename : string) : list string :=
  let args := ["--find"; "--show"] in
  let args := if directIO s then (args ++ ["--direct-io=on"])%list else args in
  (args ++ [filename])%list.

(** [AttachDevice] *)
Definition AttachDevice (s : t) (e : Env) (fs : Files) (volumeId : string)
  : result string :=
  if String.eqb volumeId "" then Err (Errorf "volumeId can't be empty")
  else
    let filename := getImageFullPath s volumeId in
    if negb (isFileExists fs filename) then Err ErrorVolumeNotFound
    else
      match GetDeviceByVolumeId s e fs volumeId with
      | Err err => Err (Errorf ("error get device by volumeId: " +:+ Error err))
      | Ok dev =>
        if negb (String.eqb dev "") then Ok dev
        else
          let loSetupCmd := "losetup" in
          match checkExecutable e loSetupCmd with
          | Some err => Err err
          | None =>
            let args := attachArgs s filename in
            match cmd_err e loSetupCmd args with
            | Some msg => Err (execError loSetupCmd msg)
            | None => Ok (TrimSpace (cmd_out e loSetupCmd args))
            end
          end
      end.

(** [DetachDevice] *)
Definition DetachDevice (s : t) (e : Env) (fs : Files) (volumeId : string)
  : option error :=
  if String.eqb volumeId "" then Some (Errorf "volumeId can't be empty")
  else
    let filename := getImageFullPath s volumeId in
    if negb (isFileExists fs filename) then Some ErrorVolumeNotFound
    else
      let loSetupCmd := "losetup" in
      match checkExecutable e loSetupCmd with
      | Some err => Some err
      | None =>
        let args := ["--detach-all"; filename] in
        match cmd_err e loSetupCmd args with
        | Some msg => Some (execError loSetupCmd msg)
        | None => None
        end
      end.

(** [getCurrentFilesystem].  The code reads the exit code through a type
    assertion of [err] to a pointer to [exec.ExitError] without the
    two-value form, which panics on an error of another type. *)
Definition getCurrentFilesystem (e : NodeEnv) (fs : Files) (filename : string)
  : returns (result string) :=
  if String.eqb filename "" then Return (Err (Errorf "filename can't be empty"))
  else if negb (isFileExists fs filename) then Return (Err ErrorVolumeNotFound)
  else
    let blkIdCmd := "blkid" in
    match checkExecutable (host e) blkIdCmd with
    | Some err => Return (Err err)
    | None =>
      let args := ["-o"; "value"; "-s"; "TYPE"; filename] in
      match cmd_err (host e) blkIdCmd args with
      | Some msg =>
        match ExitCode e blkIdCmd args with
        | None => Panic
        | Some code =>
          if code =? 2 then Return (Ok "")
          else Return (Err (execError blkIdCmd msg))
        end
      | None => Return (Ok (TrimSpace (cmd_out (host e) blkIdCmd args)))
      end
    end.

(** [FormatIfNot] *)
Definition FormatIfNot (s : t) (e : NodeEnv) (fs : Files) (volumeId : string)
    (fsType : string) : returns (option error) :=
  if String.eqb volumeId "" then Return (Some (Errorf "volumeId can't be empty"))
  else if negb (String.eqb fsType "ext4") then
    Return (Some (Errorf ("given filesystem type (" +:+ fsType +:+ ") not supported")))
  else
    let filename := getImageFullPath s volumeId in
    if negb (isFileExists fs filename) then Return (Some ErrorVolumeNotFound)
    else
      match getCurrentFilesystem e fs filename with
      | Panic => Panic
      | Return (Err err) =>
        Return (Some (Errorf ("error get current filesystem: " +:+ Error err)))
      | Return (Ok currentFs) =>
        if String.eqb currentFs fsType then Return None
        else
          let mkfsCmd := "mkfs." +:+ fsType in
          match checkExecutable (host e) mkfsCmd with
          | Some err => Return (Some err)
          | None =>
            let args := [filename] in
            match cmd_err (host e) mkfsCmd args with
            | Some msg => Return (Some (execError mkfsCmd msg))
            | None => Return None
            end
          end
      end.

End SparseFileVolumeController.

#[global] Instance SparseFile_VolumeControllerNode
  : VolumeControllerNode volumes.SparseFileVolumeController.t := {|
  GetVolumeStats := SparseFileVolumeController.GetVolumeStats;
  AttachDevice := SparseFileVolumeController.AttachDevice;
  DetachDevice := SparseFileVolumeController.DetachDevice;
  FormatIfNot := SparseFileVolumeController.FormatIfNot
|}.

Module LinuxMounter.

Import volumes.LinuxMounter.

(** LinuxMounter has no field besides its logger. *)
Inductive t : Type := NewLinuxMounter.

Section Mount.

(** [json.Unmarshal], as in [volumes.LinuxMounter.IsMounted]. *)
Variable json_Unmarshal : string -> result (option findMntResponse).

(** The arguments of [mount]. *)
Definition mountArgs (source target : string) (options : list string) : list string :=
  let args := [] in
  let args := if (0 <? length options)%nat
              then (args ++ ["-o"; Join options ","])%list else args in
  (args ++ [source; target])%list.

(** [Mount] *)
Definition Mount (e : NodeEnv) (source target : string) (options : list string)
  : returns (option error) :=
  if String.eqb source "" then Return (Some (Errorf "mount source can't be empty"))
  else if String.eqb target "" then Return (Some (Errorf "mount target can't be empty"))
  else
    match IsMounted json_Unmarshal (host e) target with
    | Panic => Panic
    | Return (_, Some err) =>
      Return (Some (Errorf ("error check if target mounted: " +:+ Error err)))
    | Return (isMounted, None) =>
      if isMounted then Return None
      else
        match MkdirAll e target with
        | Some msg => Return (Some (Errorf ("error create directory: " +:+ msg)))
        | None =>
          let mountCmd := "mount" in
          match checkExecutable (host e) mountCmd with
          | Some err => Return (Some err)
          | None =>
            let args := mountArgs source target options in
            match cmd_err (host e) mountCmd args with
            | Some msg => Return (Some (execError mountCmd msg))
            | None => Return None
            end
          end
        end
    end.

(** [Unmount] *)
Definition Unmount (e : NodeEnv) (target : string) : returns (option error) :=
  if String.eqb target "" then Return (Some (Errorf "unmount target can't be empty"))
  else
    match IsMounted json_Unmarshal (host e) target with
    | Panic => Panic
    | Return (_, Some err) =>
      Return (Some (Errorf ("error check if target mounted: " +:+ Error err)))
    | Return (isMounted, None) =>
      if negb isMounted then Return None
      else
        let umountCmd := "umount" in
        match checkExecutable (host e) umountCmd with
        | Some err => Return (Some err)
        | None =>
          let args := [target] in
          match cmd_err (host e) umountCmd args with
          | Some msg => Return (Some (execError umountCmd msg))
          | None => Return None
          end
        end
    end.

(** The Linux mounter as a [Mounter], for a given JSON decoder. *)
Definition LinuxMounter_Mounter : Mounter t := {|
  volumes_node.Mount := fun _ => Mount;
  volumes_node.Unmount := fun _ => Unmount;
  volumes_node.IsMounted := fun _ e target => IsMounted json_Unmarshal (host e) target
|}.

End Mount.

End LinuxMounter.

End volumes_node.

(** ** Package plugin, the remaining handlers of node.go and controller.go

    The plugin's [mounter] field is passed beside the plugin value.  None
    of these handlers creates, removes or resizes an image file. *)

Module plugin_node.

Import volumes plugin volumes_node.

Record NodeStageVolumeRequest : Type := {
  NodeStageVolumeRequest_VolumeId : string;
  NodeStageVolumeRequest_StagingTargetPath : string;
  NodeStageVolumeRequest_VolumeCapability : option VolumeCapability
}.

Inductive NodeStageVolumeResponse : Type := Build_NodeStageVolumeResponse.

Record NodeUnstageVolumeRequest : Type := {
  NodeUnstageVolumeRequest_VolumeId : string;
  NodeUnstageVolumeRequest_StagingTargetPath : string
}.

Inductive NodeUnstageVolumeResponse : Type := Build_NodeUnstageVolumeResponse.

Record NodePublishVolumeRequest : Type := {
  NodePublishVolumeRequest_VolumeId : string;
  NodePublishVolumeRequest_StagingTargetPath : string;
  NodePublishVolumeRequest_TargetPath : string;
  NodePublishVolumeRequest_VolumeCapability : option VolumeCapability;
  Readonly : bool
}.

Inductive NodePublishVolumeResponse : Type := Build_NodePublishVolumeResponse.

Record NodeUnpublishVolumeRequest : Type := {
  NodeUnpublishVolumeRequest_VolumeId : string;
  NodeUnpublishVolumeRequest_TargetPath : string
}.

Inductive NodeUnpublishVolumeResponse : Type := Build_NodeUnpublishVolumeResponse.

Record NodeGetVolumeStatsRequest : Type := {
  NodeGetVolumeStatsRequest_VolumeId : string;
  VolumePath : string
}.

Inductive VolumeUsage_Unit : Type :=
  | VolumeUsage_UNKNOWN
  | VolumeUsage_BYTES
  | VolumeUsage_INODES.

Record VolumeUsage : Type := {
  Available : Z;
  Total : Z;
  Used : Z;
  Unit : VolumeUsage_Unit
}.

Record NodeGetVolumeStatsResponse : Type := {
  Usage : list VolumeUsage
}.

Record NodeGetInfoResponse : Type := {
  NodeId : string;
  MaxVolumesPerNode : Z;
  NodeGetInfoResponse_AccessibleTopology : option Topology
}.

Record GetCapacityResponse : Type := {
  AvailableCapacity : Z;
  MaximumVolumeSize : option Z;
  MinimumVolumeSize : option Z
}.

Section Handlers.

Context {T : Type} {VC : VolumeController T} {VCN : VolumeControllerNode T}.
Context {M : Type} {MT : Mounter M}.

(** [NodeStageVolume] *)
Definition NodeStageVolume (p : Plugin T) (mounter : M) (e : NodeEnv) (fs : Files)
    (request : NodeStageVolumeRequest) : Handled NodeStageVolumeResponse :=
  let volumeId := NodeStageVolumeRequest_VolumeId request in
  let l0 := [logDebug "NodeStageVolume called" [("volume_id", volumeId)]] in
  if String.eqb volumeId "" then
    {| reply := Return (Status InvalidArgument "NodeStageVolume invalid argument: volumeId");
       files := fs; logged := l0 |}
  else if String.eqb (NodeStageVolumeRequest_StagingTargetPath request) "" then
    {| reply := Return (Status InvalidArgument
         ("NodeStageVolume (" +:+ volumeId +:+ ") invalid argument: StagingTargetPath"));
       files := fs; logged := l0 |}
  else
    match NodeStageVolumeRequest_VolumeCapability request with
    | None =>
      {| reply := Return (Status InvalidArgument
           ("NodeStageVolume (" +:+ volumeId +:+ ") invalid argument: VolumeCapability"));
         files := fs; logged := l0 |}
    | Some capability =>
      match AccessType capability with
      | Some (VolumeCapability_Mount mntFsType mntOptions) =>
        let fsType := if negb (String.eqb mntFsType "") then mntFsType else "ext4" in
        let stagingTargetPath := NodeStageVolumeRequest_StagingTargetPath request in
        match FormatIfNot (volumeController p) e fs volumeId fsType with
        | Panic => {| reply := Panic; files := fs; logged := l0 |}
        | Return (Some _) =>
          {| reply := Return (Status Internal
               ("NodeStageVolume (" +:+ volumeId +:+ ") error format volume device"));
             files := fs; logged := l0 |}
        | Return None =>
          match AttachDevice (volumeController p) (host e) fs volumeId with
          | Err err =>
            {| reply := Return (Status Internal
                 ("NodeStageVolume (" +:+ volumeId +:+ ") error attach device: "
                  +:+ Error err));
               files := fs; logged := l0 |}
          | Ok dev =>
            match Mount mounter e dev stagingTargetPath mntOptions with
            | Panic => {| reply := Panic; files := fs; logged := l0 |}
            | Return (Some err) =>
              {| reply := Return (Status Internal
                   ("NodeStageVolume (" +:+ volumeId +:+ ") error mount target: "
                    +:+ Error err));
                 files := fs; logged := l0 |}
            | Return None =>
              {| reply := Return (Reply Build_NodeStageVolumeResponse);
                 files := fs;
                 logged := l0 ++ [logInfo "NodeStageVolume volume was formatted, attached and mounted to staging path"
                                          [("volume_id", volumeId)]] |}
            end
          end
        end
      | _ =>
        {| reply := Return (Status Unimplemented
             ("NodeStageVolume (" +:+ volumeId +:+ ") unsupported access type"));
           files := fs; logged := l0 |}
      end
    end.

(** [NodeUnstageVolume] *)
Definition NodeUnstageVolume (p : Plugin T) (mounter : M) (e : NodeEnv) (fs : Files)
    (request : NodeUnstageVolumeRequest) : Handled NodeUnstageVolumeResponse :=
  let volumeId := NodeUnstageVolumeRequest_VolumeId request in
  let l0 := [logDebug "NodeUnstageVolume called" [("volume_id", volumeId)]] in
  if String.eqb volumeId "" then
    {| reply := Return (Status InvalidArgument "NodeUnstageVolume invalid argument: volumeId");
       files := fs; logged := l0 |}
  else if String.eqb (NodeUnstageVolumeRequest_StagingTargetPath request) "" then
    {| reply := Return (Status InvalidArgument
         ("NodeUnstageVolume (" +:+ volumeId +:+ ") invalid argument: StagingTargetPath"));
       files := fs; logged := l0 |}
  else
    match Unmount mounter e (NodeUnstageVolumeRequest_StagingTargetPath request) with
    | Panic => {| reply := Panic; files := fs; logged := l0 |}
    | Return (Some err) =>
      {| reply := Return (Status Internal
           ("NodeUnstageVolume (" +:+ volumeId +:+ ") error unmount staging target: "
            +:+ Error err));
         files := fs; logged := l0 |}
    | Return None =>
      match DetachDevice (volumeController p) (host e) fs volumeId with
      | Some err =>
        {| reply := Return (Status Internal
             ("NodeUnstageVolume (" +:+ volumeId +:+ ") error detach device: "
              +:+ Error err));
           files := fs; logged := l0 |}
      | None =>
        {| reply := Return (Reply Build_NodeUnstageVolumeResponse);
           files := fs;
           logged := l0 ++ [logInfo "NodeUnstageVolume volume was unmounted and detached"
                                    [("volume_id", volumeId)]] |}
      end
    end.

(** The mount options of NodePublishVolume: [bind], then [ro] for a
    read-only request, then the loop that appends the capability's mount
    flags one by one. *)
Definition publishMountOptions (readonly : bool) (mountFlags : list string)
  : list string :=
  let mountOptions := ["bind"] in
  let mountOptions := if readonly then (mountOptions ++ ["ro"])%list else mountOptions in
  fold_left (fun mountOptions flag => (mountOptions ++ [flag])%list) mountFlags mountOptions.

(** [NodePublishVolume] *)
Definition NodePublishVolume (p : Plugin T) (mounter : M) (e : NodeEnv) (fs : Files)
    (request : NodePublishVolumeRequest) : Handled NodePublishVolumeResponse :=
  let volumeId := NodePublishVolumeRequest_VolumeId request in
  let l0 := [logDebug "NodePublishVolume called" [("volume_id", volumeId)]] in
  if String.eqb volumeId "" then
    {| reply := Return (Status InvalidArgument "NodePublishVolume invalid argument: VolumeId");
       files := fs; logged := l0 |}
  else if String.eqb (NodePublishVolumeRequest_StagingTargetPath request) "" then
    {| reply := Return (Status InvalidArgument
         ("NodePublishVolume (" +:+ volumeId +:+ ") invalid argument: StagingTargetPath"));
       files := fs; logged := l0 |}
  else if String.eqb (NodePublishVolumeRequest_TargetPath request) "" then
    {| reply := Return (Status InvalidArgument
         ("NodePublishVolume (" +:+ volumeId +:+ ") invalid argument: TargetPath"));
       files := fs; logged := l0 |}
  else
    match NodePublishVolumeRequest_VolumeCapability request with
    | None =>
      {| reply := Return (Status InvalidArgument
           ("NodePublishVolume (" +:+ volumeId +:+ ") invalid argument: VolumeCapability"));
         files := fs; logged := l0 |}
    | Some capability =>
      match AccessType capability with
      | Some (VolumeCapability_Mount _ mntMountFlags) =>
        let source := NodePublishVolumeRequest_StagingTargetPath request in
        let target := NodePublishVolumeRequest_TargetPath request in
        let mountOptions := publishMountOptions (Readonly request) mntMountFlags in
        match Mount mounter e source target mountOptions with
        | Panic => {| reply := Panic; files := fs; logged := l0 |}
        | Return (Some err) =>
          {| reply := Return (Status Internal
               ("NodePublishVolume (" +:+ volumeId +:+ ") error mount volume: "
                +:+ Error err));
             files := fs; logged := l0 |}
        | Return None =>
          {| reply := Return (Reply Build_NodePublishVolumeResponse);
             files := fs;
             logged := l0 ++ [logInfo "NodePublishVolume volume was mounted to target path"
                                      [("volume_id", volumeId)]] |}
        end
      | _ =>
        {| reply := Return (Status InvalidArgument
             ("NodePublishVolume (" +:+ volumeId +:+ ") unsupported access type"));
           files := fs; logged := l0 |}
      end
    end.

(** [NodeUnpublishVolume] *)
Definition NodeUnpublishVolume (p : Plugin T) (mounter : M) (e : NodeEnv) (fs : Files)
    (request : NodeUnpublishVolumeRequest) : Handled NodeUnpublishVolumeResponse :=
  let volumeId := NodeUnpublishVolumeRequest_VolumeId request in
  let l0 := [logDebug "NodeUnpublishVolume called" [("volume_id", volumeId)]] in
  if String.eqb volumeId "" then
    {| reply := Return (Status InvalidArgument "NodeUnpublishVolume invalid argument: VolumeId");
       files := fs; logged := l0 |}
  else if String.eqb (NodeUnpublishVolumeRequest_TargetPath request) "" then
    {| reply := Return (Status InvalidArgument
         ("NodeUnpublishVolume (" +:+ volumeId +:+ ") invalid argument: TargetPath"));
       files := fs; logged := l0 |}
  else
    let target := NodeUnpublishVolumeRequest_TargetPath request in
    match Unmount mounter e target with
    | Panic => {| reply := Panic; files := fs; logged := l0 |}
    | Return (Some err) =>
      {| reply := Return (Status Internal
           ("NodeUnpublishVolume (" +:+ volumeId +:+ ") error unmount volume: "
            +:+ Error err));
         files := fs; logged := l0 |}
    | Return None =>
      {| reply := Return (Reply Build_NodeUnpublishVolumeResponse);
         files := fs;
         logged := l0 ++ [logInfo "NodeUnpublishVolume target path was unmounted"
                                  [("volume_id", volumeId)]] |}
    end.

(** [NodeGetVolumeStats] *)
Definition NodeGetVolumeStats (p : Plugin T) (mounter : M) (e : NodeEnv) (fs : Files)
    (request : NodeGetVolumeStatsRequest) : Handled NodeGetVolumeStatsResponse :=
  let volumeId := NodeGetVolumeStatsRequest_VolumeId request in
  let l0 := [logDebug "NodeGetVolumeStats called" [("volume_id", volumeId)]] in
  if String.eqb volumeId "" then
    {| reply := Return (Status InvalidArgument "NodeGetVolumeStats invalid argument: VolumeId");
       files := fs; logged := l0 |}
  else
    let path := VolumePath request in
    if String.eqb path "" then
      {| reply := Return (Status InvalidArgument
           "NodeGetVolumeStats invalid argument: VolumePath");
         files := fs; logged := l0 |}
    else
      match IsMounted mounter e path with
      | Panic => {| reply := Panic; files := fs; logged := l0 |}
      | Return (_, Some err) =>
        {| reply := Return (Status Internal
             ("NodeGetVolumeStats (" +:+ volumeId
              +:+ ") error check if volume is mounted: " +:+ Error err));
           files := fs; logged := l0 |}
      | Return (isMounted, None) =>
        if negb isMounted then
          {| reply := Return (Status NotFound
               ("NodeGetVolumeStats path (" +:+ path +:+ ") is not mounted"));
             files := fs; logged := l0 |}
        else
          match GetVolumeStats (volumeController p) (host e) path with
          | Err err =>
            {| reply := Return (Status Internal
                 ("NodeGetVolumeStats (" +:+ volumeId +:+ ") error get volume stats: "
                  +:+ Error err));
               files := fs; logged := l0 |}
          | Ok stats =>
            {| reply := Return (Reply {| Usage :=
                 [ {| Available := AvailableBytes stats; Total := TotalBytes stats;
                      Used := UsedBytes stats; Unit := VolumeUsage_BYTES |};
                   {| Available := AvailableInodes stats; Total := TotalInodes stats;
                      Used := UsedInodes stats; Unit := VolumeUsage_INODES |} ] |});
               files := fs;
               logged := l0 ++ [logInfo "NodeGetVolumeStats send volume statistics"
                                        [("volume_id", volumeId)]] |}
          end
      end.

(** [NodeGetInfo] *)
Definition NodeGetInfo (p : Plugin T) (fs : Files) : Handled NodeGetInfoResponse :=
  {| reply := Return (Reply
       {| NodeId := nodeId p;
          MaxVolumesPerNode := maxVolumesPerNode;
          NodeGetInfoResponse_AccessibleTopology :=
            Some {| Segments := {[ nodeNameTopologyKey p := nodeId p ]} |} |});
     files := fs;
     logged := [logDebug "NodeGetInfo called" []] |}.

(** [GetCapacity] *)
Definition GetCapacity (p : Plugin T) (e : Env) (fs : Files)
  : Handled GetCapacityResponse :=
  let l0 := [logDebug "GetCapacity called" []] in
  match volumes.GetCapacity (volumeController p) e with
  | Err err =>
    {| reply := Return (Status Internal
         ("GetCapacity error get capacity: " +:+ Error err));
       files := fs; logged := l0 |}
  | Ok availableCapacity =>
    {| reply := Return (Reply
         {| AvailableCapacity := availableCapacity;
            MaximumVolumeSize := Some maximumVolumeSize;
            MinimumVolumeSize := Some minimumVolumeSize |});
       files := fs;
       logged := l0 ++ [logInfo "Send available capacity"
                                [("available_capacity", itoa availableCapacity)]] |}
  end.

End Handlers.

End plugin_node.

(** ** The capacity-range rules as the specification words them *)

Module spec.

Import plugin.

(** "each field is present iff > 0" *)
Definition present (v : Z) : option Z := if 0 <? v then Some v else None.

(** Below the minimum (1 GiB) or above the maximum (200 GiB). *)
Definition out_of_bounds (v : Z) : bool :=
  (v <? 1073741824) || (214748364800 <? v).

(** Section 4.5, read as a table on which fields are present; [None] is
    the out_of_range error. *)
Definition capacity_range_size (capRange : option CapacityRange) : option Z :=
  match capRange with
  | None => Some 1073741824
  | Some r =>
    match present (RequiredBytes r), present (LimitBytes r) with
    | None, None => Some 1073741824
    | Some required, Some limit =>
      if limit <? required then None
      else if out_of_bounds required || out_of_bounds limit then None
      else if required =? limit then Some required
      else Some limit
    | None, Some limit => if out_of_bounds limit then None else Some limit
    | Some required, None => if out_of_bounds required then None else Some required
    end
  end.

End spec.

(** ** Reading results *)

Import volumes plugin.

(** The value a [result] carries, forgetting the text of the error. *)
Definition value_of {A : Type} (r : result A) : option A :=
  match r with
  | Ok a => Some a
  | Err _ => None
  end.

(** The status code of a handler's reply, when it is an error status. *)
Definition status_code {A : Type} (r : returns (rpc A)) : option Code :=
  match r with
  | Return (Status c _) => Some c
  | _ => None
  end.

(** ** Predicates on requests *)

Module validation.

Import volumes plugin.

(** "each capability mount-mode and single-writer" *)
Definition is_mount_single_writer (c : VolumeCapability) : Prop :=
  AccessMode c = Some SINGLE_NODE_WRITER /\
  exists fsType mountFlags, AccessType c = Some (VolumeCapability_Mount fsType mountFlags).

(** The requests that pass every check of CreateVolume before the size is
    computed; [nodeName] is the value of the topology key in the first
    preferred segment. *)
Definition passes_validation {T : Type} (p : Plugin T) (request : CreateVolumeRequest)
    (nodeName : string) : Prop :=
  Name request <> "" /\
  VolumeCapabilities request <> [] /\
  rangeVolumeCapabilities (Name request) (VolumeCapabilities request) = None /\
  exists requirements topology0 rest,
    AccessibilityRequirements request = Some requirements /\
    Preferred requirements = topology0 :: rest /\
    Segments topology0 !! nodeNameTopologyKey p = Some nodeName.

(** The same plugin configured with another node id. *)
Definition with_nodeId {T : Type} (p : Plugin T) (node : string) : Plugin T :=
  {| name := name p; version := version p; nodeId := node;
     nodeNameTopologyKey := nodeNameTopologyKey p; socket := socket p;
     volumeController := volumeController p |}.

(** A text mentions a word when the word occurs in it. *)
Definition mentions (message word : string) : Prop :=
  exists before after, message = before +:+ word +:+ after.

End validation.

(** ** Concrete hosts and requests for the examples *)

Module fixtures.

Import volumes plugin.

(** A controller over [/data], as the chart configures it. *)
Definition data_controller : SparseFileVolumeController.t :=
  {| SparseFileVolumeController.imagesDir := "/data";
     SparseFileVolumeController.directIO := false |}.

(** A host on which every tool is installed and every command succeeds,
    with [bfree] free blocks of 4096 bytes in the images directory and no
    loop device or mount reported. *)
Definition healthy_host (bfree : Z) : Env :=
  {| LookPath := fun _ => Found;
     cmd_err := fun _ _ => None;
     cmd_out := fun _ _ => "";
     Statfs := fun _ => Ok {| Bsize := 4096; Blocks := 26214400; Bfree := bfree;
                              Bavail := bfree; Ffiles := 6553600; Ffree := 6553000 |} |}.

(** The same host with [vol-a] attached to [/dev/loop0]. *)
Definition staged_host (bfree : Z) : Env :=
  {| LookPath := fun _ => Found;
     cmd_err := fun _ _ => None;
     cmd_out := fun cmd _ =>
       if String.eqb cmd "losetup" then "/dev/loop0: [2049]:131 (/data/vol-a.img)" else "";
     Statfs := Statfs (healthy_host bfree) |}.

Definition GiB : Z := 1073741824.

(** The images directory holding the single image [vol-a.img] of 1 GiB. *)
Definition one_volume : Files := {[ "/data/vol-a.img" := RegularFile GiB ]}.

(** A plugin on node [n1] with topology key [hostname]. *)
Definition plugin_n1 : Plugin SparseFileVolumeController.t :=
  {| name := "local-sparse.csi.reinstall.ru"; version := "0.1.0";
     nodeId := "n1"; nodeNameTopologyKey := "hostname";
     socket := "unix:///csi/csi.sock"; volumeController := data_controller |}.

Definition mount_single_writer : VolumeCapability :=
  {| AccessType := Some (VolumeCapability_Mount "" []);
     AccessMode := Some SINGLE_NODE_WRITER |}.

(** Scenario 1 and 2 of the specification: create [vol-a] with the
    preferred segment [hostname -> node]. *)
Definition create_vol_a (node : string) : CreateVolumeRequest :=
  {| Name := "vol-a"; CapacityRange_ := None;
     VolumeCapabilities := [mount_single_writer];
     AccessibilityRequirements :=
       Some {| Requisite := []; Preferred := [ {| Segments := {[ "hostname" := node ]} |} ] |} |}.

(** Scenario 4: node expansion of [vol-a] to 200 GiB. *)
Definition expand_vol_a_200 : NodeExpandVolumeRequest :=
  {| NodeExpandVolumeRequest_VolumeId := "vol-a";
     NodeExpandVolumeRequest_CapacityRange :=
       Some {| RequiredBytes := 200 * GiB; LimitBytes := 0 |};
     NodeExpandVolumeRequest_VolumeCapability := Some mount_single_writer |}.

(** Scenario 3: node expansion of [vol-a] to 5 GiB. *)
Definition expand_vol_a_5 : NodeExpandVolumeRequest :=
  {| NodeExpandVolumeRequest_VolumeId := "vol-a";
     NodeExpandVolumeRequest_CapacityRange :=
       Some {| RequiredBytes := 5368709120; LimitBytes := 0 |};
     NodeExpandVolumeRequest_VolumeCapability := Some mount_single_writer |}.

(** A formatter that leaves a text as it is: what [fmt.Sprintf] does to a
    text without verbs. *)
Definition verbatim (format : string) : string := format.

(** The JSON document findmnt prints for one mount entry. *)
Definition findmnt_json (target propagation : string) : string :=
  "{" +:+ quoted "filesystems" +:+ ": [{"
  +:+ quoted "target" +:+ ":" +:+ quoted target +:+ ", "
  +:+ quoted "propagation" +:+ ":" +:+ quoted propagation +:+ ", "
  +:+ quoted "fstype" +:+ ":" +:+ quoted "ext4" +:+ ", "
  +:+ quoted "options" +:+ ":" +:+ quoted "rw,relatime" +:+ "}]}".

Definition findmnt_entry (target propagation : string) : LinuxMounter.fileSystem :=
  {| LinuxMounter.Target := target; LinuxMounter.Propagation := propagation;
     LinuxMounter.FsType := "ext4"; LinuxMounter.Options := "rw,relatime" |}.

(** A decoder for the documents above (shared or private propagation of
    one target); any other text is a syntax error. *)
Definition decode_findmnt (target : string) (out : string)
  : result (option LinuxMounter.findMntResponse) :=
  if String.eqb out (findmnt_json target "shared") then
    Ok (Some {| LinuxMounter.FileSystems := [findmnt_entry target "shared"] |})
  else if String.eqb out (findmnt_json target "private") then
    Ok (Some {| LinuxMounter.FileSystems := [findmnt_entry target "private"] |})
  else Err (Errorf "invalid character").

(** A host whose findmnt prints [out] and exits with [exit_error]. *)
Definition findmnt_host (out : string) (exit_error : option string) : Env :=
  {| LookPath := fun _ => Found;
     cmd_err := fun cmd _ => if String.eqb cmd "findmnt" then exit_error else None;
     cmd_out := fun cmd _ => if String.eqb cmd "findmnt" then out else "";
     Statfs := fun _ => Err (Errorf "no such file or directory") |}.

End fixtures.

(** ** Sequences of calls *)

Module sequences.

Import volumes plugin.

(** The logical length of the regular file at a path, if there is one. *)
Definition image_length (fs : Files) (filename : string) : option Z :=
  match fs !! filename with
  | Some (RegularFile len) => Some len
  | _ => None
  end.

(** One [expand] call: what the host answers during the call, and the
    arguments. *)
Record expand_call : Type := {
  call_env : Env;
  call_volumeId : string;
  call_newSize : Z
}.

(** The image files after a sequence of [ExpandVolumeSize] calls, whatever
    each call returned. *)
Definition run_expands (s : SparseFileVolumeController.t)
    (calls : list expand_call) (fs : Files) : Files :=
  fold_left
    (fun fs c =>
       snd (SparseFileVolumeController.ExpandVolumeSize
              s (call_env c) fs (call_volumeId c) (call_newSize c)))
    calls fs.

(** The same CreateVolume request sent once per element of [envs] (the
    host may answer differently each time): the replies in order and the
    image files at the end. *)
Fixpoint repeat_CreateVolume (fmt_Sprintf0 : string -> string)
    (p : Plugin SparseFileVolumeController.t) (envs : list Env) (fs : Files)
    (request : CreateVolumeRequest)
  : list (returns (rpc CreateVolumeResponse)) * Files :=
  match envs with
  | [] => ([], fs)
  | e :: rest =>
    let h := CreateVolume fmt_Sprintf0 p e fs request in
    let '(replies, fs') := repeat_CreateVolume fmt_Sprintf0 p rest (files h) request in
    (reply h :: replies, fs')
  end.

End sequences.

(** ** Concrete hosts and requests for the staging side *)

Module fixtures_node.

Import volumes plugin volumes_node plugin_node fixtures.

(** A host as seen by the staging side: directories can be created and a
    failed command failed with exit status 1. *)
Definition node_env (e : Env) : NodeEnv :=
  {| host := e; ExitCode := fun _ _ => Some 1; MkdirAll := fun _ => None |}.

(** A host on which [vol-a] is formatted as ext4, attached to
    [/dev/loop0] and mounted, shared, at [/stage/vol-a]; findmnt finds
    nothing at any other path. *)
Definition staged_vol_a : Env :=
  {| LookPath := fun _ => Found;
     cmd_err := fun cmd args =>
       if String.eqb cmd "findmnt" then
         if bool_decide (args = volumes.LinuxMounter.findmntArgs "/stage/vol-a")
         then None else Some "exit status 1"
       else None;
     cmd_out := fun cmd args =>
       if String.eqb cmd "blkid" then "ext4"
       else if String.eqb cmd "losetup" then "/dev/loop0: [2049]:131 (/data/vol-a.img)"
       else if String.eqb cmd "findmnt" then
         if bool_decide (args = volumes.LinuxMounter.findmntArgs "/stage/vol-a")
         then findmnt_json "/stage/vol-a" "shared" else ""
       else "";
     Statfs := Statfs (healthy_host 2621440) |}.

(** A host on which nothing works: no tool is installed and every command
    and system call fails. *)
Definition broken_host : Env :=
  {| LookPath := fun _ => ErrNotFound;
     cmd_err := fun _ _ => Some "exit status 1";
     cmd_out := fun _ _ => "";
     Statfs := fun _ => Err (Errorf "input/output error") |}.

Definition broken_node : NodeEnv :=
  {| host := broken_host; ExitCode := fun _ _ => None;
     MkdirAll := fun _ => Some "permission denied" |}.

(** The Linux mounter with the decoder for [/stage/vol-a]. *)
Definition mounter_vol_a : Mounter volumes_node.LinuxMounter.t :=
  volumes_node.LinuxMounter.LinuxMounter_Mounter (decode_findmnt "/stage/vol-a").

Definition stage_vol_a (fsType : string) : NodeStageVolumeRequest :=
  {| NodeStageVolumeRequest_VolumeId := "vol-a";
     NodeStageVolumeRequest_StagingTargetPath := "/stage/vol-a";
     NodeStageVolumeRequest_VolumeCapability :=
       Some {| AccessType := Some (VolumeCapability_Mount fsType []);
               AccessMode := Some SINGLE_NODE_WRITER |} |}.

Definition unstage_vol_a : NodeUnstageVolumeRequest :=
  {| NodeUnstageVolumeRequest_VolumeId := "vol-a";
     NodeUnstageVolumeRequest_StagingTargetPath := "/stage/vol-a" |}.

(** Publish [vol-a] from its staging path to [/pub/vol-a]. *)
Definition publish_vol_a (readonly : bool) (flags : list string) : NodePublishVolumeRequest :=
  {| NodePublishVolumeRequest_VolumeId := "vol-a";
     NodePublishVolumeRequest_StagingTargetPath := "/stage/vol-a";
     NodePublishVolumeRequest_TargetPath := "/pub/vol-a";
     NodePublishVolumeRequest_VolumeCapability :=
       Some {| AccessType := Some (VolumeCapability_Mount "ext4" flags);
               AccessMode := Some SINGLE_NODE_WRITER |};
     Readonly := readonly |}.

(** Create [vol-a] on node [n1] with 5 GiB required. *)
Definition create_vol_a_5 : CreateVolumeRequest :=
  {| Name := "vol-a";
     CapacityRange_ := Some {| RequiredBytes := 5368709120; LimitBytes := 0 |};
     VolumeCapabilities := [mount_single_writer];
     AccessibilityRequirements :=
       Some {| Requisite := [];
               Preferred := [ {| Segments := {[ "hostname" := "n1" ]} |} ] |} |}.

(** The host of [staged_vol_a] as a node on which nothing more can be
    set up: [mount] and [mkfs.ext4] are not installed and directories
    cannot be created. *)
Definition staged_read_only : NodeEnv :=
  {| host :=
       {| LookPath := fun cmd =>
            if String.eqb cmd "mount" || String.eqb cmd "mkfs.ext4"
            then ErrNotFound else Found;
          cmd_err := cmd_err staged_vol_a;
          cmd_out := cmd_out staged_vol_a;
          Statfs := Statfs staged_vol_a |};
     ExitCode := fun _ _ => Some 1;
     MkdirAll := fun _ => Some "read-only file system" |}.

(** A node on which findmnt reports [/pub/vol-a] mounted, shared, and
    directories cannot be created. *)
Definition published_vol_a : NodeEnv :=
  {| host := findmnt_host (findmnt_json "/pub/vol-a" "shared") None;
     ExitCode := fun _ _ => Some 1;
     MkdirAll := fun _ => Some "read-only file system" |}.

(** A node on which [vol-a] has just been created: blkid finds no
    filesystem on the image (exit status 2), no loop device is attached
    yet, [losetup --find --show] prints the new device on a line of its
    own, and nothing is mounted. *)
Definition unformatted_vol_a : NodeEnv :=
  {| host :=
       {| LookPath := fun _ => Found;
          cmd_err := fun cmd _ =>
            if String.eqb cmd "blkid" || String.eqb cmd "findmnt"
            then Some "exit status 2" else None;
          cmd_out := fun cmd args =>
            if String.eqb cmd "losetup" then
              if bool_decide (args = ["--find"; "--show"; "/data/vol-a.img"])
              then "/dev/loop0" +:+ String (Ascii.ascii_of_nat 10) ""
              else ""
            else "";
          Statfs := Statfs (healthy_host 2621440) |};
     ExitCode := fun _ _ => Some 2;
     MkdirAll := fun _ => None |}.

End fixtures_node.

(** * Properties *)

Import sequences fixtures validation.

(** *** The string helpers on sample texts *)

Example itoa_neg : itoa (-12) = "-12".
Proof. reflexivity. Qed.

Example trimsuffix_1 : TrimSuffix "/data/" "/" = "/data".
Proof. reflexivity. Qed.

Example trimsuffix_2 : TrimSuffix "/data//" "/" = "/data/".
Proof. reflexivity. Qed.

Example trimsuffix_3 : TrimSuffix "/data" "/" = "/data".
Proof. reflexivity. Qed.

Example trimspace_1 : TrimSpace "  /dev/loop0
" = "/dev/loop0".
Proof. reflexivity. Qed.

Example split_1 : Split "/dev/loop3: [64769]:1573 (/data/vol-a.img)" ":"%char =
  ["/dev/loop3"; " [64769]"; "1573 (/data/vol-a.img)"].
Proof. reflexivity. Qed.

Example split_2 : Split "" ":"%char = [""].
Proof. reflexivity. Qed.

(** *** The end-to-end scenarios of the specification on the model *)

Example scenario_1_create_default_size :
  let h := CreateVolume verbatim plugin_n1 (healthy_host 2621440) ∅ (create_vol_a "n1") in
  reply h = Return (Reply {| Volume_ :=
    {| CapacityBytes := 1073741824; VolumeId := "vol-a";
       AccessibleTopology := [ {| Segments := {[ "hostname" := "n1" ]} |} ] |} |}) /\
  image_length (files h) "/data/vol-a.img" = Some 1073741824.
Proof. split; vm_compute; reflexivity. Qed.

Example scenario_3_expand :
  let h := NodeExpandVolume plugin_n1 (staged_host 2621440) one_volume expand_vol_a_5 in
  reply h = Return (Reply {| NodeExpandVolumeResponse_CapacityBytes := 5368709120 |}) /\
  image_length (files h) "/data/vol-a.img" = Some 5368709120.
Proof. split; vm_compute; reflexivity. Qed.

Example scenario_3_not_staged :
  reply (NodeExpandVolume plugin_n1 (healthy_host 2621440) one_volume expand_vol_a_5) =
    Return (Status Internal "NodeExpandVolume (vol-a) error resize filesystem: volume not found").
Proof. vm_compute; reflexivity. Qed.

Example delete_twice :
  let h1 := DeleteVolume plugin_n1 (healthy_host 0) one_volume
              {| DeleteVolumeRequest_VolumeId := "vol-a" |} in
  let h2 := DeleteVolume plugin_n1 (healthy_host 0) (files h1)
              {| DeleteVolumeRequest_VolumeId := "vol-a" |} in
  reply h1 = Return (Reply Build_DeleteVolumeResponse) /\
  reply h2 = Return (Reply Build_DeleteVolumeResponse) /\
  files h2 = ∅.
Proof. repeat split; vm_compute; reflexivity. Qed.

(** *** Capacity-range arithmetic *)

Lemma minimumVolumeSize_eq : minimumVolumeSize = 1073741824.
Proof. reflexivity. Qed.

Lemma maximumVolumeSize_eq : maximumVolumeSize = 214748364800.
Proof. reflexivity. Qed.

Lemma defaultVolumeSize_eq : defaultVolumeSize = 1073741824.
Proof. reflexivity. Qed.

Ltac size_constants :=
  rewrite ?minimumVolumeSize_eq, ?maximumVolumeSize_eq, ?defaultVolumeSize_eq in *.

Ltac split_comparisons :=
  repeat match goal with
  | |- context [?a <? ?b] => destruct (Z.ltb_spec a b)
  | |- context [?a =? ?b] => destruct (Z.eqb_spec a b)
  | H : context [?a <? ?b] |- _ => destruct (Z.ltb_spec a b)
  | H : context [?a =? ?b] |- _ => destruct (Z.eqb_spec a b)
  end.

Lemma calculateVolumeSize_spec (capRange : option CapacityRange) :
  value_of (calculateVolumeSize capRange) = spec.capacity_range_size capRange.
Proof.
  destruct capRange as [[required limit]|]; [|reflexivity].
  unfold calculateVolumeSize, spec.capacity_range_size, spec.present,
    spec.out_of_bounds; cbn [RequiredBytes LimitBytes].
  size_constants.
  split_comparisons; cbn; try reflexivity; try lia; f_equal; lia.
Qed.

Lemma calculateVolumeSize_bounds (capRange : option CapacityRange) (size : Z) :
  calculateVolumeSize capRange = Ok size ->
  minimumVolumeSize <= size <= maximumVolumeSize.
Proof.
  destruct capRange as [[required limit]|].
  - unfold calculateVolumeSize; cbn [RequiredBytes LimitBytes].
    size_constants.
    split_comparisons; cbn; intros Heq; inversion Heq; subst; lia.
  - cbn. intros Heq; inversion Heq. size_constants. lia.
Qed.

(** C3. For every capacity range, [calculateVolumeSize] gives the size
    that section 4.5 of the specification prescribes (the 1 GiB default
    without a range or with neither field set; the limit or the required
    size as the rules say) and fails exactly where the rules say
    out_of_range; a handler turns that failure into the OutOfRange status
    code. *)
Theorem C3_capacity_range_arithmetic :
  forall capRange : option CapacityRange,
    value_of (calculateVolumeSize capRange) = spec.capacity_range_size capRange /\
    forall (T : Type) (VC : VolumeController T) (p : Plugin T) (fs : Files)
           (volumeId : string),
      volumeId <> "" ->
      let request :=
        {| ControllerExpandVolumeRequest_VolumeId := volumeId;
           ControllerExpandVolumeRequest_CapacityRange := capRange |} in
      match spec.capacity_range_size capRange with
      | Some size =>
        reply (ControllerExpandVolume p fs request) =
        Return (Reply {| ControllerExpandVolumeResponse_CapacityBytes := size;
                         NodeExpansionRequired := true |})
      | None =>
        status_code (reply (ControllerExpandVolume p fs request)) = Some OutOfRange
      end.
Proof.
  intros capRange. split; [apply calculateVolumeSize_spec|].
  intros T VC p fs volumeId Hid request.
  rewrite <- calculateVolumeSize_spec.
  unfold ControllerExpandVolume, request; cbn.
  apply String.eqb_neq in Hid. rewrite Hid.
  destruct (calculateVolumeSize capRange); reflexivity.
Qed.

Lemma C3_capacity_range_arithmetic_witness :
  status_code
    (reply (ControllerExpandVolume plugin_n1 one_volume
              {| ControllerExpandVolumeRequest_VolumeId := "vol-a";
                 ControllerExpandVolumeRequest_CapacityRange :=
                   Some {| RequiredBytes := 5 * GiB; LimitBytes := 2 * GiB |} |}))
  = Some OutOfRange.
Proof.
  apply (proj2 (C3_capacity_range_arithmetic
                  (Some {| RequiredBytes := 5 * GiB; LimitBytes := 2 * GiB |}))
               _ _ plugin_n1 one_volume "vol-a").
  discriminate.
Defined.

(** C9. Whenever [calculateVolumeSize] returns without error the size lies
    between [minimumVolumeSize] (1073741824) and [maximumVolumeSize]
    (214748364800); a nil range and a range with neither field set give
    exactly [defaultVolumeSize], which equals the minimum. *)
Theorem C9_size_within_bounds :
  forall (capRange : option CapacityRange) (size : Z),
    calculateVolumeSize capRange = Ok size ->
    (1073741824 <= size <= 214748364800) /\
    minimumVolumeSize = 1073741824 /\
    maximumVolumeSize = 214748364800 /\
    defaultVolumeSize = minimumVolumeSize /\
    calculateVolumeSize None = Ok defaultVolumeSize /\
    (forall r : CapacityRange,
       RequiredBytes r <= 0 -> LimitBytes r <= 0 ->
       calculateVolumeSize (Some r) = Ok defaultVolumeSize).
Proof.
  intros capRange size Hsize.
  apply calculateVolumeSize_bounds in Hsize. size_constants.
  repeat split; try lia.
  intros [required limit]; cbn [RequiredBytes LimitBytes]; intros Hr Hl.
  unfold calculateVolumeSize; cbn [RequiredBytes LimitBytes].
  destruct (Z.ltb_spec 0 required); [lia|].
  destruct (Z.ltb_spec 0 limit); [lia|]. reflexivity.
Qed.

Lemma C9_size_within_bounds_witness :
  calculateVolumeSize (Some {| RequiredBytes := 5368709120; LimitBytes := 0 |})
    = Ok 5368709120 /\
  1073741824 <= 5368709120 <= 214748364800.
Proof.
  split; [reflexivity|].
  apply (C9_size_within_bounds
           (Some {| RequiredBytes := 5368709120; LimitBytes := 0 |}) 5368709120).
  reflexivity.
Defined.

(** *** The sparse-file controller *)

Section controller_facts.

Import SparseFileVolumeController.

Variable s : SparseFileVolumeController.t.

Lemma isFileExists_true (fs : Files) (filename : string) :
  isFileExists fs filename = true <-> exists len, fs !! filename = Some (RegularFile len).
Proof.
  unfold isFileExists. destruct (fs !! filename) as [[len|]|]; split;
    try discriminate; eauto; intros [len' Heq]; discriminate.
Qed.

Lemma checkExecutable_Errorf (e : Env) (cmd : string) (err : error) :
  checkExecutable e cmd = Some err -> exists msg, err = Errorf msg.
Proof.
  unfold checkExecutable. destruct (LookPath e cmd); intros Heq; inversion Heq; eauto.
Qed.

(** A failed [truncate] call leaves the files as they were. *)
Lemma truncate_failure (e : Env) (fs fs' : Files) (filename : string)
    (sizeBytes : Z) (err : error) :
  truncate e fs filename sizeBytes = (Some err, fs') ->
  fs' = fs /\ exists msg, err = Errorf msg.
Proof.
  unfold truncate.
  destruct (checkExecutable e "truncate") as [err0|] eqn:Hchk.
  - apply checkExecutable_Errorf in Hchk as [msg ->].
    intros Heq; inversion Heq; eauto.
  - destruct (cmd_err e "truncate" _); [intros Heq; inversion Heq; unfold execError; eauto|].
    destruct (truncate_effect fs filename sizeBytes);
      intros Heq; inversion Heq; unfold execError; eauto.
Qed.

(** A successful [truncate] call to a size that is not negative sets the
    length of that one file. *)
Lemma truncate_success (e : Env) (fs fs' : Files) (filename : string) (sizeBytes : Z) :
  0 <= sizeBytes ->
  truncate e fs filename sizeBytes = (None, fs') ->
  fs' = <[filename := RegularFile sizeBytes]> fs /\ fs !! filename <> Some Directory.
Proof.
  intros Hpos. unfold truncate.
  destruct (checkExecutable e "truncate"); [discriminate|].
  destruct (cmd_err e "truncate" _); [discriminate|].
  unfold truncate_effect.
  destruct (Z.ltb_spec sizeBytes 0); [lia|].
  destruct (fs !! filename) as [[len|]|]; intros Heq; inversion Heq; split;
    congruence.
Qed.

(** [GetVolumeSize] reads the length of the image. *)
Lemma GetVolumeSize_Ok (e : Env) (fs : Files) (volumeId : string) (size : Z) :
  GetVolumeSize s e fs volumeId = Ok size ->
  fs !! getImageFullPath s volumeId = Some (RegularFile size) /\
  - 2 ^ 63 <= size < 2 ^ 63.
Proof.
  unfold GetVolumeSize.
  destruct (String.eqb volumeId ""); [discriminate|].
  unfold isFileExists, stat_size.
  destruct (fs !! getImageFullPath s volumeId) as [[len|]|]; cbn; try discriminate.
  destruct (checkExecutable e "stat"); [discriminate|].
  destruct (cmd_err e "stat" _); [discriminate|].
  unfold parseStatSize.
  destruct (Z.leb_spec (- 2 ^ 63) len), (Z.ltb_spec len (2 ^ 63)); cbn;
    intros Heq; inversion Heq; subst; split; auto; lia.
Qed.

(** A positive int64 difference never comes from wrap-around when the
    new size is positive. *)
Lemma addSize_positive (newSizeBytes currentSize : Z) :
  0 < newSizeBytes ->
  - 2 ^ 63 <= currentSize < 2 ^ 63 ->
  0 < wrap64 (newSizeBytes - currentSize) ->
  currentSize < newSizeBytes.
Proof.
  intros Hnew Hcur. unfold wrap64.
  destruct (Z_lt_le_dec currentSize newSizeBytes) as [|Hle]; [auto|].
  rewrite Z.mod_small by lia. lia.
Qed.

(** One [ExpandVolumeSize] call keeps every regular file and does not
    shorten it. *)
Lemma ExpandVolumeSize_monotone (e : Env) (fs : Files) (volumeId : string)
    (newSizeBytes : Z) (filename : string) (len : Z) :
  image_length fs filename = Some len ->
  exists len',
    image_length (snd (ExpandVolumeSize s e fs volumeId newSizeBytes)) filename = Some len'
    /\ len <= len'.
Proof.
  intros Hlen.
  assert (Hsame : exists len', image_length fs filename = Some len' /\ len <= len')
    by (exists len; split; [assumption|lia]).
  unfold ExpandVolumeSize.
  destruct (String.eqb volumeId ""); [exact Hsame|].
  destruct (Z.leb_spec newSizeBytes 0) as [|Hpos]; [exact Hsame|].
  destruct (isFileExists fs (getImageFullPath s volumeId)); cbn [negb]; [|exact Hsame].
  destruct (GetVolumeSize s e fs volumeId) as [currentSize|] eqn:Hsize; [|exact Hsame].
  apply GetVolumeSize_Ok in Hsize as [Himg Hrange].
  destruct (GetCapacity s e) as [available|]; [|exact Hsame].
  destruct (Z.leb_spec available (wrap64 (newSizeBytes - currentSize))); [exact Hsame|].
  destruct (Z.ltb_spec 0 (wrap64 (newSizeBytes - currentSize))) as [Hadd|]; [|exact Hsame].
  apply addSize_positive in Hadd; [|lia|assumption].
  destruct (truncate e fs (getImageFullPath s volumeId) newSizeBytes) as [[err|] fs'] eqn:Htr.
  - apply truncate_failure in Htr as [-> _]. exact Hsame.
  - apply truncate_success in Htr as [-> _]; [|lia]. cbn [snd].
    unfold image_length in *.
    destruct (decide (getImageFullPath s volumeId = filename)) as [<-|Hne].
    + rewrite lookup_insert_eq. rewrite Himg in Hlen. inversion Hlen; subst.
      exists newSizeBytes. split; [reflexivity|lia].
    + rewrite lookup_insert_ne by assumption. exact Hsame.
Qed.

Lemma run_expands_monotone (calls : list expand_call) (fs : Files)
    (filename : string) (len : Z) :
  image_length fs filename = Some len ->
  exists len', image_length (run_expands s calls fs) filename = Some len' /\ len <= len'.
Proof.
  revert fs len. induction calls as [|c calls IH]; intros fs len Hlen.
  - exists len. split; [assumption|lia].
  - cbn.
    destruct (ExpandVolumeSize_monotone (call_env c) fs (call_volumeId c)
                (call_newSize c) filename len Hlen) as (len1 & Hlen1 & Hle1).
    destruct (IH _ _ Hlen1) as (len2 & Hlen2 & Hle2).
    exists len2. split; [exact Hlen2|lia].
Qed.

(** Every error of [Create] is a fresh [fmt.Errorf] value. *)
Lemma Create_error (e : Env) (fs : Files) (volumeId : string) (sizeBytes : Z)
    (err : error) :
  fst (Create s e fs volumeId sizeBytes) = Some err -> exists msg, err = Errorf msg.
Proof.
  unfold Create.
  destruct (String.eqb volumeId ""); [cbn; intros Heq; inversion Heq; eauto|].
  destruct (sizeBytes =? 0); [cbn; intros Heq; inversion Heq; eauto|].
  destruct (isFileExists fs _); [discriminate|].
  destruct (truncate e fs _ sizeBytes) as [[err0|] fs']; cbn;
    intros Heq; inversion Heq; eauto.
Qed.

(** Every error of [Delete] is a fresh [fmt.Errorf] value. *)
Lemma Delete_error (e : Env) (fs : Files) (volumeId : string) (err : error) :
  fst (Delete s e fs volumeId) = Some err -> exists msg, err = Errorf msg.
Proof.
  unfold Delete.
  destruct (String.eqb volumeId ""); [cbn; intros Heq; inversion Heq; eauto|].
  destruct (isFileExists fs _); cbn [negb]; [|discriminate].
  destruct (checkExecutable e "rm") as [err0|] eqn:Hchk.
  - apply checkExecutable_Errorf in Hchk as [msg ->]. cbn.
    intros Heq; inversion Heq; eauto.
  - destruct (cmd_err e "rm" _); [cbn; intros Heq; inversion Heq; unfold execError; eauto|].
    destruct (rm_effect fs _); cbn; intros Heq; inversion Heq; unfold execError; eauto.
Qed.

(** With the image present [Create] never changes the files, and succeeds
    once its two argument guards are passed. *)
Lemma Create_existing (e : Env) (fs : Files) (volumeId : string) (sizeBytes : Z) :
  isFileExists fs (getImageFullPath s volumeId) = true ->
  snd (Create s e fs volumeId sizeBytes) = fs /\
  (volumeId <> "" -> sizeBytes <> 0 -> Create s e fs volumeId sizeBytes = (None, fs)).
Proof.
  intros Hex. unfold Create. rewrite Hex.
  destruct (String.eqb_spec volumeId ""); [split; [reflexivity|congruence]|].
  destruct (Z.eqb_spec sizeBytes 0); split; try reflexivity; congruence.
Qed.

(** After a successful [Create] the image is a regular file. *)
Lemma Create_success (e : Env) (fs fs' : Files) (volumeId : string) (sizeBytes : Z) :
  Create s e fs volumeId sizeBytes = (None, fs') ->
  isFileExists fs' (getImageFullPath s volumeId) = true /\
  volumeId <> "" /\ sizeBytes <> 0.
Proof.
  unfold Create.
  destruct (String.eqb_spec volumeId ""); [discriminate|].
  destruct (Z.eqb_spec sizeBytes 0); [discriminate|].
  destruct (isFileExists fs _) eqn:Hex.
  - intros Heq; inversion Heq; subst. auto.
  - unfold truncate.
    destruct (checkExecutable e "truncate"); [discriminate|].
    destruct (cmd_err e "truncate" _); [discriminate|].
    unfold truncate_effect.
    destruct (fs !! getImageFullPath s volumeId) as [[len|]|]; try discriminate;
      intros Heq; inversion Heq; subst; (split; [|auto]);
      unfold isFileExists; rewrite lookup_insert_eq; reflexivity.
Qed.

(** With the image absent [Delete] succeeds and changes nothing. *)
Lemma Delete_absent (e : Env) (fs : Files) (volumeId : string) :
  volumeId <> "" ->
  isFileExists fs (getImageFullPath s volumeId) = false ->
  Delete s e fs volumeId = (None, fs).
Proof.
  intros Hid Hex. unfold Delete. rewrite Hex.
  destruct (String.eqb_spec volumeId ""); [congruence|reflexivity].
Qed.

(** A negative size passes the guard of [Create]: with no image present
    and a working [truncate], the call succeeds and leaves an empty
    image. *)
Lemma Create_negative_size (e : Env) (fs : Files) (volumeId : string) (sizeBytes : Z) :
  volumeId <> "" ->
  sizeBytes < 0 ->
  fs !! getImageFullPath s volumeId = None ->
  LookPath e "truncate" = Found ->
  cmd_err e "truncate" ["-s"; itoa sizeBytes; getImageFullPath s volumeId] = None ->
  Create s e fs volumeId sizeBytes =
    (None, <[getImageFullPath s volumeId := RegularFile 0]> fs).
Proof.
  intros Hid Hneg Habs Hpath Hrun. unfold Create.
  destruct (String.eqb_spec volumeId ""); [congruence|].
  destruct (Z.eqb_spec sizeBytes 0); [lia|].
  unfold isFileExists, truncate, checkExecutable, truncate_effect.
  rewrite Habs, Hpath, Hrun.
  destruct (Z.ltb_spec sizeBytes 0); [|lia].
  rewrite Z.max_l by lia. reflexivity.
Qed.

End controller_facts.

Section expand_facts.

Import SparseFileVolumeController.

Variable s : SparseFileVolumeController.t.

Lemma GetVolumeSize_Ok_guards (e : Env) (fs : Files) (volumeId : string) (size : Z) :
  GetVolumeSize s e fs volumeId = Ok size ->
  volumeId <> "" /\ isFileExists fs (getImageFullPath s volumeId) = true.
Proof.
  unfold GetVolumeSize.
  destruct (String.eqb_spec volumeId ""); [discriminate|].
  destruct (isFileExists fs _); [auto|discriminate].
Qed.

(** The no-space branch of [ExpandVolumeSize]: an error that is not the
    not-found sentinel, and untouched files. *)
Lemma ExpandVolumeSize_no_space (e : Env) (fs : Files) (volumeId : string)
    (newSizeBytes currentSize available : Z) :
  GetVolumeSize s e fs volumeId = Ok currentSize ->
  GetCapacity s e = Ok available ->
  0 < newSizeBytes ->
  available <= wrap64 (newSizeBytes - currentSize) ->
  ExpandVolumeSize s e fs volumeId newSizeBytes =
    (Some (Errorf ("addiditional space (" +:+ itoa (wrap64 (newSizeBytes - currentSize))
                   +:+ ") is not available. " +:+ itoa available
                   +:+ " bytes is available on storage")), fs).
Proof.
  intros Hsize Hcap Hpos Hle.
  destruct (GetVolumeSize_Ok_guards _ _ _ _ Hsize) as [Hid Hex].
  unfold ExpandVolumeSize. rewrite Hsize, Hcap, Hex.
  destruct (String.eqb_spec volumeId ""); [congruence|].
  destruct (Z.leb_spec newSizeBytes 0); [lia|]. cbn [negb].
  destruct (Z.leb_spec available (wrap64 (newSizeBytes - currentSize))); [reflexivity|lia].
Qed.

(** A request for a size that is not above the current one: the files are
    never touched, and the call succeeds exactly when the pool's free
    bytes exceed the (non-positive) difference. *)
Lemma ExpandVolumeSize_no_growth (e : Env) (fs : Files) (volumeId : string)
    (newSizeBytes currentSize available : Z) :
  GetVolumeSize s e fs volumeId = Ok currentSize ->
  GetCapacity s e = Ok available ->
  0 < newSizeBytes <= currentSize ->
  snd (ExpandVolumeSize s e fs volumeId newSizeBytes) = fs /\
  (fst (ExpandVolumeSize s e fs volumeId newSizeBytes) = None <->
   newSizeBytes - currentSize < available).
Proof.
  intros Hsize Hcap Hnew.
  destruct (GetVolumeSize_Ok_guards _ _ _ _ Hsize) as [Hid Hex].
  destruct (GetVolumeSize_Ok s _ _ _ _ Hsize) as [_ Hrange].
  assert (Hwrap : wrap64 (newSizeBytes - currentSize) = newSizeBytes - currentSize).
  { unfold wrap64. rewrite Z.mod_small by lia. lia. }
  unfold ExpandVolumeSize. rewrite Hsize, Hcap, Hex, Hwrap.
  destruct (String.eqb_spec volumeId ""); [congruence|].
  destruct (Z.leb_spec newSizeBytes 0); [lia|]. cbn [negb].
  destruct (Z.leb_spec available (newSizeBytes - currentSize)).
  - cbn. split; [reflexivity|]. split; [discriminate|lia].
  - destruct (Z.ltb_spec 0 (newSizeBytes - currentSize)); [lia|].
    cbn. split; [reflexivity|]. split; [lia|reflexivity].
Qed.

End expand_facts.

(** C4. The claim (success for every 0 < new_size <= current length, also
    with zero free bytes in the pool) fails on the code at this input:
    the image of [vol-a] is 1 GiB long, the pool has no free block, and
    [ExpandVolumeSize] to 1 GiB returns the no-space error (the image is
    left as it was). *)
Theorem C4_expand_to_current_size_on_full_pool :
  SparseFileVolumeController.GetVolumeSize data_controller (healthy_host 0) one_volume "vol-a"
    = Ok GiB /\
  SparseFileVolumeController.GetCapacity data_controller (healthy_host 0) = Ok 0 /\
  SparseFileVolumeController.ExpandVolumeSize data_controller (healthy_host 0)
      one_volume "vol-a" GiB =
    (Some (Errorf "addiditional space (0) is not available. 0 bytes is available on storage"),
     one_volume).
Proof. repeat split; vm_compute; reflexivity. Qed.

(** C5. Size monotonicity (I4): along every sequence of expand calls,
    whatever their arguments, their results and the host's answers, the
    length of a volume's image never decreases: the length after any
    prefix of the sequence is at most the length after the whole
    sequence, and the image stays a regular file. *)
Theorem C5_size_monotonicity :
  forall (s : SparseFileVolumeController.t) (volumeId : string)
         (before after : list expand_call) (fs : Files) (len : Z),
    image_length (run_expands s before fs)
                 (SparseFileVolumeController.getImageFullPath s volumeId) = Some len ->
    exists len',
      image_length (run_expands s (before ++ after) fs)
                   (SparseFileVolumeController.getImageFullPath s volumeId) = Some len'
      /\ len <= len'.
Proof.
  intros s volumeId before after fs len Hlen.
  unfold run_expands at 1. rewrite fold_left_app.
  apply (run_expands_monotone s after _ _ _ Hlen).
Qed.

Lemma C5_size_monotonicity_witness :
  exists len',
    image_length
      (run_expands data_controller
         ([ {| call_env := healthy_host 2621440; call_volumeId := "vol-a";
               call_newSize := 5 * GiB |} ] ++
          [ {| call_env := healthy_host 0; call_volumeId := "vol-a";
               call_newSize := 1 |};
            {| call_env := healthy_host 2621440; call_volumeId := "vol-a";
               call_newSize := 2 * GiB |} ])
         one_volume)
      (SparseFileVolumeController.getImageFullPath data_controller "vol-a") = Some len'
    /\ 5 * GiB <= len'.
Proof.
  apply (C5_size_monotonicity data_controller "vol-a").
  vm_compute. reflexivity.
Defined.

(** C6. The claim (an error and no image for every size <= 0) fails on
    the code for a negative size: [Create] of [vol-a] with size -1 on an
    empty images directory returns success and leaves an image of length
    0.  Size 0 is refused as the claim says. *)
Theorem C6_create_negative_size :
  SparseFileVolumeController.Create data_controller (healthy_host 0) ∅ "vol-a" (-1) =
    (None, {[ "/data/vol-a.img" := RegularFile 0 ]}) /\
  SparseFileVolumeController.Create data_controller (healthy_host 0) ∅ "vol-a" 0 =
    (Some (Errorf "size can't be equal 0"), ∅).
Proof. split; vm_compute; reflexivity. Qed.

(** *** The handlers, wired with the sparse-file controller *)

Section handler_facts.

Variable fmt_Sprintf0 : string -> string.
Variable p : Plugin SparseFileVolumeController.t.

(** For such a request the handler is its last two steps. *)
Lemma CreateVolume_validated (e : Env) (fs : Files) (request : CreateVolumeRequest)
    (nodeName : string) :
  passes_validation p request nodeName ->
  CreateVolume fmt_Sprintf0 p e fs request =
    let volumeId := Name request in
    let l0 := [logDebug "CreateVolume called" [("volume_id", volumeId)]] in
    match calculateVolumeSize (CapacityRange_ request) with
    | Err err =>
      {| reply := Return (Status OutOfRange
           ("CreateVolume (" +:+ volumeId
            +:+ ") invalid argument: capacityRange: " +:+ Error err));
         files := fs; logged := l0 |}
    | Ok size =>
      match SparseFileVolumeController.Create (volumeController p) e fs volumeId size with
      | (Some err, fs') =>
        {| reply := Return (Status Internal
             ("CreateVolume (" +:+ volumeId +:+ ") error create volume: " +:+ Error err));
           files := fs'; logged := l0 |}
      | (None, fs') =>
        {| reply := Return (Reply {| Volume_ :=
             {| CapacityBytes := size; VolumeId := volumeId;
                AccessibleTopology :=
                  [ {| Segments := {[ nodeNameTopologyKey p := nodeName ]} |} ] |} |});
           files := fs';
           logged := l0 ++ [logInfo "Volume was created" [("volume_id", volumeId)]] |}
      end
    end.
Proof.
  intros (Hname & Hcaps & Hrange & requirements & topology0 & rest & Hreq & Hpref & Hseg).
  unfold CreateVolume. rewrite Hrange, Hreq, Hpref, Hseg.
  destruct (String.eqb_spec (Name request) ""); [congruence|].
  destruct (VolumeCapabilities request) as [|c caps]; [congruence|]. cbn [length Nat.eqb].
  cbv zeta.
  destruct (calculateVolumeSize (CapacityRange_ request)) as [size|err]; [|reflexivity].
  change (Create (volumeController p) e fs (Name request) size)
    with (SparseFileVolumeController.Create (volumeController p) e fs (Name request) size).
  destruct (SparseFileVolumeController.Create (volumeController p) e fs (Name request) size)
    as [[err|] fs'] eqn:Hcreate; [|reflexivity].
  assert (Herr : exists msg, err = Errorf msg).
  { apply (Create_error (volumeController p) e fs (Name request) size). rewrite Hcreate. reflexivity. }
  destruct Herr as [msg ->]. reflexivity.
Qed.

(** A request that got a response passed validation, and [Create]
    succeeded. *)
Lemma CreateVolume_Reply (e : Env) (fs : Files) (request : CreateVolumeRequest)
    (resp : CreateVolumeResponse) :
  reply (CreateVolume fmt_Sprintf0 p e fs request) = Return (Reply resp) ->
  exists nodeName size,
    passes_validation p request nodeName /\
    calculateVolumeSize (CapacityRange_ request) = Ok size /\
    SparseFileVolumeController.Create (volumeController p) e fs (Name request) size =
      (None, files (CreateVolume fmt_Sprintf0 p e fs request)) /\
    resp = {| Volume_ :=
              {| CapacityBytes := size; VolumeId := Name request;
                 AccessibleTopology :=
                   [ {| Segments := {[ nodeNameTopologyKey p := nodeName ]} |} ] |} |}.
Proof.
  unfold CreateVolume.
  destruct (String.eqb_spec (Name request) "") as [|Hname]; [discriminate|].
  destruct (VolumeCapabilities request) as [|c caps] eqn:Hcaps; [discriminate|].
  cbn [length Nat.eqb]. cbv zeta.
  destruct (rangeVolumeCapabilities (Name request) (c :: caps)) as [r|] eqn:Hrange.
  { cbn [reply]. intros ->.
    revert Hrange. generalize (c :: caps). intros l. induction l as [|c' l IH]; cbn.
    - discriminate.
    - destruct (AccessMode c') as [mode|]; [|discriminate].
      destruct (bool_decide (mode = SINGLE_NODE_WRITER)); cbn [negb]; [|discriminate].
      destruct (AccessType c') as [[|]|]; try discriminate. exact IH. }
  destruct (AccessibilityRequirements request) as [requirements|] eqn:Hreq; [|discriminate].
  destruct (Preferred requirements) as [|topology0 rest] eqn:Hpref; [discriminate|].
  destruct (Segments topology0 !! nodeNameTopologyKey p) as [nodeName|] eqn:Hseg;
    [|discriminate].
  destruct (calculateVolumeSize (CapacityRange_ request)) as [size|err]; [|discriminate].
  change (Create (volumeController p) e fs (Name request) size)
    with (SparseFileVolumeController.Create (volumeController p) e fs (Name request) size).
  destruct (SparseFileVolumeController.Create (volumeController p) e fs (Name request) size)
    as [[err|] fs'] eqn:Hcreate.
  - assert (Herr : exists msg, err = Errorf msg).
    { apply (Create_error (volumeController p) e fs (Name request) size). rewrite Hcreate. reflexivity. }
    destruct Herr as [msg ->]. discriminate.
  - cbn [reply files]. intros Heq. inversion Heq; subst.
    exists nodeName, size. repeat split; try assumption; try congruence.
    exists requirements, topology0, rest. auto.
Qed.

(** Once a CreateVolume call has answered with a volume, the same request
    gets the same answer from the files it left, whatever the host says,
    and leaves them as they are. *)
Lemma CreateVolume_again (e e' : Env) (fs : Files) (request : CreateVolumeRequest)
    (resp : CreateVolumeResponse) :
  reply (CreateVolume fmt_Sprintf0 p e fs request) = Return (Reply resp) ->
  let fs1 := files (CreateVolume fmt_Sprintf0 p e fs request) in
  SparseFileVolumeController.isFileExists fs1
    (SparseFileVolumeController.getImageFullPath (volumeController p) (Name request)) = true /\
  reply (CreateVolume fmt_Sprintf0 p e' fs1 request) = Return (Reply resp) /\
  files (CreateVolume fmt_Sprintf0 p e' fs1 request) = fs1.
Proof.
  intros Hreply fs1.
  destruct (CreateVolume_Reply _ _ _ _ Hreply) as (nodeName & size & Hval & Hsize & Hcreate & ->).
  fold fs1 in Hcreate.
  destruct (Create_success (volumeController p) _ _ _ _ _ Hcreate) as (Hex & Hid & Hnz).
  split; [exact Hex|].
  rewrite (CreateVolume_validated e' fs1 request nodeName Hval). cbv zeta.
  rewrite Hsize.
  destruct (Create_existing (volumeController p) e' fs1 (Name request) size Hex) as [_ Hnone].
  rewrite (Hnone Hid Hnz). split; reflexivity.
Qed.

Lemma repeat_CreateVolume_same (envs : list Env) (e : Env) (fs : Files)
    (request : CreateVolumeRequest) (resp : CreateVolumeResponse) :
  reply (CreateVolume fmt_Sprintf0 p e fs request) = Return (Reply resp) ->
  let fs1 := files (CreateVolume fmt_Sprintf0 p e fs request) in
  Forall (fun r => r = Return (Reply resp))
         (fst (repeat_CreateVolume fmt_Sprintf0 p envs fs1 request)) /\
  length (fst (repeat_CreateVolume fmt_Sprintf0 p envs fs1 request)) = length envs /\
  snd (repeat_CreateVolume fmt_Sprintf0 p envs fs1 request) = fs1.
Proof.
  intros Hreply fs1.
  induction envs as [|e' envs IH]; cbn.
  - repeat split. constructor.
  - destruct (CreateVolume_again e e' fs request resp Hreply) as (_ & Hr & Hf).
    fold fs1 in Hr, Hf. rewrite Hf.
    destruct (repeat_CreateVolume fmt_Sprintf0 p envs fs1 request) as [replies fs2].
    cbn in *. destruct IH as (Hall & Hlen & Hfs).
    repeat split; [constructor; assumption|congruence|assumption].
Qed.

(** CreateVolume never takes its already-exists branch. *)
Lemma CreateVolume_log (e : Env) (fs : Files) (request : CreateVolumeRequest) :
  Forall (fun entry => text entry <> "Volume already exists")
         (logged (CreateVolume fmt_Sprintf0 p e fs request)).
Proof.
  unfold CreateVolume.
  destruct (String.eqb (Name request) ""); [repeat constructor; discriminate|].
  destruct (length (VolumeCapabilities request) =? 0)%nat;
    [repeat constructor; discriminate|].
  destruct (rangeVolumeCapabilities _ _); [repeat constructor; discriminate|].
  destruct (AccessibilityRequirements request) as [requirements|];
    [|repeat constructor; discriminate].
  destruct (Preferred requirements) as [|topology0 rest];
    [repeat constructor; discriminate|].
  destruct (Segments topology0 !! nodeNameTopologyKey p);
    [|repeat constructor; discriminate].
  destruct (calculateVolumeSize _) as [size|]; [|repeat constructor; discriminate].
  change (Create (volumeController p) e fs (Name request) size)
    with (SparseFileVolumeController.Create (volumeController p) e fs (Name request) size).
  destruct (SparseFileVolumeController.Create (volumeController p) e fs (Name request) size)
    as [[err|] fs'] eqn:Hcreate; [|repeat constructor; discriminate].
  assert (Herr : exists msg, err = Errorf msg).
  { apply (Create_error (volumeController p) e fs (Name request) size). rewrite Hcreate. reflexivity. }
  destruct Herr as [msg ->]. repeat constructor; discriminate.
Qed.

(** DeleteVolume never takes its not-found branch. *)
Lemma DeleteVolume_log (e : Env) (fs : Files) (request : DeleteVolumeRequest) :
  Forall (fun entry =>
            text entry <> "Assuming volume is already deleted because it does not exist")
         (logged (DeleteVolume p e fs request)).
Proof.
  unfold DeleteVolume.
  destruct (String.eqb (DeleteVolumeRequest_VolumeId request) "");
    [repeat constructor; discriminate|].
  change (Delete (volumeController p) e fs (DeleteVolumeRequest_VolumeId request))
    with (SparseFileVolumeController.Delete (volumeController p) e fs (DeleteVolumeRequest_VolumeId request)).
  destruct (SparseFileVolumeController.Delete (volumeController p) e fs _) as [[err|] fs'] eqn:Hdelete;
    [|repeat constructor; discriminate].
  assert (Herr : exists msg, err = Errorf msg).
  { apply (Delete_error (volumeController p) e fs (DeleteVolumeRequest_VolumeId request)).
    rewrite Hdelete. reflexivity. }
  destruct Herr as [msg ->]. repeat constructor; discriminate.
Qed.

(** NodeExpandVolume on the no-space branch of the controller. *)
Lemma NodeExpandVolume_no_space (e : Env) (fs : Files) (request : NodeExpandVolumeRequest)
    (capability : VolumeCapability) (fsType : string) (mountFlags : list string)
    (size currentSize available : Z) :
  NodeExpandVolumeRequest_VolumeCapability request = Some capability ->
  AccessType capability = Some (VolumeCapability_Mount fsType mountFlags) ->
  calculateVolumeSize (NodeExpandVolumeRequest_CapacityRange request) = Ok size ->
  SparseFileVolumeController.GetVolumeSize (volumeController p) e fs (NodeExpandVolumeRequest_VolumeId request)
    = Ok currentSize ->
  SparseFileVolumeController.GetCapacity (volumeController p) e = Ok available ->
  available <= wrap64 (size - currentSize) ->
  reply (NodeExpandVolume p e fs request) =
    Return (Status Internal
      ("NodeExpandVolume (" +:+ NodeExpandVolumeRequest_VolumeId request
       +:+ ") error expand volume size: addiditional space ("
       +:+ itoa (wrap64 (size - currentSize)) +:+ ") is not available. "
       +:+ itoa available +:+ " bytes is available on storage")) /\
  files (NodeExpandVolume p e fs request) = fs.
Proof.
  intros Hcap Htype Hsize Hcur Havail Hle.
  destruct (GetVolumeSize_Ok_guards (volumeController p) _ _ _ _ Hcur) as [Hid _].
  pose proof (calculateVolumeSize_bounds _ _ Hsize) as Hbounds.
  rewrite minimumVolumeSize_eq in Hbounds.
  unfold NodeExpandVolume. rewrite Hcap, Htype, Hsize.
  destruct (String.eqb_spec (NodeExpandVolumeRequest_VolumeId request) ""); [congruence|].
  change (ExpandVolumeSize (volumeController p) e fs
            (NodeExpandVolumeRequest_VolumeId request) size)
    with (SparseFileVolumeController.ExpandVolumeSize (volumeController p) e fs
            (NodeExpandVolumeRequest_VolumeId request) size).
  rewrite (ExpandVolumeSize_no_space (volumeController p) e fs _ size currentSize available Hcur Havail)
    by (lia || assumption).
  cbn. split; reflexivity.
Qed.

End handler_facts.

(** C7, as stated, fails for the sizes and ids the guards of [Create]
    refuse: with the image of [vol-a] present, [Create] with size 0 does
    not return success (the file is not modified). *)
Lemma C7_create_zero_size_on_existing_image :
  SparseFileVolumeController.isFileExists one_volume
    (SparseFileVolumeController.getImageFullPath data_controller "vol-a") = true /\
  SparseFileVolumeController.Create data_controller (healthy_host 0) one_volume "vol-a" 0 =
    (Some (Errorf "size can't be equal 0"), one_volume) /\
  ~ (fst (SparseFileVolumeController.Create data_controller (healthy_host 0) one_volume
            "vol-a" 0) = None).
Proof.
  split; [vm_compute; reflexivity|]. split; [vm_compute; reflexivity|].
  vm_compute. discriminate.
Qed.

(** C7, amended.  Create is idempotent.  With the image present, [Create]
    never modifies the files and, for every non-empty id and every
    non-zero size, returns success.  Hence once CreateVolume has answered
    a request with a volume, sending the same request any number of times
    gets the same successful answer every time, whatever the host's tools
    do, and the image files stay exactly those left by the first call,
    with the volume's image among them. *)
Theorem C7_create_idempotent :
  forall (s : SparseFileVolumeController.t) (e : Env) (fs : Files)
         (volumeId : string) (sizeBytes : Z),
    SparseFileVolumeController.isFileExists fs
      (SparseFileVolumeController.getImageFullPath s volumeId) = true ->
    snd (SparseFileVolumeController.Create s e fs volumeId sizeBytes) = fs /\
    (volumeId <> "" -> sizeBytes <> 0 ->
     SparseFileVolumeController.Create s e fs volumeId sizeBytes = (None, fs)) /\
    forall (fmt_Sprintf0 : string -> string) (p : Plugin SparseFileVolumeController.t)
           (e0 : Env) (fs0 : Files) (request : CreateVolumeRequest)
           (resp : CreateVolumeResponse) (envs : list Env),
      reply (CreateVolume fmt_Sprintf0 p e0 fs0 request) = Return (Reply resp) ->
      let fs1 := files (CreateVolume fmt_Sprintf0 p e0 fs0 request) in
      SparseFileVolumeController.isFileExists fs1
        (SparseFileVolumeController.getImageFullPath (volumeController p) (Name request))
        = true /\
      Forall (fun r => r = Return (Reply resp))
             (fst (repeat_CreateVolume fmt_Sprintf0 p envs fs1 request)) /\
      length (fst (repeat_CreateVolume fmt_Sprintf0 p envs fs1 request)) = length envs /\
      snd (repeat_CreateVolume fmt_Sprintf0 p envs fs1 request) = fs1.
Proof.
  intros s e fs volumeId sizeBytes Hex.
  destruct (Create_existing s e fs volumeId sizeBytes Hex) as [Hfiles Hnone].
  split; [exact Hfiles|]. split; [exact Hnone|].
  intros fmt_Sprintf0 p e0 fs0 request resp envs Hreply fs1.
  split.
  - apply (CreateVolume_again fmt_Sprintf0 p e0 e0 fs0 request resp Hreply).
  - apply (repeat_CreateVolume_same fmt_Sprintf0 p envs e0 fs0 request resp Hreply).
Qed.

Lemma C7_create_idempotent_witness :
  SparseFileVolumeController.Create data_controller (healthy_host 0) one_volume
    "vol-a" (5 * GiB) = (None, one_volume) /\
  snd (repeat_CreateVolume verbatim plugin_n1
         [healthy_host 0; healthy_host 7; healthy_host 0]
         (files (CreateVolume verbatim plugin_n1 (healthy_host 0) ∅ (create_vol_a "n1")))
         (create_vol_a "n1"))
  = files (CreateVolume verbatim plugin_n1 (healthy_host 0) ∅ (create_vol_a "n1")).
Proof.
  assert (Hex : SparseFileVolumeController.isFileExists one_volume
                  (SparseFileVolumeController.getImageFullPath data_controller "vol-a")
                = true) by (vm_compute; reflexivity).
  destruct (C7_create_idempotent data_controller (healthy_host 0) one_volume
              "vol-a" (5 * GiB) Hex) as (_ & Hnone & Hrepeat).
  split.
  - apply Hnone; [discriminate|vm_compute; discriminate].
  - eapply (Hrepeat verbatim plugin_n1 (healthy_host 0) ∅ (create_vol_a "n1")).
    vm_compute. reflexivity.
Defined.

(** C10. [SparseFileVolumeController.Create] never returns
    [ErrorVolumeAlreadyExists] and [SparseFileVolumeController.Delete]
    never returns [ErrorVolumeNotFound]; where the handlers reach them
    with the image present (absent), they return success and the handler
    answers with success.  So a plugin wired with this controller never
    takes the already-exists branch of CreateVolume (it never logs
    "Volume already exists", and every volume it answers with carries its
    topology segment) nor the not-found branch of DeleteVolume. *)
Theorem C10_fallback_branches_unreachable :
  forall (s : SparseFileVolumeController.t) (e : Env) (fs : Files) (volumeId : string),
    (forall sizeBytes,
       fst (SparseFileVolumeController.Create s e fs volumeId sizeBytes)
         <> Some ErrorVolumeAlreadyExists) /\
    fst (SparseFileVolumeController.Delete s e fs volumeId) <> Some ErrorVolumeNotFound /\
    (forall sizeBytes,
       volumeId <> "" -> sizeBytes <> 0 ->
       SparseFileVolumeController.isFileExists fs
         (SparseFileVolumeController.getImageFullPath s volumeId) = true ->
       SparseFileVolumeController.Create s e fs volumeId sizeBytes = (None, fs)) /\
    (volumeId <> "" ->
     SparseFileVolumeController.isFileExists fs
       (SparseFileVolumeController.getImageFullPath s volumeId) = false ->
     SparseFileVolumeController.Delete s e fs volumeId = (None, fs)) /\
    forall (fmt_Sprintf0 : string -> string) (p : Plugin SparseFileVolumeController.t),
      (forall request,
         Forall (fun entry => text entry <> "Volume already exists")
                (logged (CreateVolume fmt_Sprintf0 p e fs request)) /\
         (forall resp,
            reply (CreateVolume fmt_Sprintf0 p e fs request) = Return (Reply resp) ->
            exists nodeName,
              AccessibleTopology (Volume_ resp) =
                [ {| Segments := {[ nodeNameTopologyKey p := nodeName ]} |} ]) /\
         (forall nodeName size,
            passes_validation p request nodeName ->
            calculateVolumeSize (CapacityRange_ request) = Ok size ->
            SparseFileVolumeController.isFileExists fs
              (SparseFileVolumeController.getImageFullPath (volumeController p)
                 (Name request)) = true ->
            reply (CreateVolume fmt_Sprintf0 p e fs request) =
              Return (Reply {| Volume_ :=
                {| CapacityBytes := size; VolumeId := Name request;
                   AccessibleTopology :=
                     [ {| Segments := {[ nodeNameTopologyKey p := nodeName ]} |} ] |} |}) /\
            files (CreateVolume fmt_Sprintf0 p e fs request) = fs)) /\
      (forall request,
         Forall (fun entry =>
                   text entry <> "Assuming volume is already deleted because it does not exist")
                (logged (DeleteVolume p e fs request)) /\
         (DeleteVolumeRequest_VolumeId request <> "" ->
          SparseFileVolumeController.isFileExists fs
            (SparseFileVolumeController.getImageFullPath (volumeController p)
               (DeleteVolumeRequest_VolumeId request)) = false ->
          reply (DeleteVolume p e fs request) = Return (Reply Build_DeleteVolumeResponse) /\
          files (DeleteVolume p e fs request) = fs)).
Proof.
  intros s e fs volumeId.
  split; [|split; [|split; [|split]]].
  - intros sizeBytes Heq.
    destruct (Create_error s e fs volumeId sizeBytes _ Heq) as [msg Hmsg]. discriminate.
  - intros Heq.
    destruct (Delete_error s e fs volumeId _ Heq) as [msg Hmsg]. discriminate.
  - intros sizeBytes Hid Hnz Hex.
    apply (Create_existing s e fs volumeId sizeBytes Hex); assumption.
  - apply Delete_absent.
  - intros fmt_Sprintf0 p. split.
    + intros request. split; [apply CreateVolume_log|]. split.
      * intros resp Hreply.
        destruct (CreateVolume_Reply _ _ _ _ _ _ Hreply) as (nodeName & size & _ & _ & _ & ->).
        exists nodeName. reflexivity.
      * intros nodeName size Hval Hsize Hex.
        pose proof (calculateVolumeSize_bounds _ _ Hsize) as Hbounds.
        rewrite minimumVolumeSize_eq in Hbounds.
        rewrite (CreateVolume_validated fmt_Sprintf0 p e fs request nodeName Hval).
        cbv zeta. rewrite Hsize.
        destruct (Create_existing (volumeController p) e fs (Name request) size Hex)
          as [_ Hnone].
        rewrite Hnone; [split; reflexivity|apply Hval|lia].
    + intros request. split; [apply DeleteVolume_log|].
      intros Hid Hex. unfold DeleteVolume.
      destruct (String.eqb_spec (DeleteVolumeRequest_VolumeId request) ""); [congruence|].
      change (Delete (volumeController p) e fs (DeleteVolumeRequest_VolumeId request))
        with (SparseFileVolumeController.Delete (volumeController p) e fs
                (DeleteVolumeRequest_VolumeId request)).
      rewrite (Delete_absent (volumeController p) e fs _ Hid Hex). split; reflexivity.
Qed.

Lemma C10_fallback_branches_unreachable_witness :
  SparseFileVolumeController.Create data_controller (healthy_host 0) one_volume
    "vol-a" GiB = (None, one_volume) /\
  SparseFileVolumeController.Delete data_controller (healthy_host 0) one_volume
    "vol-b" = (None, one_volume).
Proof.
  split.
  - destruct (C10_fallback_branches_unreachable data_controller (healthy_host 0)
                one_volume "vol-a") as (_ & _ & Hcreate & _).
    apply Hcreate; [discriminate|vm_compute; discriminate|vm_compute; reflexivity].
  - destruct (C10_fallback_branches_unreachable data_controller (healthy_host 0)
                one_volume "vol-b") as (_ & _ & _ & Hdelete & _).
    apply Hdelete; [discriminate|vm_compute; reflexivity].
Defined.

(** C2, as stated, fails.  Scenario 4 of the specification: the image of
    [vol-a] is 1 GiB long, the pool has 1 GiB free, the request asks for
    200 GiB, so the grow-delta (199 GiB) is at least the free bytes; the
    status code NodeExpandVolume returns is not ResourceExhausted. *)
Lemma C2_not_resource_exhausted :
  SparseFileVolumeController.GetCapacity data_controller (healthy_host 262144) = Ok GiB /\
  GiB <= 200 * GiB - GiB /\
  ~ (status_code (reply (NodeExpandVolume plugin_n1 (healthy_host 262144) one_volume
                           expand_vol_a_200)) = Some ResourceExhausted /\
     files (NodeExpandVolume plugin_n1 (healthy_host 262144) one_volume expand_vol_a_200)
       = one_volume).
Proof.
  split; [vm_compute; reflexivity|]. split; [vm_compute; discriminate|].
  intros [Hcode _]. vm_compute in Hcode. discriminate.
Qed.

(** C2, amended.  When the grow-delta of an expansion is at least the
    pool's free bytes, NodeExpandVolume fails with the Internal status
    code (the message carries the controller's no-space text) and leaves
    the image files, hence the image's length, unchanged. *)
Theorem C2_no_space_is_internal_and_atomic :
  forall (p : Plugin SparseFileVolumeController.t) (e : Env) (fs : Files)
         (request : NodeExpandVolumeRequest) (capability : VolumeCapability)
         (fsType : string) (mountFlags : list string) (size currentSize available : Z),
    NodeExpandVolumeRequest_VolumeCapability request = Some capability ->
    AccessType capability = Some (VolumeCapability_Mount fsType mountFlags) ->
    calculateVolumeSize (NodeExpandVolumeRequest_CapacityRange request) = Ok size ->
    SparseFileVolumeController.GetVolumeSize (volumeController p) e fs
      (NodeExpandVolumeRequest_VolumeId request) = Ok currentSize ->
    SparseFileVolumeController.GetCapacity (volumeController p) e = Ok available ->
    0 <= currentSize ->
    available <= size - currentSize ->
    reply (NodeExpandVolume p e fs request) =
      Return (Status Internal
        ("NodeExpandVolume (" +:+ NodeExpandVolumeRequest_VolumeId request
         +:+ ") error expand volume size: addiditional space ("
         +:+ itoa (size - currentSize) +:+ ") is not available. "
         +:+ itoa available +:+ " bytes is available on storage")) /\
    files (NodeExpandVolume p e fs request) = fs /\
    image_length (files (NodeExpandVolume p e fs request))
      (SparseFileVolumeController.getImageFullPath (volumeController p)
         (NodeExpandVolumeRequest_VolumeId request)) = Some currentSize.
Proof.
  intros p e fs request capability fsType mountFlags size currentSize available
    Hcap Htype Hsize Hcur Havail Hnonneg Hle.
  pose proof (calculateVolumeSize_bounds _ _ Hsize) as Hbounds.
  rewrite minimumVolumeSize_eq, maximumVolumeSize_eq in Hbounds.
  destruct (GetVolumeSize_Ok _ _ _ _ _ Hcur) as [Himg Hrange].
  assert (Hwrap : wrap64 (size - currentSize) = size - currentSize).
  { unfold wrap64. rewrite Z.mod_small by lia. lia. }
  destruct (NodeExpandVolume_no_space p e fs request capability fsType mountFlags
              size currentSize available Hcap Htype Hsize Hcur Havail) as [Hreply Hfiles].
  { rewrite Hwrap. exact Hle. }
  rewrite Hwrap in Hreply. rewrite Hreply, Hfiles.
  repeat split. unfold image_length. rewrite Himg. reflexivity.
Qed.

Lemma C2_no_space_is_internal_and_atomic_witness :
  reply (NodeExpandVolume plugin_n1 (healthy_host 262144) one_volume expand_vol_a_200) =
    Return (Status Internal
      ("NodeExpandVolume (" +:+ "vol-a"
       +:+ ") error expand volume size: addiditional space ("
       +:+ itoa (200 * GiB - GiB) +:+ ") is not available. "
       +:+ itoa GiB +:+ " bytes is available on storage")) /\
  files (NodeExpandVolume plugin_n1 (healthy_host 262144) one_volume expand_vol_a_200)
    = one_volume.
Proof.
  destruct (C2_no_space_is_internal_and_atomic plugin_n1 (healthy_host 262144) one_volume
              expand_vol_a_200 mount_single_writer "" [] (200 * GiB) GiB GiB)
    as (Hreply & Hfiles & _);
    try (vm_compute; reflexivity); try (vm_compute; discriminate).
  split; [exact Hreply|exact Hfiles].
Defined.

(** *** Topology validation in CreateVolume *)

Lemma percent_free_app (a b : string) :
  percent_free (a +:+ b) = percent_free a && percent_free b.
Proof.
  induction a as [|c a IH]; [reflexivity|].
  change (negb (Ascii.eqb c "%"%char) && percent_free (a +:+ b) =
          negb (Ascii.eqb c "%"%char) && percent_free a && percent_free b).
  rewrite IH. destruct (Ascii.eqb c "%"%char); reflexivity.
Qed.

Lemma append_assoc (a b c : string) : (a +:+ b) +:+ c = a +:+ (b +:+ c).
Proof.
  induction a as [|x a IH]; [reflexivity|].
  change (String x ((a +:+ b) +:+ c) = String x (a +:+ (b +:+ c))).
  rewrite IH. reflexivity.
Qed.

Lemma rangeVolumeCapabilities_accepts (volumeId : string) (l : list VolumeCapability) :
  Forall is_mount_single_writer l -> rangeVolumeCapabilities volumeId l = None.
Proof.
  induction 1 as [|c l (Hmode & fsType & mountFlags & Htype) _ IH]; cbn; [reflexivity|].
  rewrite Hmode, Htype. cbn. exact IH.
Qed.

(** The node id of the plugin is not read by CreateVolume. *)
Lemma CreateVolume_ignores_nodeId {T : Type} `{VolumeController T}
    (fmt_Sprintf0 : string -> string) (p : Plugin T) (node : string) (e : Env)
    (fs : Files) (request : CreateVolumeRequest) :
  CreateVolume fmt_Sprintf0 (with_nodeId p node) e fs request =
  CreateVolume fmt_Sprintf0 p e fs request.
Proof. reflexivity. Qed.

(** C1, as stated, fails.  Scenario 2 of the specification: on node [n1]
    with topology key [hostname], the request for [vol-a] whose preferred
    segment is [hostname -> n2] is not refused; it is answered with the
    volume pinned to [n2], and the image is created. *)
Lemma C1_cross_node_request_accepted :
  nodeId plugin_n1 = "n1" /\
  nodeNameTopologyKey plugin_n1 = "hostname" /\
  reply (CreateVolume verbatim plugin_n1 (healthy_host 262144) ∅ (create_vol_a "n2")) =
    Return (Reply {| Volume_ :=
      {| CapacityBytes := 1073741824; VolumeId := "vol-a";
         AccessibleTopology := [ {| Segments := {[ "hostname" := "n2" ]} |} ] |} |}) /\
  status_code (reply (CreateVolume verbatim plugin_n1 (healthy_host 262144) ∅
                        (create_vol_a "n2"))) <> Some InvalidArgument /\
  files (CreateVolume verbatim plugin_n1 (healthy_host 262144) ∅ (create_vol_a "n2")) =
    {[ "/data/vol-a.img" := RegularFile 1073741824 ]}.
Proof.
  repeat split; try (vm_compute; reflexivity). vm_compute. discriminate.
Qed.

(** C1, amended.  For a request that is otherwise valid (non-empty name,
    at least one capability, all of them mount-mode and single-writer, a
    non-empty preferred topology), CreateVolume checks that the first
    preferred segment has the configured topology key, not what the key
    maps to.  Without the key it returns invalid_argument and changes
    nothing; the message mentions the topology key (name and key are
    copied into it; a [%] in them would be read as a formatting verb).
    With the key, whatever its value and whatever this node's id, the
    call is never refused as invalid_argument, and a response pins the
    volume to that value. *)
Theorem C1_topology_key_not_value :
  forall (fmt_Sprintf0 : string -> string) (p : Plugin SparseFileVolumeController.t)
         (e : Env) (fs : Files) (request : CreateVolumeRequest)
         (requirements : TopologyRequirement) (topology0 : Topology) (rest : list Topology),
    (forall text, percent_free text = true -> fmt_Sprintf0 text = text) ->
    Name request <> "" ->
    VolumeCapabilities request <> [] ->
    Forall is_mount_single_writer (VolumeCapabilities request) ->
    AccessibilityRequirements request = Some requirements ->
    Preferred requirements = topology0 :: rest ->
    (Segments topology0 !! nodeNameTopologyKey p = None ->
     status_code (reply (CreateVolume fmt_Sprintf0 p e fs request)) = Some InvalidArgument /\
     files (CreateVolume fmt_Sprintf0 p e fs request) = fs /\
     (percent_free (Name request) = true ->
      percent_free (nodeNameTopologyKey p) = true ->
      reply (CreateVolume fmt_Sprintf0 p e fs request) =
        Return (Status InvalidArgument
          ("CreateVolume (" +:+ Name request +:+ ") topology key ("
           +:+ nodeNameTopologyKey p +:+ ") not found")) /\
      mentions ("CreateVolume (" +:+ Name request +:+ ") topology key ("
                +:+ nodeNameTopologyKey p +:+ ") not found") (nodeNameTopologyKey p))) /\
    (forall value : string,
       Segments topology0 !! nodeNameTopologyKey p = Some value ->
       status_code (reply (CreateVolume fmt_Sprintf0 p e fs request))
         <> Some InvalidArgument /\
       (forall node : string,
          CreateVolume fmt_Sprintf0 (with_nodeId p node) e fs request =
          CreateVolume fmt_Sprintf0 p e fs request) /\
       (forall resp,
          reply (CreateVolume fmt_Sprintf0 p e fs request) = Return (Reply resp) ->
          AccessibleTopology (Volume_ resp) =
            [ {| Segments := {[ nodeNameTopologyKey p := value ]} |} ])).
Proof.
  intros fmt_Sprintf0 p e fs request requirements topology0 rest
    Hfmt Hname Hcaps Hall Hreq Hpref.
  pose proof (rangeVolumeCapabilities_accepts (Name request) _ Hall) as Hrange.
  split.
  - intros Hseg. unfold CreateVolume. rewrite Hrange, Hreq, Hpref, Hseg.
    destruct (String.eqb_spec (Name request) ""); [congruence|].
    destruct (VolumeCapabilities request) as [|c caps]; [congruence|].
    cbn [length Nat.eqb reply files status_code].
    split; [reflexivity|]. split; [reflexivity|].
    intros Hpid Hpkey. rewrite Hfmt.
    + split; [reflexivity|].
      exists ("CreateVolume (" +:+ Name request +:+ ") topology key ("), ") not found".
      rewrite !append_assoc. reflexivity.
    + rewrite !percent_free_app, Hpid, Hpkey. reflexivity.
  - intros value Hseg.
    assert (Hval : passes_validation p request value).
    { split; [assumption|]. split; [assumption|]. split; [assumption|].
      exists requirements, topology0, rest. auto. }
    split; [|split].
    + rewrite (CreateVolume_validated fmt_Sprintf0 p e fs request value Hval). cbv zeta.
      destruct (calculateVolumeSize _); [|cbn; discriminate].
      destruct (SparseFileVolumeController.Create _ _ _ _ _) as [[err|] fs'];
        cbn; discriminate.
    + intros node. apply CreateVolume_ignores_nodeId.
    + intros resp Hreply.
      rewrite (CreateVolume_validated fmt_Sprintf0 p e fs request value Hval) in Hreply.
      cbv zeta in Hreply.
      destruct (calculateVolumeSize _); [|discriminate].
      destruct (SparseFileVolumeController.Create _ _ _ _ _) as [[err|] fs'];
        [discriminate|].
      cbn in Hreply. inversion Hreply; subst. reflexivity.
Qed.

Lemma C1_topology_key_not_value_witness :
  reply (CreateVolume verbatim plugin_n1 (healthy_host 262144) ∅
           {| Name := "vol-a"; CapacityRange_ := None;
              VolumeCapabilities := [mount_single_writer];
              AccessibilityRequirements :=
                Some {| Requisite := [];
                        Preferred := [ {| Segments := {[ "zone" := "z1" ]} |} ] |} |}) =
    Return (Status InvalidArgument
      ("CreateVolume (" +:+ "vol-a" +:+ ") topology key (" +:+ "hostname" +:+ ") not found")).
Proof.
  assert (Hvalid :
    forall text, percent_free text = true -> verbatim text = text) by reflexivity.
  assert (Hcaps : Forall is_mount_single_writer [mount_single_writer]).
  { repeat constructor. exists "", []. reflexivity. }
  destruct (C1_topology_key_not_value verbatim plugin_n1 (healthy_host 262144) ∅
              {| Name := "vol-a"; CapacityRange_ := None;
                 VolumeCapabilities := [mount_single_writer];
                 AccessibilityRequirements :=
                   Some {| Requisite := [];
                           Preferred := [ {| Segments := {[ "zone" := "z1" ]} |} ] |} |}
              {| Requisite := [];
                 Preferred := [ {| Segments := {[ "zone" := "z1" ]} |} ] |}
              {| Segments := {[ "zone" := "z1" ]} |} []
              Hvalid ltac:(discriminate) ltac:(discriminate) Hcaps eq_refl eq_refl)
    as [Hmissing _].
  apply Hmissing; [vm_compute; reflexivity|reflexivity|reflexivity].
Defined.

(** *** The mount check *)

Section mounter_facts.

Import LinuxMounter.

Lemma rangeFileSystems_bad_propagation (target : string) (l : list fileSystem)
    (isMounted : bool) :
  (exists entry, entry ∈ l /\ Propagation entry <> "shared") ->
  exists msg, rangeFileSystems target l isMounted = (true, Some (Errorf msg)).
Proof.
  revert isMounted. induction l as [|fs l IH]; intros isMounted (entry & Hin & Hbad).
  - inversion Hin.
  - cbn. destruct (String.eqb_spec (Propagation fs) "shared") as [Hshared|]; cbn [negb].
    + apply IH. exists entry. split; [|assumption].
      apply elem_of_cons in Hin as [->|Hin]; [congruence|assumption].
    + eauto.
Qed.

Lemma rangeFileSystems_match (target : string) (l : list fileSystem) (isMounted : bool) :
  rangeFileSystems target l isMounted = (true, None) ->
  Forall (fun entry => Propagation entry = "shared") l /\
  (isMounted = true \/ exists entry, entry ∈ l /\ Target entry = target).
Proof.
  revert isMounted. induction l as [|fs l IH]; intros isMounted; cbn.
  - intros Heq; inversion Heq. split; [constructor|auto].
  - destruct (String.eqb_spec (Propagation fs) "shared") as [Hshared|]; cbn [negb];
      [|discriminate].
    intros Heq. apply IH in Heq as [Hall Hmatch].
    split; [constructor; assumption|].
    destruct (String.eqb_spec (Target fs) target) as [Htarget|].
    + right. exists fs. split; [apply list_elem_of_here|assumption].
    + destruct Hmatch as [->|(entry & Hin & Htarget)]; [auto|].
      right. exists entry. split; [apply list_elem_of_further; assumption|assumption].
Qed.

End mounter_facts.

(** C8. [IsMounted] returns false, without error, when findmnt reports
    nothing found: its output is empty or blank, whether it exited with
    zero or not.  It returns an error when an entry that findmnt returned
    has a propagation other than [shared].  It answers true without error
    only when a returned entry's target equals the queried path (and then
    every returned entry has shared propagation). *)
Theorem C8_is_mounted :
  forall (json_Unmarshal : string -> result (option LinuxMounter.findMntResponse))
         (e : Env) (target : string),
    let out := cmd_out e "findmnt" (LinuxMounter.findmntArgs target) in
    (target <> "" -> LookPath e "findmnt" = Found -> TrimSpace out = "" ->
     LinuxMounter.IsMounted json_Unmarshal e target = Return (false, None)) /\
    (forall resp entry,
       target <> "" -> LookPath e "findmnt" = Found -> TrimSpace out <> "" ->
       json_Unmarshal out = Ok (Some resp) ->
       entry ∈ LinuxMounter.FileSystems resp ->
       LinuxMounter.Propagation entry <> "shared" ->
       exists mounted err,
         LinuxMounter.IsMounted json_Unmarshal e target = Return (mounted, Some err)) /\
    (LinuxMounter.IsMounted json_Unmarshal e target = Return (true, None) ->
     exists resp entry,
       json_Unmarshal out = Ok (Some resp) /\
       entry ∈ LinuxMounter.FileSystems resp /\
       LinuxMounter.Target entry = target /\
       Forall (fun entry => LinuxMounter.Propagation entry = "shared")
              (LinuxMounter.FileSystems resp)).
Proof.
  intros json_Unmarshal e target out. repeat split.
  - intros Htarget Hpath Hblank.
    unfold LinuxMounter.IsMounted, checkExecutable. rewrite Hpath. fold out. rewrite Hblank.
    destruct (String.eqb_spec target ""); [congruence|].
    destruct (cmd_err e "findmnt" _); reflexivity.
  - intros resp entry Htarget Hpath Hblank Hjson Hin Hbad.
    unfold LinuxMounter.IsMounted, checkExecutable. rewrite Hpath. fold out. rewrite Hjson.
    destruct (String.eqb_spec target ""); [congruence|].
    destruct (String.eqb_spec (TrimSpace out) ""); [congruence|].
    destruct (cmd_err e "findmnt" _); [eauto|].
    destruct (rangeFileSystems_bad_propagation target
                (LinuxMounter.FileSystems resp) false) as [msg Hmsg]; [eauto|].
    rewrite Hmsg. eauto.
  - unfold LinuxMounter.IsMounted, checkExecutable. fold out.
    destruct (String.eqb target ""); [discriminate|].
    destruct (LookPath e "findmnt"); try discriminate.
    destruct (cmd_err e "findmnt" _).
    { destruct (String.eqb (TrimSpace out) ""); discriminate. }
    destruct (String.eqb (TrimSpace out) ""); [discriminate|].
    destruct (json_Unmarshal out) as [[resp|]|]; try discriminate.
    intros Heq. inversion Heq as [Hrange].
    apply rangeFileSystems_match in Hrange as [Hall [Hfalse|(entry & Hin & Htarget)]];
      [discriminate|].
    exists resp, entry. auto.
Qed.


Lemma C8_is_mounted_witness :
  LinuxMounter.IsMounted (decode_findmnt "/stage/vol-a")
    (findmnt_host "" (Some "exit status 1")) "/stage/vol-a" = Return (false, None) /\
  (exists mounted err,
     LinuxMounter.IsMounted (decode_findmnt "/stage/vol-a")
       (findmnt_host (findmnt_json "/stage/vol-a" "private") None) "/stage/vol-a"
     = Return (mounted, Some err)) /\
  (exists resp entry,
     decode_findmnt "/stage/vol-a" (findmnt_json "/stage/vol-a" "shared") = Ok (Some resp) /\
     entry ∈ LinuxMounter.FileSystems resp /\
     LinuxMounter.Target entry = "/stage/vol-a").
Proof.
  split; [|split].
  - apply (C8_is_mounted (decode_findmnt "/stage/vol-a")
             (findmnt_host "" (Some "exit status 1")) "/stage/vol-a");
      [discriminate|reflexivity|reflexivity].
  - apply (proj1 (proj2 (C8_is_mounted (decode_findmnt "/stage/vol-a")
             (findmnt_host (findmnt_json "/stage/vol-a" "private") None) "/stage/vol-a"))
             {| LinuxMounter.FileSystems := [findmnt_entry "/stage/vol-a" "private"] |}
             (findmnt_entry "/stage/vol-a" "private"));
      [discriminate|reflexivity|vm_compute; discriminate|vm_compute; reflexivity
      |apply list_elem_of_here|discriminate].
  - destruct (proj2 (proj2 (C8_is_mounted (decode_findmnt "/stage/vol-a")
             (findmnt_host (findmnt_json "/stage/vol-a" "shared") None) "/stage/vol-a")))
      as (resp & entry & Hjson & Hin & Htarget & _); [vm_compute; reflexivity|].
    exists resp, entry. auto.
Defined.

(** * Further properties of the code *)

Import volumes_node plugin_node fixtures_node.

(** *** Texts *)

Lemma length_append (a b : string) :
  String.length (a +:+ b) = (String.length a + String.length b)%nat.
Proof.
  induction a as [|x a IH]; [reflexivity|].
  change (S (String.length (a +:+ b)) = S (String.length a + String.length b)).
  rewrite IH. reflexivity.
Qed.



(** *** Image paths and frames *)



Section frame_facts.

Import volumes.SparseFileVolumeController.

Variable s : SparseFileVolumeController.t.





Lemma ResizeDeviceFileSystem_files (e : Env) (fs : Files) (volumeId : string) :
  snd (ResizeDeviceFileSystem s e fs volumeId) = fs.
Proof.
  unfold ResizeDeviceFileSystem.
  destruct (String.eqb volumeId ""); [reflexivity|].
  destruct (isFileExists fs _); cbn [negb]; [|reflexivity].
  destruct (GetDeviceByVolumeId s e fs volumeId) as [dev|]; [|reflexivity].
  destruct (String.eqb dev ""); [reflexivity|].
  destruct (expandLoopDevice e dev); [reflexivity|].
  destruct (resizeFs e fs _); reflexivity.
Qed.

End frame_facts.




(** *** Delete, Create and Expand as state changes *)

Section lifecycle_facts.

Import volumes.SparseFileVolumeController.

Variable s : SparseFileVolumeController.t.

(** After a successful [Delete] there is no image. *)
Lemma Delete_success (e : Env) (fs fs' : Files) (volumeId : string) :
  Delete s e fs volumeId = (None, fs') ->
  volumeId <> "" /\ isFileExists fs' (getImageFullPath s volumeId) = false.
Proof.
  unfold Delete.
  destruct (String.eqb_spec volumeId ""); [discriminate|].
  destruct (isFileExists fs _) eqn:Hex; cbn [negb].
  - destruct (checkExecutable e "rm"); [discriminate|].
    destruct (cmd_err e "rm" _); [discriminate|].
    unfold rm_effect.
    destruct (fs !! getImageFullPath s volumeId) as [[len|]|]; try discriminate;
      intros Heq; inversion Heq; subst; (split; [assumption|]);
      unfold isFileExists; rewrite lookup_delete_eq; reflexivity.
  - intros Heq; inversion Heq; subst. auto.
Qed.

(** A successful [Create] of an image that was not there wrote a regular
    file at the image path. *)
Lemma Create_fresh (e : Env) (fs fs' : Files) (volumeId : string) (sizeBytes : Z) :
  isFileExists fs (getImageFullPath s volumeId) = false ->
  Create s e fs volumeId sizeBytes = (None, fs') ->
  fs' = <[getImageFullPath s volumeId :=
            RegularFile (if sizeBytes <? 0 then 0 else sizeBytes)]> fs /\
  fs !! getImageFullPath s volumeId = None.
Proof.
  intros Hex. unfold Create. rewrite Hex.
  destruct (String.eqb volumeId ""); [discriminate|].
  destruct (sizeBytes =? 0); [discriminate|].
  unfold truncate.
  destruct (checkExecutable e "truncate"); [discriminate|].
  destruct (cmd_err e "truncate" _); [discriminate|].
  unfold truncate_effect, isFileExists in *.
  destruct (fs !! getImageFullPath s volumeId) as [[len|]|]; try discriminate.
  intros Heq; inversion Heq; subst. split; [|reflexivity].
  destruct (Z.ltb_spec sizeBytes 0); [|reflexivity].
  rewrite Z.max_l by lia. reflexivity.
Qed.

Lemma ExpandVolumeSize_failure (e : Env) (fs fs' : Files) (volumeId : string)
    (newSizeBytes : Z) (err : error) :
  ExpandVolumeSize s e fs volumeId newSizeBytes = (Some err, fs') -> fs' = fs.
Proof.
  unfold ExpandVolumeSize.
  destruct (String.eqb volumeId ""); [intros Heq; inversion Heq; reflexivity|].
  destruct (newSizeBytes <=? 0); [intros Heq; inversion Heq; reflexivity|].
  destruct (isFileExists fs _); cbn [negb]; [|intros Heq; inversion Heq; reflexivity].
  destruct (GetVolumeSize s e fs volumeId); [|intros Heq; inversion Heq; reflexivity].
  destruct (GetCapacity s e); [|intros Heq; inversion Heq; reflexivity].
  destruct (_ <=? _); [intros Heq; inversion Heq; reflexivity|].
  destruct (0 <? _); [|discriminate].
  destruct (truncate e fs _ newSizeBytes) as [[err0|] fs0] eqn:Htr; [|discriminate].
  apply truncate_failure in Htr as [-> _].
  intros Heq; inversion Heq; reflexivity.
Qed.

End lifecycle_facts.

(** X3. DeleteVolume is idempotent: once a DeleteVolume call has answered
    with success, the volume's image is gone, and the same request sent
    again answers with success whatever the host's tools do (not even
    [rm] has to be installed) and leaves the files as they are. *)
Theorem X3_delete_volume_idempotent :
  forall (p : Plugin SparseFileVolumeController.t) (e e' : Env) (fs : Files)
         (request : DeleteVolumeRequest) (resp : DeleteVolumeResponse),
    reply (DeleteVolume p e fs request) = Return (Reply resp) ->
    let fs1 := files (DeleteVolume p e fs request) in
    SparseFileVolumeController.isFileExists fs1
      (SparseFileVolumeController.getImageFullPath (volumeController p)
         (DeleteVolumeRequest_VolumeId request)) = false /\
    reply (DeleteVolume p e' fs1 request) = Return (Reply Build_DeleteVolumeResponse) /\
    files (DeleteVolume p e' fs1 request) = fs1.
Proof.
  intros p e e' fs request resp Hreply fs1.
  assert (Hdel : SparseFileVolumeController.Delete (volumeController p) e fs
                   (DeleteVolumeRequest_VolumeId request) = (None, fs1)).
  { subst fs1. revert Hreply. unfold DeleteVolume.
    destruct (String.eqb (DeleteVolumeRequest_VolumeId request) ""); [discriminate|].
    change (Delete (volumeController p) e fs (DeleteVolumeRequest_VolumeId request))
      with (SparseFileVolumeController.Delete (volumeController p) e fs
              (DeleteVolumeRequest_VolumeId request)).
    destruct (SparseFileVolumeController.Delete (volumeController p) e fs _)
      as [[err|] fs'] eqn:Hdelete; [|reflexivity].
    assert (Herr : exists msg, err = Errorf msg).
    { apply (Delete_error (volumeController p) e fs (DeleteVolumeRequest_VolumeId request)).
      rewrite Hdelete. reflexivity. }
    destruct Herr as [msg ->]. discriminate. }
  apply Delete_success in Hdel as [Hid Hex].
  split; [exact Hex|].
  unfold DeleteVolume.
  destruct (String.eqb_spec (DeleteVolumeRequest_VolumeId request) ""); [congruence|].
  change (Delete (volumeController p) e' fs1 (DeleteVolumeRequest_VolumeId request))
    with (SparseFileVolumeController.Delete (volumeController p) e' fs1
            (DeleteVolumeRequest_VolumeId request)).
  rewrite (Delete_absent (volumeController p) e' fs1 _ Hid Hex). split; reflexivity.
Qed.

Lemma X3_delete_volume_idempotent_witness :
  reply (DeleteVolume plugin_n1
           {| LookPath := fun _ => ErrNotFound; cmd_err := fun _ _ => Some "exit status 1";
              cmd_out := fun _ _ => ""; Statfs := fun _ => Err (Errorf "input/output error") |}
           (files (DeleteVolume plugin_n1 (healthy_host 0) one_volume
                     {| DeleteVolumeRequest_VolumeId := "vol-a" |}))
           {| DeleteVolumeRequest_VolumeId := "vol-a" |})
  = Return (Reply Build_DeleteVolumeResponse).
Proof.
  eapply (X3_delete_volume_idempotent plugin_n1 (healthy_host 0) _ one_volume
            {| DeleteVolumeRequest_VolumeId := "vol-a" |}).
  vm_compute. reflexivity.
Defined.

(** X4. Create and GetVolumeSize round trip: after Create has made the
    image of a volume that had none, with a positive size that fits
    int64, GetVolumeSize (on a host where [stat] runs) returns exactly
    that size. *)
Theorem X4_created_size_is_read_back :
  forall (s : SparseFileVolumeController.t) (e e' : Env) (fs fs' : Files)
         (volumeId : string) (sizeBytes : Z),
    SparseFileVolumeController.isFileExists fs
      (SparseFileVolumeController.getImageFullPath s volumeId) = false ->
    0 < sizeBytes < 2 ^ 63 ->
    SparseFileVolumeController.Create s e fs volumeId sizeBytes = (None, fs') ->
    LookPath e' "stat" = Found ->
    cmd_err e' "stat" ["-c"; "%s"; SparseFileVolumeController.getImageFullPath s volumeId]
      = None ->
    SparseFileVolumeController.GetVolumeSize s e' fs' volumeId = Ok sizeBytes.
Proof.
  intros s e e' fs fs' volumeId sizeBytes Hex Hsize Hcreate Hpath Hrun.
  destruct (Create_success s _ _ _ _ _ Hcreate) as (Hex' & Hid & _).
  apply Create_fresh in Hcreate as [-> _]; [|assumption].
  unfold SparseFileVolumeController.GetVolumeSize, checkExecutable, stat_size.
  rewrite Hex', Hpath, Hrun, lookup_insert_eq.
  destruct (String.eqb_spec volumeId ""); [congruence|]. cbn [negb].
  destruct (Z.ltb_spec sizeBytes 0); [lia|].
  unfold SparseFileVolumeController.parseStatSize.
  destruct (Z.leb_spec (- 2 ^ 63) sizeBytes); [|lia].
  destruct (Z.ltb_spec sizeBytes (2 ^ 63)); [reflexivity|lia].
Qed.

Lemma X4_created_size_is_read_back_witness :
  SparseFileVolumeController.GetVolumeSize data_controller (healthy_host 0)
    {[ "/data/vol-b.img" := RegularFile (5 * GiB) ]} "vol-b" = Ok (5 * GiB).
Proof.
  apply (X4_created_size_is_read_back data_controller (healthy_host 0) (healthy_host 0)
           ∅ _ "vol-b" (5 * GiB));
    try (vm_compute; reflexivity).
  vm_compute. split; reflexivity.
Defined.

(** X5. Create followed by Delete gives back the images directory: when
    Create has made the image of a volume that had no entry and Delete
    then succeeds, the files are exactly those before the Create. *)
Theorem X5_create_then_delete_restores :
  forall (s : SparseFileVolumeController.t) (e e' : Env) (fs fs1 fs2 : Files)
         (volumeId : string) (sizeBytes : Z),
    fs !! SparseFileVolumeController.getImageFullPath s volumeId = None ->
    SparseFileVolumeController.Create s e fs volumeId sizeBytes = (None, fs1) ->
    SparseFileVolumeController.Delete s e' fs1 volumeId = (None, fs2) ->
    fs2 = fs.
Proof.
  intros s e e' fs fs1 fs2 volumeId sizeBytes Habs Hcreate Hdelete.
  assert (Hex : SparseFileVolumeController.isFileExists fs
                  (SparseFileVolumeController.getImageFullPath s volumeId) = false).
  { unfold SparseFileVolumeController.isFileExists. rewrite Habs. reflexivity. }
  apply Create_fresh in Hcreate as [-> _]; [|assumption].
  revert Hdelete. unfold SparseFileVolumeController.Delete.
  destruct (String.eqb volumeId ""); [discriminate|].
  unfold SparseFileVolumeController.isFileExists, rm_effect.
  rewrite lookup_insert_eq. cbn [negb].
  destruct (checkExecutable e' "rm"); [discriminate|].
  destruct (cmd_err e' "rm" _); [discriminate|].
  intros Heq; inversion Heq. apply delete_insert_id. assumption.
Qed.

Lemma X5_create_then_delete_restores_witness :
  snd (SparseFileVolumeController.Delete data_controller (healthy_host 0)
         (snd (SparseFileVolumeController.Create data_controller (healthy_host 0)
                 one_volume "vol-b" GiB)) "vol-b") = one_volume.
Proof.
  apply (X5_create_then_delete_restores data_controller (healthy_host 0) (healthy_host 0)
           one_volume
           (snd (SparseFileVolumeController.Create data_controller (healthy_host 0)
                   one_volume "vol-b" GiB))
           _ "vol-b" GiB);
    vm_compute; reflexivity.
Defined.

Lemma ExpandVolumeSize_result :
  forall (s : SparseFileVolumeController.t) (e : Env) (fs fs' : Files)
         (volumeId : string) (newSizeBytes currentSize : Z) (r : option error),
    SparseFileVolumeController.GetVolumeSize s e fs volumeId = Ok currentSize ->
    0 <= currentSize ->
    0 < newSizeBytes < 2 ^ 63 ->
    SparseFileVolumeController.ExpandVolumeSize s e fs volumeId newSizeBytes = (r, fs') ->
    match r with
    | None =>
      image_length fs' (SparseFileVolumeController.getImageFullPath s volumeId)
        = Some (Z.max currentSize newSizeBytes)
    | Some _ => fs' = fs
    end.
Proof.
  intros s e fs fs' volumeId newSizeBytes currentSize r Hcur Hnonneg Hnew Hexpand.
  destruct r as [err|]; [apply (ExpandVolumeSize_failure s _ _ _ _ _ _ Hexpand)|].
  destruct (GetVolumeSize_Ok_guards s _ _ _ _ Hcur) as [Hid Hex].
  destruct (GetVolumeSize_Ok s _ _ _ _ Hcur) as [Himg Hrange].
  assert (Hwrap : wrap64 (newSizeBytes - currentSize) = newSizeBytes - currentSize).
  { unfold wrap64. rewrite Z.mod_small by lia. lia. }
  revert Hexpand. unfold SparseFileVolumeController.ExpandVolumeSize.
  rewrite Hcur, Hex, Hwrap.
  destruct (String.eqb volumeId ""); [discriminate|].
  destruct (Z.leb_spec newSizeBytes 0); [lia|]. cbn [negb].
  destruct (SparseFileVolumeController.GetCapacity s e) as [available|]; [|discriminate].
  destruct (Z.leb_spec available (newSizeBytes - currentSize)); [discriminate|].
  destruct (Z.ltb_spec 0 (newSizeBytes - currentSize)).
  - destruct (SparseFileVolumeController.truncate e fs _ newSizeBytes)
      as [[err|] fs0] eqn:Htr; [discriminate|].
    apply truncate_success in Htr as [-> _]; [|lia].
    intros Heq; inversion Heq; subst.
    unfold image_length. rewrite lookup_insert_eq, Z.max_r by lia. reflexivity.
  - intros Heq; inversion Heq; subst.
    unfold image_length. rewrite Himg, Z.max_l by lia. reflexivity.
Qed.

(** X6. What ExpandVolumeSize leaves behind.  For an image of current
    length [cur] (not negative) and a positive new size that fits int64:
    when the call succeeds the image is [max cur new] bytes long, so at
    least the size asked for and never shorter than before; when it
    fails, for whatever reason, the images directory is unchanged. *)
Theorem X6_expand_result :
  forall (s : SparseFileVolumeController.t) (e : Env) (fs fs' : Files)
         (volumeId : string) (newSizeBytes currentSize : Z) (r : option error),
    SparseFileVolumeController.GetVolumeSize s e fs volumeId = Ok currentSize ->
    0 <= currentSize ->
    0 < newSizeBytes < 2 ^ 63 ->
    SparseFileVolumeController.ExpandVolumeSize s e fs volumeId newSizeBytes = (r, fs') ->
    match r with
    | None =>
      image_length fs' (SparseFileVolumeController.getImageFullPath s volumeId)
        = Some (Z.max currentSize newSizeBytes)
    | Some _ => fs' = fs
    end.
Proof. exact ExpandVolumeSize_result. Qed.

Lemma X6_expand_result_witness :
  image_length
    (snd (SparseFileVolumeController.ExpandVolumeSize data_controller
            (healthy_host 2621440) one_volume "vol-a" (5 * GiB)))
    (SparseFileVolumeController.getImageFullPath data_controller "vol-a")
  = Some (Z.max GiB (5 * GiB)).
Proof.
  apply (X6_expand_result data_controller (healthy_host 2621440) one_volume _
           "vol-a" (5 * GiB) GiB None);
    try (vm_compute; reflexivity).
  - vm_compute. discriminate.
  - vm_compute. split; reflexivity.
Defined.


(** *** Sizes, topology and capacity across handlers *)

(** X7. The size calculateVolumeSize grants satisfies the request: it is
    at least the required bytes and at most the limit, for whichever of
    the two is set; and asking again for the granted size (as required
    bytes, or as both fields) grants the same size. *)
Theorem X7_granted_size_satisfies_request :
  forall (r : CapacityRange) (size : Z),
    calculateVolumeSize (Some r) = Ok size ->
    (0 < RequiredBytes r -> RequiredBytes r <= size) /\
    (0 < LimitBytes r -> size <= LimitBytes r) /\
    calculateVolumeSize (Some {| RequiredBytes := size; LimitBytes := 0 |}) = Ok size /\
    calculateVolumeSize (Some {| RequiredBytes := size; LimitBytes := size |}) = Ok size.
Proof.
  intros [required limit] size Hsize.
  pose proof (calculateVolumeSize_bounds _ _ Hsize) as Hbounds.
  revert Hsize Hbounds.
  unfold calculateVolumeSize; cbn [RequiredBytes LimitBytes]. size_constants.
  intros Hsize Hbounds.
  assert (Hfix : forall l, l = 0 \/ l = size ->
    (if negb (0 <? size) && negb (0 <? l) then Ok 1073741824
     else if (0 <? size) && (0 <? l) && (l <? size) then
       Err (Errorf ("limit (" +:+ itoa l +:+ ") can't be less than required ("
                    +:+ itoa size +:+ ") size"))
     else if (0 <? size) && (size <? 1073741824) then
       Err (Errorf ("required (" +:+ itoa size
                    +:+ ") can't be less than minimum supported volume size ("
                    +:+ itoa 1073741824 +:+ ")"))
     else if (0 <? l) && (l <? 1073741824) then
       Err (Errorf ("limit (" +:+ itoa l
                    +:+ ") can't be less than minimum supported volume size ("
                    +:+ itoa 1073741824 +:+ ")"))
     else if (0 <? size) && (214748364800 <? size) then
       Err (Errorf ("required (" +:+ itoa size
                    +:+ ") can't be greater than maximum supported volume size ("
                    +:+ itoa 214748364800 +:+ ")"))
     else if (0 <? l) && (214748364800 <? l) then
       Err (Errorf ("limit (" +:+ itoa l
                    +:+ ") can't be greater than maximum supported volume size ("
                    +:+ itoa 214748364800 +:+ ")"))
     else if (0 <? size) && (0 <? l) && (size =? l) then Ok l
     else if 0 <? l then Ok l
     else if 0 <? size then Ok size
     else Ok 1073741824) = Ok size).
  { intros l Hl.
    destruct (Z.ltb_spec 0 size); [|lia].
    destruct (Z.ltb_spec size 1073741824); [lia|].
    destruct (Z.ltb_spec 214748364800 size); [lia|].
    destruct Hl as [-> | ->].
    - reflexivity.
    - destruct (Z.ltb_spec 0 size); [|lia].
      destruct (Z.ltb_spec size size); [lia|].
      destruct (Z.ltb_spec size 1073741824); [lia|].
      destruct (Z.ltb_spec 214748364800 size); [lia|].
      rewrite Z.eqb_refl. reflexivity. }
  split; [|split; [|split; [apply Hfix; auto|apply Hfix; auto]]];
    clear Hfix; revert Hsize; split_comparisons; cbn; intros Heq;
    inversion Heq; subst; lia.
Qed.

Lemma X7_granted_size_satisfies_request_witness :
  2 * GiB <= 5 * GiB /\ 5 * GiB <= 5 * GiB.
Proof.
  destruct (X7_granted_size_satisfies_request
              {| RequiredBytes := 2 * GiB; LimitBytes := 5 * GiB |} (5 * GiB))
    as (Hreq & Hlim & _); [vm_compute; reflexivity|].
  split; [apply Hreq|apply Hlim]; vm_compute; reflexivity.
Defined.

(** X8. The topology NodeGetInfo advertises is the one CreateVolume
    accepts: a request that is otherwise valid and carries the segment of
    NodeGetInfo as its first preferred topology is never refused as
    invalid_argument, and the volume it answers with is pinned to exactly
    that segment, which maps the topology key to this node's id.
    NodeGetInfo also reports 200 as the maximum number of volumes. *)
Theorem X8_advertised_topology_is_accepted :
  forall (fmt_Sprintf0 : string -> string) (p : Plugin SparseFileVolumeController.t)
         (e : Env) (fs fs0 : Files) (request : CreateVolumeRequest)
         (info : NodeGetInfoResponse) (topology : Topology)
         (requirements : TopologyRequirement) (rest : list Topology),
    reply (NodeGetInfo p fs0) = Return (Reply info) ->
    NodeGetInfoResponse_AccessibleTopology info = Some topology ->
    Name request <> "" ->
    VolumeCapabilities request <> [] ->
    Forall is_mount_single_writer (VolumeCapabilities request) ->
    AccessibilityRequirements request = Some requirements ->
    Preferred requirements = topology :: rest ->
    MaxVolumesPerNode info = 200 /\
    Segments topology !! nodeNameTopologyKey p = Some (nodeId p) /\
    status_code (reply (CreateVolume fmt_Sprintf0 p e fs request)) <> Some InvalidArgument /\
    forall resp,
      reply (CreateVolume fmt_Sprintf0 p e fs request) = Return (Reply resp) ->
      AccessibleTopology (Volume_ resp) = [topology].
Proof.
  intros fmt_Sprintf0 p e fs fs0 request info topology requirements rest
    Hinfo Htopo Hname Hcaps Hall Hreq Hpref.
  cbn in Hinfo. inversion Hinfo; subst info. cbn in Htopo. inversion Htopo; subst topology.
  cbn [MaxVolumesPerNode Segments].
  split; [reflexivity|]. split; [apply lookup_singleton_eq|].
  assert (Hval : passes_validation p request (nodeId p)).
  { split; [assumption|]. split; [assumption|].
    split; [apply rangeVolumeCapabilities_accepts; assumption|].
    eexists _, _, _. split; [eassumption|]. split; [eassumption|].
    apply lookup_singleton_eq. }
  rewrite (CreateVolume_validated fmt_Sprintf0 p e fs request (nodeId p) Hval). cbv zeta.
  destruct (calculateVolumeSize _) as [size|err]; [|split; [cbn; discriminate|discriminate]].
  destruct (SparseFileVolumeController.Create _ _ _ _ _) as [[err|] fs'];
    (split; [cbn; discriminate|]); [discriminate|].
  intros resp Hreply. cbn in Hreply. inversion Hreply; subst. reflexivity.
Qed.

Lemma X8_advertised_topology_is_accepted_witness :
  match reply (CreateVolume verbatim plugin_n1 (healthy_host 2621440) ∅ (create_vol_a "n1"))
  with
  | Return (Reply resp) =>
    AccessibleTopology (Volume_ resp) = [ {| Segments := {[ "hostname" := "n1" ]} |} ]
  | _ => False
  end.
Proof.
  assert (Hcaps : Forall is_mount_single_writer [mount_single_writer]).
  { repeat constructor. exists "", []. reflexivity. }
  destruct (X8_advertised_topology_is_accepted verbatim plugin_n1 (healthy_host 2621440)
              ∅ ∅ (create_vol_a "n1") _ _ _ [] eq_refl eq_refl
              ltac:(discriminate) ltac:(discriminate) Hcaps eq_refl eq_refl)
    as (_ & _ & _ & Hresp).
  destruct (reply (CreateVolume verbatim plugin_n1 (healthy_host 2621440) ∅
                     (create_vol_a "n1"))) as [[resp|code message]|] eqn:Hreply.
  - exact (Hresp resp eq_refl).
  - vm_compute in Hreply. discriminate.
  - vm_compute in Hreply. discriminate.
Defined.

Section expand_chain.

Variable p : Plugin SparseFileVolumeController.t.

Lemma ExpandVolumeSize_success_size (e : Env) (fs fs' : Files) (volumeId : string)
    (newSizeBytes : Z) :
  SparseFileVolumeController.ExpandVolumeSize (volumeController p) e fs volumeId newSizeBytes
    = (None, fs') ->
  exists currentSize,
    SparseFileVolumeController.GetVolumeSize (volumeController p) e fs volumeId
      = Ok currentSize.
Proof.
  unfold SparseFileVolumeController.ExpandVolumeSize.
  destruct (String.eqb volumeId ""); [discriminate|].
  destruct (newSizeBytes <=? 0); [discriminate|].
  destruct (SparseFileVolumeController.isFileExists fs _); cbn [negb]; [|discriminate].
  destruct (SparseFileVolumeController.GetVolumeSize _ e fs volumeId) as [cur|];
    [eauto|discriminate].
Qed.

(** A NodeExpandVolume call that answered with a capacity went through
    the size calculation and a successful ExpandVolumeSize. *)
Lemma NodeExpandVolume_Reply (e : Env) (fs : Files) (request : NodeExpandVolumeRequest)
    (resp : NodeExpandVolumeResponse) :
  reply (NodeExpandVolume p e fs request) = Return (Reply resp) ->
  calculateVolumeSize (NodeExpandVolumeRequest_CapacityRange request)
    = Ok (NodeExpandVolumeResponse_CapacityBytes resp) /\
  NodeExpandVolumeRequest_VolumeId request <> "" /\
  SparseFileVolumeController.ExpandVolumeSize (volumeController p) e fs
    (NodeExpandVolumeRequest_VolumeId request) (NodeExpandVolumeResponse_CapacityBytes resp)
    = (None, files (NodeExpandVolume p e fs request)).
Proof.
  unfold NodeExpandVolume.
  destruct (String.eqb_spec (NodeExpandVolumeRequest_VolumeId request) ""); [discriminate|].
  destruct (NodeExpandVolumeRequest_VolumeCapability request) as [capability|];
    [|discriminate].
  destruct (AccessType capability) as [[|fsType flags]|]; try discriminate.
  destruct (calculateVolumeSize _) as [size|]; [|discriminate].
  change (ExpandVolumeSize (volumeController p) e fs
            (NodeExpandVolumeRequest_VolumeId request) size)
    with (SparseFileVolumeController.ExpandVolumeSize (volumeController p) e fs
            (NodeExpandVolumeRequest_VolumeId request) size).
  destruct (SparseFileVolumeController.ExpandVolumeSize _ e fs _ size)
    as [[err|] fs'] eqn:Hexpand.
  { destruct (bool_decide (err = ErrorVolumeNotFound)); discriminate. }
  change (ResizeDeviceFileSystem (volumeController p) e fs'
            (NodeExpandVolumeRequest_VolumeId request))
    with (SparseFileVolumeController.ResizeDeviceFileSystem (volumeController p) e fs'
            (NodeExpandVolumeRequest_VolumeId request)).
  pose proof (ResizeDeviceFileSystem_files (volumeController p) e fs'
                (NodeExpandVolumeRequest_VolumeId request)) as Hfiles.
  destruct (SparseFileVolumeController.ResizeDeviceFileSystem _ e fs' _)
    as [[err|] fs''] eqn:Hresize; [discriminate|].
  cbn in Hfiles. subst fs''. cbn [reply files].
  intros Heq. inversion Heq; subst. cbn. auto.
Qed.

End expand_chain.

(** X9. The two halves of an expansion agree.  When NodeExpandVolume
    answers with a capacity, ControllerExpandVolume answers the same
    volume id and capacity range with the same capacity and with
    node_expansion_required set, and the image (whose length was not
    negative) is afterwards at least that capacity long. *)
Theorem X9_expansion_halves_agree :
  forall (p : Plugin SparseFileVolumeController.t) (e : Env) (fs fs0 : Files)
         (request : NodeExpandVolumeRequest) (resp : NodeExpandVolumeResponse),
    (forall len,
       image_length fs
         (SparseFileVolumeController.getImageFullPath (volumeController p)
            (NodeExpandVolumeRequest_VolumeId request)) = Some len -> 0 <= len) ->
    reply (NodeExpandVolume p e fs request) = Return (Reply resp) ->
    reply (ControllerExpandVolume p fs0
             {| ControllerExpandVolumeRequest_VolumeId :=
                  NodeExpandVolumeRequest_VolumeId request;
                ControllerExpandVolumeRequest_CapacityRange :=
                  NodeExpandVolumeRequest_CapacityRange request |}) =
      Return (Reply {| ControllerExpandVolumeResponse_CapacityBytes :=
                         NodeExpandVolumeResponse_CapacityBytes resp;
                       NodeExpansionRequired := true |}) /\
    exists len,
      image_length (files (NodeExpandVolume p e fs request))
        (SparseFileVolumeController.getImageFullPath (volumeController p)
           (NodeExpandVolumeRequest_VolumeId request)) = Some len /\
      NodeExpandVolumeResponse_CapacityBytes resp <= len.
Proof.
  intros p e fs fs0 request resp Hnonneg Hreply.
  destruct (NodeExpandVolume_Reply p e fs request resp Hreply) as (Hsize & Hid & Hexpand).
  pose proof (calculateVolumeSize_bounds _ _ Hsize) as Hbounds. size_constants.
  split.
  - unfold ControllerExpandVolume. cbn [ControllerExpandVolumeRequest_VolumeId
      ControllerExpandVolumeRequest_CapacityRange]. rewrite Hsize.
    destruct (String.eqb_spec (NodeExpandVolumeRequest_VolumeId request) "");
      [congruence|reflexivity].
  - destruct (ExpandVolumeSize_success_size p _ _ _ _ _ Hexpand) as [cur Hcur].
    destruct (GetVolumeSize_Ok _ _ _ _ _ Hcur) as [Himg _].
    assert (Hcur0 : 0 <= cur).
    { apply Hnonneg. unfold image_length. rewrite Himg. reflexivity. }
    assert (Hfits : 0 < NodeExpandVolumeResponse_CapacityBytes resp < 2 ^ 63) by lia.
    pose proof (ExpandVolumeSize_result (volumeController p) e fs _ _ _ cur None Hcur Hcur0
                  Hfits Hexpand) as Hlen.
    cbn in Hlen. eexists. split; [exact Hlen|lia].
Qed.


Lemma X9_expansion_halves_agree_witness :
  reply (ControllerExpandVolume plugin_n1 ∅
           {| ControllerExpandVolumeRequest_VolumeId := "vol-a";
              ControllerExpandVolumeRequest_CapacityRange :=
                Some {| RequiredBytes := 5368709120; LimitBytes := 0 |} |}) =
    Return (Reply {| ControllerExpandVolumeResponse_CapacityBytes := 5368709120;
                     NodeExpansionRequired := true |}).
Proof.
  apply (proj1 (X9_expansion_halves_agree plugin_n1 (staged_host 2621440) one_volume ∅
                  expand_vol_a_5
                  {| NodeExpandVolumeResponse_CapacityBytes := 5368709120 |}
                  ltac:(intros len Hlen; vm_compute in Hlen; inversion Hlen; lia)
                  ltac:(vm_compute; reflexivity))).
Defined.

(** X10. The capacity CreateVolume reports and the image it leaves.  When
    the volume had no image, a successful CreateVolume leaves an image
    exactly as long as the capacity in its response.  When an image was
    already there, its length is kept whatever capacity was asked for and
    reported. *)
Theorem X10_reported_capacity_and_image :
  forall (fmt_Sprintf0 : string -> string) (p : Plugin SparseFileVolumeController.t)
         (e : Env) (fs : Files) (request : CreateVolumeRequest)
         (resp : CreateVolumeResponse),
    reply (CreateVolume fmt_Sprintf0 p e fs request) = Return (Reply resp) ->
    let path := SparseFileVolumeController.getImageFullPath (volumeController p)
                  (Name request) in
    (SparseFileVolumeController.isFileExists fs path = false ->
     image_length (files (CreateVolume fmt_Sprintf0 p e fs request)) path
       = Some (CapacityBytes (Volume_ resp))) /\
    (forall len,
       image_length fs path = Some len ->
       image_length (files (CreateVolume fmt_Sprintf0 p e fs request)) path = Some len).
Proof.
  intros fmt_Sprintf0 p e fs request resp Hreply path.
  destruct (CreateVolume_Reply _ _ _ _ _ _ Hreply) as (nodeName & size & _ & Hsize & Hcreate & ->).
  pose proof (calculateVolumeSize_bounds _ _ Hsize) as Hbounds. size_constants.
  cbn [Volume_ CapacityBytes]. split.
  - intros Hex. apply Create_fresh in Hcreate as [-> _]; [|assumption].
    unfold image_length. rewrite lookup_insert_eq.
    destruct (Z.ltb_spec size 0); [lia|reflexivity].
  - intros len Hlen.
    assert (Hex : SparseFileVolumeController.isFileExists fs path = true).
    { unfold image_length in Hlen. unfold SparseFileVolumeController.isFileExists.
      destruct (fs !! path) as [[len'|]|]; try discriminate. reflexivity. }
    destruct (Create_existing (volumeController p) e fs (Name request) size Hex)
      as [Hfiles _].
    fold path in Hcreate. rewrite Hcreate in Hfiles. cbn in Hfiles. rewrite Hfiles.
    exact Hlen.
Qed.

Lemma X10_reported_capacity_and_image_witness :
  image_length
    (files (CreateVolume verbatim plugin_n1 (healthy_host 0) one_volume create_vol_a_5))
    "/data/vol-a.img" = Some GiB.
Proof.
  assert (Hreply :
    reply (CreateVolume verbatim plugin_n1 (healthy_host 0) one_volume create_vol_a_5) =
    Return (Reply {| Volume_ := {| CapacityBytes := 5368709120; VolumeId := "vol-a";
      AccessibleTopology := [ {| Segments := {[ "hostname" := "n1" ]} |} ] |} |}))
    by (vm_compute; reflexivity).
  apply (proj2 (X10_reported_capacity_and_image verbatim plugin_n1 (healthy_host 0)
                  one_volume create_vol_a_5 _ Hreply) GiB).
  vm_compute. reflexivity.
Defined.

(** X11. How the node handlers report a volume whose image is missing.
    NodeExpandVolume answers NotFound.  NodeStageVolume answers Internal,
    for every filesystem type and whatever the mounter is, and
    NodeUnstageVolume, once the staging path is unmounted, answers
    Internal as well: the not-found error of the controller does not
    reach the client as NotFound there. *)
Theorem X11_missing_image_status :
  forall (p : Plugin SparseFileVolumeController.t) (M : Type) (HM : Mounter M)
         (mounter : M) (e : NodeEnv) (fs : Files) (volumeId : string),
    volumeId <> "" ->
    SparseFileVolumeController.isFileExists fs
      (SparseFileVolumeController.getImageFullPath (volumeController p) volumeId) = false ->
    (forall capRange size fsType flags mode,
       calculateVolumeSize capRange = Ok size ->
       reply (NodeExpandVolume p (host e) fs
                {| NodeExpandVolumeRequest_VolumeId := volumeId;
                   NodeExpandVolumeRequest_CapacityRange := capRange;
                   NodeExpandVolumeRequest_VolumeCapability :=
                     Some {| AccessType := Some (VolumeCapability_Mount fsType flags);
                             AccessMode := mode |} |}) =
       Return (Status NotFound
         ("NodeExpandVolume error expand volume size: volume (" +:+ volumeId
          +:+ ") not found"))) /\
    (forall staging fsType flags mode,
       staging <> "" ->
       reply (NodeStageVolume (MT := HM) p mounter e fs
                {| NodeStageVolumeRequest_VolumeId := volumeId;
                   NodeStageVolumeRequest_StagingTargetPath := staging;
                   NodeStageVolumeRequest_VolumeCapability :=
                     Some {| AccessType := Some (VolumeCapability_Mount fsType flags);
                             AccessMode := mode |} |}) =
       Return (Status Internal
         ("NodeStageVolume (" +:+ volumeId +:+ ") error format volume device"))) /\
    (forall staging,
       staging <> "" ->
       Unmount mounter e staging = Return None ->
       reply (NodeUnstageVolume (MT := HM) p mounter e fs
                {| NodeUnstageVolumeRequest_VolumeId := volumeId;
                   NodeUnstageVolumeRequest_StagingTargetPath := staging |}) =
       Return (Status Internal
         ("NodeUnstageVolume (" +:+ volumeId
          +:+ ") error detach device: volume not found"))).
Proof.
  intros p M HM mounter e fs volumeId Hid Hex.
  apply String.eqb_neq in Hid.
  split; [|split].
  - intros capRange size fsType flags mode Hsize.
    pose proof (calculateVolumeSize_bounds _ _ Hsize) as Hbounds. size_constants.
    unfold NodeExpandVolume. cbn -[calculateVolumeSize]. rewrite Hid, Hsize.
    unfold SparseFileVolumeController.ExpandVolumeSize. rewrite Hid, Hex.
    destruct (Z.leb_spec size 0); [lia|]. reflexivity.
  - intros staging fsType flags mode Hstaging.
    apply String.eqb_neq in Hstaging.
    unfold NodeStageVolume. cbn. rewrite Hid, Hstaging.
    unfold volumes_node.SparseFileVolumeController.FormatIfNot. rewrite Hid, Hex.
    destruct (String.eqb fsType ""); cbn; [reflexivity|].
    destruct (String.eqb fsType "ext4"); reflexivity.
  - intros staging Hstaging Hunmount.
    apply String.eqb_neq in Hstaging.
    unfold NodeUnstageVolume. cbn. rewrite Hid, Hstaging, Hunmount.
    unfold volumes_node.SparseFileVolumeController.DetachDevice. rewrite Hid, Hex.
    reflexivity.
Qed.

Lemma X11_missing_image_status_witness :
  reply (NodeStageVolume (MT := mounter_vol_a) plugin_n1 volumes_node.LinuxMounter.NewLinuxMounter
           (node_env staged_vol_a) ∅ (stage_vol_a "ext4")) =
    Return (Status Internal ("NodeStageVolume (" +:+ "vol-a" +:+ ") error format volume device")).
Proof.
  apply (proj1 (proj2 (X11_missing_image_status plugin_n1 _ mounter_vol_a
           volumes_node.LinuxMounter.NewLinuxMounter (node_env staged_vol_a) ∅ "vol-a"
           ltac:(discriminate) ltac:(vm_compute; reflexivity)))
           "/stage/vol-a" "ext4" [] (Some SINGLE_NODE_WRITER)).
  discriminate.
Defined.

(** *** Statistics and capacity *)

Lemma GetVolumeStats_add_up :
  forall (s : SparseFileVolumeController.t) (e : Env) (path : string) (st : Statfs_t),
    path <> "" ->
    Statfs e path = Ok st ->
    0 <= Bavail st <= Bfree st -> Bfree st <= Blocks st ->
    0 < Bsize st < 2 ^ 63 -> Blocks st * Bsize st < 2 ^ 63 ->
    0 <= Ffree st <= Ffiles st -> Ffiles st < 2 ^ 63 ->
    exists stats,
      volumes_node.SparseFileVolumeController.GetVolumeStats s e path = Ok stats /\
      TotalBytes stats = Blocks st * Bsize st /\
      UsedBytes stats + Bfree st * Bsize st = TotalBytes stats /\
      AvailableBytes stats + UsedBytes stats <= TotalBytes stats /\
      UsedInodes stats + AvailableInodes stats = TotalInodes stats /\
      0 <= AvailableBytes stats /\ 0 <= UsedBytes stats /\
      0 <= AvailableInodes stats /\ 0 <= UsedInodes stats.
Proof.
  intros s e path st Hpath Hst Havail Hfree Hbsize Htotal Hffree Hfiles.
  assert (Hw : forall z, - 2 ^ 63 <= z < 2 ^ 63 -> wrap64 z = z).
  { intros z Hz. unfold wrap64. rewrite Z.mod_small by lia. lia. }
  assert (Hblocks : 0 <= Blocks st < 2 ^ 63) by nia.
  unfold volumes_node.SparseFileVolumeController.GetVolumeStats. rewrite Hst.
  apply String.eqb_neq in Hpath. rewrite Hpath.
  eexists. split; [reflexivity|]. cbn.
  rewrite (Hw (Bavail st)), (Hw (Bsize st)), (Hw (Blocks st)), (Hw (Bfree st)),
    (Hw (Ffree st)), (Hw (Ffiles st)) by lia.
  rewrite (Hw (Blocks st - Bfree st)), (Hw (Ffiles st - Ffree st)) by lia.
  rewrite (Hw (Bavail st * Bsize st)), (Hw (Blocks st * Bsize st)),
    (Hw ((Blocks st - Bfree st) * Bsize st)) by nia.
  repeat split; nia.
Qed.

(** X12. The accounting of GetVolumeStats.  For statfs numbers as a
    filesystem reports them (available <= free <= total blocks, a
    positive block size, free <= total inodes, all within int64),
    GetVolumeStats succeeds and its figures add up: used plus free bytes
    is the total, available plus used bytes does not exceed the total,
    used plus available inodes is the total, and no figure is negative. *)
Theorem X12_volume_stats_add_up :
  forall (s : SparseFileVolumeController.t) (e : Env) (path : string) (st : Statfs_t),
    path <> "" ->
    Statfs e path = Ok st ->
    0 <= Bavail st <= Bfree st -> Bfree st <= Blocks st ->
    0 < Bsize st < 2 ^ 63 -> Blocks st * Bsize st < 2 ^ 63 ->
    0 <= Ffree st <= Ffiles st -> Ffiles st < 2 ^ 63 ->
    exists stats,
      volumes_node.SparseFileVolumeController.GetVolumeStats s e path = Ok stats /\
      TotalBytes stats = Blocks st * Bsize st /\
      UsedBytes stats + Bfree st * Bsize st = TotalBytes stats /\
      AvailableBytes stats + UsedBytes stats <= TotalBytes stats /\
      UsedInodes stats + AvailableInodes stats = TotalInodes stats /\
      0 <= AvailableBytes stats /\ 0 <= UsedBytes stats /\
      0 <= AvailableInodes stats /\ 0 <= UsedInodes stats.
Proof. exact GetVolumeStats_add_up. Qed.

Lemma X12_volume_stats_add_up_witness :
  exists stats,
    volumes_node.SparseFileVolumeController.GetVolumeStats data_controller
      (healthy_host 2621440) "/stage/vol-a" = Ok stats /\
    TotalBytes stats = 26214400 * 4096.
Proof.
  destruct (X12_volume_stats_add_up data_controller (healthy_host 2621440) "/stage/vol-a"
              {| Bsize := 4096; Blocks := 26214400; Bfree := 2621440;
                 Bavail := 2621440; Ffiles := 6553600; Ffree := 6553000 |})
    as (stats & Hstats & Htotal & _);
    try (cbn; lia); try reflexivity; try discriminate.
  exists stats. auto.
Defined.


(** Blank findmnt output: nothing is mounted at the target. *)
Lemma IsMounted_blank
    (json_Unmarshal : string -> result (option volumes.LinuxMounter.findMntResponse))
    (e : Env) (target : string) :
  target <> "" -> LookPath e "findmnt" = Found ->
  TrimSpace (cmd_out e "findmnt" (volumes.LinuxMounter.findmntArgs target)) = "" ->
  volumes.LinuxMounter.IsMounted json_Unmarshal e target = Return (false, None).
Proof.
  intros Htarget Hpath Hblank.
  unfold volumes.LinuxMounter.IsMounted, checkExecutable. rewrite Hpath, Hblank.
  destruct (String.eqb_spec target ""); [congruence|].
  destruct (cmd_err e "findmnt" _); reflexivity.
Qed.

(** X13. NodeGetVolumeStats with the Linux mounter.  For a path at which
    findmnt finds nothing (blank output) the answer is NotFound.  For a
    path the mount check reports mounted, on a filesystem whose statfs
    numbers are as in X12, the answer has exactly two usage entries, bytes
    first and inodes second, and in each of them available plus used does
    not exceed the total. *)
Theorem X13_node_volume_stats :
  forall (json_Unmarshal : string -> result (option volumes.LinuxMounter.findMntResponse))
         (p : Plugin SparseFileVolumeController.t) (e : NodeEnv) (fs : Files)
         (volumeId path : string),
    volumeId <> "" -> path <> "" ->
    let request := {| NodeGetVolumeStatsRequest_VolumeId := volumeId;
                      VolumePath := path |} in
    let handled :=
      NodeGetVolumeStats
        (MT := volumes_node.LinuxMounter.LinuxMounter_Mounter json_Unmarshal)
        p volumes_node.LinuxMounter.NewLinuxMounter e fs request in
    (LookPath (host e) "findmnt" = Found ->
     TrimSpace (cmd_out (host e) "findmnt" (volumes.LinuxMounter.findmntArgs path)) = "" ->
     reply handled =
       Return (Status NotFound ("NodeGetVolumeStats path (" +:+ path +:+ ") is not mounted"))) /\
    (forall st,
       volumes.LinuxMounter.IsMounted json_Unmarshal (host e) path = Return (true, None) ->
       Statfs (host e) path = Ok st ->
       0 <= Bavail st <= Bfree st -> Bfree st <= Blocks st ->
       0 < Bsize st < 2 ^ 63 -> Blocks st * Bsize st < 2 ^ 63 ->
       0 <= Ffree st <= Ffiles st -> Ffiles st < 2 ^ 63 ->
       exists bytes inodes,
         reply handled = Return (Reply {| Usage := [bytes; inodes] |}) /\
         Unit bytes = VolumeUsage_BYTES /\ Unit inodes = VolumeUsage_INODES /\
         Total bytes = Blocks st * Bsize st /\
         0 <= Available bytes /\ 0 <= Used bytes /\
         Available bytes + Used bytes <= Total bytes /\
         0 <= Available inodes /\ 0 <= Used inodes /\
         Available inodes + Used inodes = Total inodes).
Proof.
  intros json_Unmarshal p e fs volumeId path Hid Hpath request handled.
  apply String.eqb_neq in Hid. pose proof Hpath as Hpath'.
  apply String.eqb_neq in Hpath'.
  split.
  - intros Hfound Hblank.
    subst handled. unfold NodeGetVolumeStats. cbn. rewrite Hid, Hpath'.
    rewrite (IsMounted_blank json_Unmarshal (host e) path Hpath Hfound Hblank). reflexivity.
  - intros st Hmounted Hst Havail Hfree Hbsize Htotal Hffree Hfiles.
    destruct (GetVolumeStats_add_up (volumeController p) (host e) path st Hpath Hst
                Havail Hfree Hbsize Htotal Hffree Hfiles)
      as (stats & Hstats & Ht & Hu & Hau & Hi & H1 & H2 & H3 & H4).
    subst handled. unfold NodeGetVolumeStats. cbn. rewrite Hid, Hpath', Hmounted.
    cbn. rewrite Hstats. eexists _, _. split; [reflexivity|]. cbn.
    repeat split; lia.
Qed.


Lemma X13_node_volume_stats_witness :
  reply (NodeGetVolumeStats (MT := mounter_vol_a) plugin_n1
           volumes_node.LinuxMounter.NewLinuxMounter (node_env staged_vol_a) one_volume
           {| NodeGetVolumeStatsRequest_VolumeId := "vol-a";
              VolumePath := "/not/mounted" |}) =
    Return (Status NotFound
      ("NodeGetVolumeStats path (" +:+ "/not/mounted" +:+ ") is not mounted")).
Proof.
  apply (proj1 (X13_node_volume_stats (decode_findmnt "/stage/vol-a") plugin_n1
                  (node_env staged_vol_a) one_volume "vol-a" "/not/mounted"
                  ltac:(discriminate) ltac:(discriminate)));
    vm_compute; reflexivity.
Defined.

(** X14. What GetCapacity advertises is what the size calculation
    enforces.  Whenever GetCapacity answers, the minimum and maximum
    volume sizes in its response bound every size calculateVolumeSize
    grants, every size within them is granted when asked for as required
    bytes, and the available capacity is the figure the controller's
    GetCapacity returns on that host. *)
Theorem X14_advertised_limits_are_enforced :
  forall (p : Plugin SparseFileVolumeController.t) (e : Env) (fs : Files)
         (r : GetCapacityResponse),
    reply (GetCapacity p e fs) = Return (Reply r) ->
    exists min max,
      MinimumVolumeSize r = Some min /\ MaximumVolumeSize r = Some max /\
      (forall capRange size, calculateVolumeSize capRange = Ok size -> min <= size <= max) /\
      (forall size, min <= size <= max ->
         calculateVolumeSize (Some {| RequiredBytes := size; LimitBytes := 0 |}) = Ok size) /\
      SparseFileVolumeController.GetCapacity (volumeController p) e
        = Ok (AvailableCapacity r).
Proof.
  intros p e fs r. unfold GetCapacity.
  change (volumes.GetCapacity (volumeController p) e)
    with (SparseFileVolumeController.GetCapacity (volumeController p) e).
  destruct (SparseFileVolumeController.GetCapacity (volumeController p) e)
    as [avail|]; [|discriminate].
  cbn [reply]. intros Heq. inversion Heq; subst r. cbn.
  exists minimumVolumeSize, maximumVolumeSize.
  split; [reflexivity|]. split; [reflexivity|].
  split; [apply calculateVolumeSize_bounds|]. split; [|reflexivity].
  intros size Hsize. size_constants.
  unfold calculateVolumeSize; cbn [RequiredBytes LimitBytes]. size_constants.
  destruct (Z.ltb_spec 0 size); [|lia].
  destruct (Z.ltb_spec size 1073741824); [lia|].
  destruct (Z.ltb_spec 214748364800 size); [lia|]. reflexivity.
Qed.

Lemma X14_advertised_limits_are_enforced_witness :
  exists min max,
    1073741824 = min /\ 214748364800 = max /\
    calculateVolumeSize (Some {| RequiredBytes := max; LimitBytes := 0 |}) = Ok max.
Proof.
  destruct (X14_advertised_limits_are_enforced plugin_n1 (healthy_host 262144) one_volume
              {| AvailableCapacity := GiB; MaximumVolumeSize := Some 214748364800;
                 MinimumVolumeSize := Some 1073741824 |})
    as (min & max & Hmin & Hmax & Hall & Hgrant & _); [vm_compute; reflexivity|].
  cbn in Hmin, Hmax. inversion Hmin. inversion Hmax. subst.
  exists 1073741824, 214748364800.
  split; [reflexivity|]. split; [reflexivity|]. apply Hgrant. lia.
Defined.

(** *** Filesystem and loop device *)

(** X15. FormatIfNot.  Only ext4 is accepted: any other filesystem type
    is refused, before the image or the host is looked at.  An image that
    blkid identifies as ext4 is left alone: the call succeeds without
    mkfs, whether or not mkfs is installed.  When blkid fails with an
    error that is not an exit status (the command could not be run), the
    call panics instead of returning an error. *)
Theorem X15_format_if_not :
  forall (s : SparseFileVolumeController.t) (e : NodeEnv) (fs : Files)
         (volumeId : string),
    volumeId <> "" ->
    let filename := SparseFileVolumeController.getImageFullPath s volumeId in
    let args := ["-o"; "value"; "-s"; "TYPE"; filename] in
    (forall fsType,
       fsType <> "ext4" ->
       volumes_node.SparseFileVolumeController.FormatIfNot s e fs volumeId fsType =
         Return (Some (Errorf ("given filesystem type (" +:+ fsType +:+ ") not supported")))) /\
    (SparseFileVolumeController.isFileExists fs filename = true ->
     LookPath (host e) "blkid" = Found ->
     (cmd_err (host e) "blkid" args = None ->
      TrimSpace (cmd_out (host e) "blkid" args) = "ext4" ->
      volumes_node.SparseFileVolumeController.FormatIfNot s e fs volumeId "ext4"
        = Return None) /\
     (forall msg,
        cmd_err (host e) "blkid" args = Some msg ->
        ExitCode e "blkid" args = None ->
        volumes_node.SparseFileVolumeController.FormatIfNot s e fs volumeId "ext4"
          = Panic)).
Proof.
  intros s e fs volumeId Hid filename args.
  apply String.eqb_neq in Hid. split.
  - intros fsType Hfs. apply String.eqb_neq in Hfs.
    unfold volumes_node.SparseFileVolumeController.FormatIfNot. rewrite Hid, Hfs.
    reflexivity.
  - intros Hex Hblkid.
    assert (Hname : String.eqb filename "" = false).
    { apply String.eqb_neq. intros Heq.
      unfold SparseFileVolumeController.isFileExists in Hex.
      apply (f_equal String.length) in Heq.
      subst filename. unfold SparseFileVolumeController.getImageFullPath in Heq.
      rewrite !length_append in Heq. cbn in Heq. lia. }
    split.
    + intros Hrun Hout.
      unfold volumes_node.SparseFileVolumeController.FormatIfNot,
        volumes_node.SparseFileVolumeController.getCurrentFilesystem, checkExecutable.
      fold filename. fold args. rewrite Hid, Hex, Hname, Hblkid, Hrun, Hout. reflexivity.
    + intros msg Hrun Hcode.
      unfold volumes_node.SparseFileVolumeController.FormatIfNot,
        volumes_node.SparseFileVolumeController.getCurrentFilesystem, checkExecutable.
      fold filename. fold args. rewrite Hid, Hex, Hname, Hblkid, Hrun, Hcode. reflexivity.
Qed.

Lemma X15_format_if_not_witness :
  volumes_node.SparseFileVolumeController.FormatIfNot data_controller
    {| host := staged_vol_a; ExitCode := fun _ _ => None;
       MkdirAll := fun _ => Some "permission denied" |}
    one_volume "vol-a" "ext4" = Return None /\
  volumes_node.SparseFileVolumeController.FormatIfNot data_controller
    (node_env staged_vol_a) one_volume "vol-a" "xfs" =
    Return (Some (Errorf ("given filesystem type (" +:+ "xfs" +:+ ") not supported"))).
Proof.
  split.
  - apply (proj2 (X15_format_if_not data_controller
                    {| host := staged_vol_a; ExitCode := fun _ _ => None;
                       MkdirAll := fun _ => Some "permission denied" |}
                    one_volume "vol-a" ltac:(discriminate)));
      vm_compute; reflexivity.
  - apply (proj1 (X15_format_if_not data_controller (node_env staged_vol_a)
                    one_volume "vol-a" ltac:(discriminate))).
    discriminate.
Defined.

(** String reversal, as TrimSpace uses it. *)
Lemma append_nil_r (a : string) : a +:+ "" = a.
Proof.
  induction a as [|c a IH]; [reflexivity|].
  change (String c (a +:+ "") = String c a). rewrite IH. reflexivity.
Qed.

Lemma rev_app_spec (a b : string) : String.rev_app a b = String.rev a +:+ b.
Proof.
  revert b. induction a as [|c a IH]; intros b; [reflexivity|].
  unfold String.rev. cbn [String.rev_app].
  rewrite (IH (String c b)), (IH (String c "")), append_assoc. reflexivity.
Qed.

Lemma rev_cons (c : ascii) (a : string) :
  String.rev (String c a) = String.rev a +:+ String c "".
Proof. unfold String.rev at 1. cbn [String.rev_app]. apply rev_app_spec. Qed.

Lemma rev_append (a b : string) :
  String.rev (a +:+ b) = String.rev b +:+ String.rev a.
Proof.
  induction a as [|c a IH].
  - change ("" +:+ b) with b. change (String.rev "") with "".
    rewrite append_nil_r. reflexivity.
  - change (String c a +:+ b) with (String c (a +:+ b)).
    rewrite !rev_cons, IH, append_assoc. reflexivity.
Qed.

Lemma rev_involutive (a : string) : String.rev (String.rev a) = a.
Proof.
  induction a as [|c a IH]; [reflexivity|].
  rewrite rev_cons, rev_append, IH. reflexivity.
Qed.

(** Trimming on the left stops at the first byte that is not white
    space. *)
Lemma trim_left_app (a : string) (c : ascii) (b : string) :
  is_space c = false ->
  exists w, trim_left (a +:+ String c b) = w +:+ String c b.
Proof.
  intros Hc. induction a as [|x a [w IH]].
  - exists "". change (trim_left (String c b) = String c b).
    cbn [trim_left]. rewrite Hc. reflexivity.
  - change (String x a +:+ String c b) with (String x (a +:+ String c b)).
    cbn [trim_left]. destruct (is_space x).
    + exists w. exact IH.
    + exists (String x a). reflexivity.
Qed.

(** Splitting hands back what stands before the first separator. *)
Lemma Split_aux_head (sep : ascii) (dev acc tail : string) :
  ~ mentions dev (String sep "") ->
  exists pieces,
    Split_aux sep acc (dev +:+ String sep tail) =
    String.rev (String.rev_app dev acc) :: pieces.
Proof.
  revert acc. induction dev as [|c dev IH]; intros acc Hno.
  - change ("" +:+ String sep tail) with (String sep tail).
    cbn [Split_aux String.rev_app]. rewrite Ascii.eqb_refl. eauto.
  - change (String c dev +:+ String sep tail) with (String c (dev +:+ String sep tail)).
    cbn [Split_aux String.rev_app].
    destruct (Ascii.eqb_spec c sep) as [->|Hne].
    + exfalso. apply Hno. exists "", dev. reflexivity.
    + apply IH. intros (before & after & Heq). apply Hno.
      exists (String c before), after. rewrite Heq. reflexivity.
Qed.

Lemma is_space_colon : is_space ":"%char = false.
Proof. reflexivity. Qed.

(** What losetup prints for an attached image, [<device>: <rest>], is
    read back as the device. *)
Lemma device_of_losetup_line (dev rest : string) :
  dev <> "" -> trim_left dev = dev -> ~ mentions dev ":" ->
  exists pieces, Split (TrimSpace (dev +:+ ":" +:+ rest)) ":"%char = dev :: pieces.
Proof.
  intros Hdev Htrim Hno.
  assert (Hleft : trim_left (dev +:+ ":" +:+ rest) = dev +:+ ":" +:+ rest).
  { destruct dev as [|c dev]; [congruence|].
    change (String c dev +:+ ":" +:+ rest) with (String c (dev +:+ ":" +:+ rest)).
    cbn [trim_left] in *. destruct (is_space c); [|reflexivity].
    exfalso. apply (f_equal String.length) in Htrim. cbn [String.length] in Htrim.
    assert (Hle : forall x, (String.length (trim_left x) <= String.length x)%nat).
    { intros x. induction x as [|y x IHx]; cbn [trim_left String.length]; [lia|].
      destruct (is_space y); cbn [String.length]; lia. }
    specialize (Hle dev). lia. }
  unfold TrimSpace. rewrite Hleft.
  change (dev +:+ ":" +:+ rest) with (dev +:+ String ":" rest).
  rewrite rev_append, rev_cons, append_assoc.
  change (String ":" "" +:+ String.rev dev) with (String ":" (String.rev dev)).
  destruct (trim_left_app (String.rev rest) ":" (String.rev dev) is_space_colon) as [w ->].
  rewrite rev_append, rev_cons, rev_involutive, append_assoc.
  change (String ":" "" +:+ String.rev w) with (String ":" (String.rev w)).
  unfold Split.
  destruct (Split_aux_head ":" dev "" (String.rev w) Hno) as [pieces ->].
  fold (String.rev dev). rewrite rev_involutive. eauto.
Qed.

(** A device that losetup reports for the image is the one found, and
    the one attached. *)
Lemma GetDeviceByVolumeId_reported (s : SparseFileVolumeController.t) (e : Env)
    (fs : Files) (volumeId dev rest : string) :
  volumeId <> "" ->
  SparseFileVolumeController.isFileExists fs
    (SparseFileVolumeController.getImageFullPath s volumeId) = true ->
  LookPath e "losetup" = Found ->
  cmd_err e "losetup"
    ["--associated"; SparseFileVolumeController.getImageFullPath s volumeId] = None ->
  cmd_out e "losetup"
    ["--associated"; SparseFileVolumeController.getImageFullPath s volumeId]
    = dev +:+ ":" +:+ rest ->
  dev <> "" -> trim_left dev = dev -> ~ mentions dev ":" ->
  SparseFileVolumeController.GetDeviceByVolumeId s e fs volumeId = Ok dev.
Proof.
  intros Hid Hex Hpath Hrun Hout Hdev Htrim Hno.
  apply String.eqb_neq in Hid.
  destruct (device_of_losetup_line dev rest Hdev Htrim Hno) as [pieces Hsplit].
  unfold SparseFileVolumeController.GetDeviceByVolumeId, checkExecutable.
  rewrite Hid, Hex, Hpath, Hrun, Hout, Hsplit. reflexivity.
Qed.

Lemma AttachDevice_reported (s : SparseFileVolumeController.t) (e : Env)
    (fs : Files) (volumeId dev rest : string) :
  volumeId <> "" ->
  SparseFileVolumeController.isFileExists fs
    (SparseFileVolumeController.getImageFullPath s volumeId) = true ->
  LookPath e "losetup" = Found ->
  cmd_err e "losetup"
    ["--associated"; SparseFileVolumeController.getImageFullPath s volumeId] = None ->
  cmd_out e "losetup"
    ["--associated"; SparseFileVolumeController.getImageFullPath s volumeId]
    = dev +:+ ":" +:+ rest ->
  dev <> "" -> trim_left dev = dev -> ~ mentions dev ":" ->
  volumes_node.SparseFileVolumeController.AttachDevice s e fs volumeId = Ok dev.
Proof.
  intros Hid Hex Hpath Hrun Hout Hdev Htrim Hno.
  pose proof (GetDeviceByVolumeId_reported s e fs volumeId dev rest
                Hid Hex Hpath Hrun Hout Hdev Htrim Hno) as Hget.
  apply String.eqb_neq in Hid. apply String.eqb_neq in Hdev.
  unfold volumes_node.SparseFileVolumeController.AttachDevice.
  rewrite Hid, Hex, Hget, Hdev. reflexivity.
Qed.

(** X16. Attaching is idempotent over what losetup reports.  When
    [losetup --associated] prints a line for the image that starts with a
    device name (no colon in it, no leading white space) followed by a
    colon, GetDeviceByVolumeId returns that device, and AttachDevice
    returns it too without asking losetup for a new device; this holds
    with and without direct I/O. *)
Theorem X16_attached_device_is_reused :
  forall (s : SparseFileVolumeController.t) (e : Env) (fs : Files)
         (volumeId dev rest : string),
    volumeId <> "" ->
    SparseFileVolumeController.isFileExists fs
      (SparseFileVolumeController.getImageFullPath s volumeId) = true ->
    LookPath e "losetup" = Found ->
    cmd_err e "losetup"
      ["--associated"; SparseFileVolumeController.getImageFullPath s volumeId] = None ->
    cmd_out e "losetup"
      ["--associated"; SparseFileVolumeController.getImageFullPath s volumeId]
      = dev +:+ ":" +:+ rest ->
    dev <> "" -> trim_left dev = dev -> ~ mentions dev ":" ->
    SparseFileVolumeController.GetDeviceByVolumeId s e fs volumeId = Ok dev /\
    volumes_node.SparseFileVolumeController.AttachDevice s e fs volumeId = Ok dev.
Proof.
  intros s e fs volumeId dev rest Hid Hex Hpath Hrun Hout Hdev Htrim Hno.
  split.
  - exact (GetDeviceByVolumeId_reported s e fs volumeId dev rest
             Hid Hex Hpath Hrun Hout Hdev Htrim Hno).
  - exact (AttachDevice_reported s e fs volumeId dev rest
             Hid Hex Hpath Hrun Hout Hdev Htrim Hno).
Qed.

(** The device name of the examples holds no colon. *)
Lemma loop0_no_colon : ~ mentions "/dev/loop0" ":".
Proof.
  intros (before & after & Heq).
  do 10 (destruct before as [|? before]; cbv in Heq; [discriminate|];
         injection Heq as _ Heq).
  destruct before; cbv in Heq; discriminate.
Qed.

Lemma X16_attached_device_is_reused_witness :
  SparseFileVolumeController.GetDeviceByVolumeId data_controller staged_vol_a
    one_volume "vol-a" = Ok "/dev/loop0" /\
  volumes_node.SparseFileVolumeController.AttachDevice data_controller staged_vol_a
    one_volume "vol-a" = Ok "/dev/loop0".
Proof.
  apply (X16_attached_device_is_reused data_controller staged_vol_a one_volume "vol-a"
           "/dev/loop0" " [2049]:131 (/data/vol-a.img)");
    try (vm_compute; reflexivity); try discriminate.
  exact loop0_no_colon.
Defined.


(** The loop that appends the mount flags one by one appends them all,
    in order. *)
Lemma fold_left_snoc (flags init : list string) :
  fold_left (fun mountOptions flag => (mountOptions ++ [flag])%list) flags init
  = (init ++ flags)%list.
Proof.
  revert init. induction flags as [|flag flags IH]; intros init; cbn [fold_left].
  - rewrite app_nil_r. reflexivity.
  - rewrite IH, <- app_assoc. reflexivity.
Qed.

Lemma publishMountOptions_spec (readonly : bool) (mountFlags : list string) :
  publishMountOptions readonly mountFlags
  = ("bind" :: (if readonly then ["ro"] else []) ++ mountFlags)%list.
Proof.
  unfold publishMountOptions. rewrite fold_left_snoc. destruct readonly; reflexivity.
Qed.

(** The image path is never the empty string. *)
Lemma getImageFullPath_nonempty (s : SparseFileVolumeController.t) (volumeId : string) :
  SparseFileVolumeController.getImageFullPath s volumeId <> "".
Proof.
  intros Heq. apply (f_equal String.length) in Heq.
  unfold SparseFileVolumeController.getImageFullPath in Heq.
  rewrite !length_append in Heq. cbn in Heq. lia.
Qed.

(** An image that blkid identifies as ext4 is not formatted again. *)
Lemma FormatIfNot_formatted (s : SparseFileVolumeController.t) (e : NodeEnv)
    (fs : Files) (volumeId : string) :
  volumeId <> "" ->
  let filename := SparseFileVolumeController.getImageFullPath s volumeId in
  let args := ["-o"; "value"; "-s"; "TYPE"; filename] in
  SparseFileVolumeController.isFileExists fs filename = true ->
  LookPath (host e) "blkid" = Found ->
  cmd_err (host e) "blkid" args = None ->
  TrimSpace (cmd_out (host e) "blkid" args) = "ext4" ->
  volumes_node.SparseFileVolumeController.FormatIfNot s e fs volumeId "ext4" = Return None.
Proof.
  intros Hid filename args Hex Hblkid Hrun Hout.
  apply String.eqb_neq in Hid.
  pose proof (getImageFullPath_nonempty s volumeId) as Hname.
  apply String.eqb_neq in Hname. fold filename in Hname.
  unfold volumes_node.SparseFileVolumeController.FormatIfNot,
    volumes_node.SparseFileVolumeController.getCurrentFilesystem, checkExecutable.
  fold filename. fold args. rewrite Hid, Hex, Hname, Hblkid, Hrun, Hout. reflexivity.
Qed.

Section mount_facts.

Variable json_Unmarshal : string -> result (option volumes.LinuxMounter.findMntResponse).

(** Over entries that are all shared the loop answers whether one of
    them is the target. *)
Lemma rangeFileSystems_shared (target : string)
    (l : list volumes.LinuxMounter.fileSystem) (isMounted : bool) :
  Forall (fun entry => volumes.LinuxMounter.Propagation entry = "shared") l ->
  volumes.LinuxMounter.rangeFileSystems target l isMounted
  = (isMounted ||
     existsb (fun entry => String.eqb (volumes.LinuxMounter.Target entry) target) l,
     None).
Proof.
  intros Hall. revert isMounted.
  induction Hall as [|fs l Hshared Hall IH]; intros isMounted;
    cbn [volumes.LinuxMounter.rangeFileSystems existsb].
  - rewrite orb_false_r. reflexivity.
  - rewrite Hshared. cbn [negb String.eqb Ascii.eqb Bool.eqb andb].
    change (String.eqb "shared" "shared") with true. cbn [negb].
    rewrite IH.
    destruct (String.eqb (volumes.LinuxMounter.Target fs) target), isMounted; reflexivity.
Qed.

(** The first entry that is not shared ends the loop. *)
Lemma rangeFileSystems_first_bad (target : string)
    (before after : list volumes.LinuxMounter.fileSystem)
    (entry : volumes.LinuxMounter.fileSystem) (isMounted : bool) :
  Forall (fun entry => volumes.LinuxMounter.Propagation entry = "shared") before ->
  volumes.LinuxMounter.Propagation entry <> "shared" ->
  volumes.LinuxMounter.rangeFileSystems target (before ++ entry :: after)%list isMounted
  = (true, Some (Errorf ("bad mount propagation ("
                         +:+ volumes.LinuxMounter.Propagation entry
                         +:+ ") for target " +:+ target))).
Proof.
  intros Hall Hbad. revert isMounted.
  induction Hall as [|fs l Hshared Hall IH]; intros isMounted;
    cbn [app volumes.LinuxMounter.rangeFileSystems].
  - apply String.eqb_neq in Hbad. rewrite Hbad. reflexivity.
  - rewrite Hshared. change (String.eqb "shared" "shared") with true. cbn [negb].
    apply IH.
Qed.

(** Mount and Unmount do nothing when the mount check already gives the
    wanted state. *)
Lemma Mount_mounted (e : NodeEnv) (source target : string) (options : list string) :
  source <> "" -> target <> "" ->
  volumes.LinuxMounter.IsMounted json_Unmarshal (host e) target = Return (true, None) ->
  volumes_node.LinuxMounter.Mount json_Unmarshal e source target options = Return None.
Proof.
  intros Hsource Htarget Hmounted.
  apply String.eqb_neq in Hsource. apply String.eqb_neq in Htarget.
  unfold volumes_node.LinuxMounter.Mount. rewrite Hsource, Htarget, Hmounted. reflexivity.
Qed.

Lemma Unmount_not_mounted (e : NodeEnv) (target : string) :
  target <> "" ->
  volumes.LinuxMounter.IsMounted json_Unmarshal (host e) target = Return (false, None) ->
  volumes_node.LinuxMounter.Unmount json_Unmarshal e target = Return None.
Proof.
  intros Htarget Hmounted. apply String.eqb_neq in Htarget.
  unfold volumes_node.LinuxMounter.Unmount. rewrite Htarget, Hmounted. reflexivity.
Qed.

End mount_facts.

(** X17. The command line of NodePublishVolume.  With the Linux mounter,
    a target that is not mounted yet and can be created, and [mount]
    installed, the reply is decided by the one command
    [mount -o bind[,ro][,flag...] <staging path> <target path>]: [bind]
    comes first, [ro] follows exactly for a read-only request, then the
    mount flags of the capability in their order; the filesystem type of
    the capability plays no part.  The reply is success when that command
    succeeds and Internal, carrying the command's error, when it fails. *)
Theorem X17_publish_command_line :
  forall (json_Unmarshal : string -> result (option volumes.LinuxMounter.findMntResponse))
         (p : Plugin SparseFileVolumeController.t) (e : NodeEnv) (fs : Files)
         (volumeId staging target fsType : string) (flags : list string)
         (mode : option VolumeCapability_AccessMode_Mode) (readonly : bool),
    volumeId <> "" -> staging <> "" -> target <> "" ->
    volumes.LinuxMounter.IsMounted json_Unmarshal (host e) target = Return (false, None) ->
    MkdirAll e target = None ->
    LookPath (host e) "mount" = Found ->
    let request :=
      {| NodePublishVolumeRequest_VolumeId := volumeId;
         NodePublishVolumeRequest_StagingTargetPath := staging;
         NodePublishVolumeRequest_TargetPath := target;
         NodePublishVolumeRequest_VolumeCapability :=
           Some {| AccessType := Some (VolumeCapability_Mount fsType flags);
                   AccessMode := mode |};
         Readonly := readonly |} in
    let args :=
      ["-o"; Join ("bind" :: (if readonly then ["ro"] else []) ++ flags)%list ",";
       staging; target] in
    reply (NodePublishVolume
             (MT := volumes_node.LinuxMounter.LinuxMounter_Mounter json_Unmarshal)
             p volumes_node.LinuxMounter.NewLinuxMounter e fs request)
    = match cmd_err (host e) "mount" args with
      | None => Return (Reply Build_NodePublishVolumeResponse)
      | Some msg =>
        Return (Status Internal
          ("NodePublishVolume (" +:+ volumeId +:+ ") error mount volume: "
           +:+ "error exec command (mount): " +:+ msg))
      end.
Proof.
  intros json_Unmarshal p e fs volumeId staging target fsType flags mode readonly
    Hid Hstaging Htarget Hmounted Hmkdir Hpath request args.
  apply String.eqb_neq in Hid. apply String.eqb_neq in Hstaging.
  apply String.eqb_neq in Htarget.
  unfold NodePublishVolume. cbn -[publishMountOptions]. rewrite Hid, Hstaging, Htarget.
  unfold volumes_node.LinuxMounter.Mount, checkExecutable.
  rewrite Hstaging, Htarget, Hmounted, Hmkdir, Hpath, publishMountOptions_spec.
  unfold volumes_node.LinuxMounter.mountArgs. cbn [length Nat.ltb Nat.leb app].
  fold args. destruct (cmd_err (host e) "mount" args); reflexivity.
Qed.

Lemma X17_publish_command_line_witness :
  reply (NodePublishVolume (MT := mounter_vol_a) plugin_n1
           volumes_node.LinuxMounter.NewLinuxMounter (node_env staged_vol_a) one_volume
           (publish_vol_a true ["noatime"]))
  = match cmd_err staged_vol_a "mount"
            ["-o"; Join ["bind"; "ro"; "noatime"] ","; "/stage/vol-a"; "/pub/vol-a"] with
    | None => Return (Reply Build_NodePublishVolumeResponse)
    | Some msg =>
      Return (Status Internal
        ("NodePublishVolume (" +:+ "vol-a" +:+ ") error mount volume: "
         +:+ "error exec command (mount): " +:+ msg))
    end.
Proof.
  apply (X17_publish_command_line (decode_findmnt "/stage/vol-a") plugin_n1
           (node_env staged_vol_a) one_volume "vol-a" "/stage/vol-a" "/pub/vol-a" "ext4"
           ["noatime"] (Some SINGLE_NODE_WRITER) true);
    try discriminate; vm_compute; reflexivity.
Defined.

(** X18. The node handlers follow the mount check.  With the Linux
    mounter, NodePublishVolume of a target that is already mounted
    succeeds without creating a directory or running [mount], whatever
    the options; NodeUnpublishVolume of a target that is not mounted
    succeeds without running [umount]; NodeUnstageVolume of a staging path
    that is not mounted goes on to detach, and its reply is then decided
    by [losetup --detach-all <image>] alone. *)
Theorem X18_handlers_follow_mount_check :
  forall (json_Unmarshal : string -> result (option volumes.LinuxMounter.findMntResponse))
         (p : Plugin SparseFileVolumeController.t) (e : NodeEnv) (fs : Files)
         (volumeId target : string),
    volumeId <> "" -> target <> "" ->
    let MT := volumes_node.LinuxMounter.LinuxMounter_Mounter json_Unmarshal in
    let mounter := volumes_node.LinuxMounter.NewLinuxMounter in
    (forall staging fsType flags mode readonly,
       staging <> "" ->
       volumes.LinuxMounter.IsMounted json_Unmarshal (host e) target = Return (true, None) ->
       reply (NodePublishVolume (MT := MT) p mounter e fs
                {| NodePublishVolumeRequest_VolumeId := volumeId;
                   NodePublishVolumeRequest_StagingTargetPath := staging;
                   NodePublishVolumeRequest_TargetPath := target;
                   NodePublishVolumeRequest_VolumeCapability :=
                     Some {| AccessType := Some (VolumeCapability_Mount fsType flags);
                             AccessMode := mode |};
                   Readonly := readonly |})
       = Return (Reply Build_NodePublishVolumeResponse)) /\
    (volumes.LinuxMounter.IsMounted json_Unmarshal (host e) target = Return (false, None) ->
     reply (NodeUnpublishVolume (MT := MT) p mounter e fs
              {| NodeUnpublishVolumeRequest_VolumeId := volumeId;
                 NodeUnpublishVolumeRequest_TargetPath := target |})
     = Return (Reply Build_NodeUnpublishVolumeResponse)) /\
    (volumes.LinuxMounter.IsMounted json_Unmarshal (host e) target = Return (false, None) ->
     SparseFileVolumeController.isFileExists fs
       (SparseFileVolumeController.getImageFullPath (volumeController p) volumeId) = true ->
     LookPath (host e) "losetup" = Found ->
     reply (NodeUnstageVolume (MT := MT) p mounter e fs
              {| NodeUnstageVolumeRequest_VolumeId := volumeId;
                 NodeUnstageVolumeRequest_StagingTargetPath := target |})
     = match cmd_err (host e) "losetup"
               ["--detach-all";
                SparseFileVolumeController.getImageFullPath (volumeController p) volumeId]
       with
       | None => Return (Reply Build_NodeUnstageVolumeResponse)
       | Some msg =>
         Return (Status Internal
           ("NodeUnstageVolume (" +:+ volumeId +:+ ") error detach device: "
            +:+ "error exec command (losetup): " +:+ msg))
       end).
Proof.
  intros json_Unmarshal p e fs volumeId target Hid Htarget MT mounter.
  pose proof Hid as Hid'. pose proof Htarget as Htarget'.
  apply String.eqb_neq in Hid'. apply String.eqb_neq in Htarget'.
  split; [|split].
  - intros staging fsType flags mode readonly Hstaging Hmounted.
    pose proof (Mount_mounted json_Unmarshal e staging target
                  (publishMountOptions readonly flags) Hstaging Htarget Hmounted) as Hmount.
    apply String.eqb_neq in Hstaging.
    unfold NodePublishVolume. cbn -[publishMountOptions volumes_node.LinuxMounter.Mount].
    rewrite Hid', Hstaging, Htarget', Hmount. reflexivity.
  - intros Hmounted.
    pose proof (Unmount_not_mounted json_Unmarshal e target Htarget Hmounted) as Humount.
    unfold NodeUnpublishVolume. cbn -[volumes_node.LinuxMounter.Unmount].
    rewrite Hid', Htarget', Humount. reflexivity.
  - intros Hmounted Hex Hpath.
    pose proof (Unmount_not_mounted json_Unmarshal e target Htarget Hmounted) as Humount.
    unfold NodeUnstageVolume.
    cbn -[volumes_node.LinuxMounter.Unmount
          volumes_node.SparseFileVolumeController.DetachDevice].
    rewrite Hid', Htarget', Humount.
    unfold volumes_node.SparseFileVolumeController.DetachDevice, checkExecutable.
    rewrite Hid', Hex, Hpath. cbn [negb].
    destruct (cmd_err (host e) "losetup" _); reflexivity.
Qed.

Lemma X18_handlers_follow_mount_check_witness :
  reply (NodePublishVolume
           (MT := volumes_node.LinuxMounter.LinuxMounter_Mounter (decode_findmnt "/pub/vol-a"))
           plugin_n1 volumes_node.LinuxMounter.NewLinuxMounter published_vol_a one_volume
           (publish_vol_a false []))
  = Return (Reply Build_NodePublishVolumeResponse) /\
  reply (NodeUnpublishVolume (MT := mounter_vol_a) plugin_n1
           volumes_node.LinuxMounter.NewLinuxMounter (node_env staged_vol_a) one_volume
           {| NodeUnpublishVolumeRequest_VolumeId := "vol-a";
              NodeUnpublishVolumeRequest_TargetPath := "/pub/vol-a" |})
  = Return (Reply Build_NodeUnpublishVolumeResponse).
Proof.
  split.
  - apply (proj1 (X18_handlers_follow_mount_check (decode_findmnt "/pub/vol-a")
             plugin_n1 published_vol_a one_volume "vol-a" "/pub/vol-a"
             ltac:(discriminate) ltac:(discriminate))
             "/stage/vol-a" "ext4" [] (Some SINGLE_NODE_WRITER) false);
      [discriminate|vm_compute; reflexivity].
  - apply (proj1 (proj2 (X18_handlers_follow_mount_check (decode_findmnt "/stage/vol-a")
             plugin_n1 (node_env staged_vol_a) one_volume "vol-a" "/pub/vol-a"
             ltac:(discriminate) ltac:(discriminate)))).
    vm_compute; reflexivity.
Defined.

(** X19. What the mount check answers once findmnt has exited with zero
    and its output has been decoded.  If every entry is shared, the answer
    is, without error, whether some entry has the asked target.  Otherwise
    the first entry that is not shared decides: the answer is an error
    that names that entry's propagation and the target, and it comes with
    the flag true, whether or not the target is among the entries. *)
Theorem X19_mount_check_decision :
  forall (json_Unmarshal : string -> result (option volumes.LinuxMounter.findMntResponse))
         (e : Env) (target : string) (resp : volumes.LinuxMounter.findMntResponse),
    let out := cmd_out e "findmnt" (volumes.LinuxMounter.findmntArgs target) in
    target <> "" -> LookPath e "findmnt" = Found ->
    cmd_err e "findmnt" (volumes.LinuxMounter.findmntArgs target) = None ->
    TrimSpace out <> "" ->
    json_Unmarshal out = Ok (Some resp) ->
    (Forall (fun entry => volumes.LinuxMounter.Propagation entry = "shared")
            (volumes.LinuxMounter.FileSystems resp) ->
     volumes.LinuxMounter.IsMounted json_Unmarshal e target
     = Return (existsb (fun entry => String.eqb (volumes.LinuxMounter.Target entry) target)
                       (volumes.LinuxMounter.FileSystems resp), None)) /\
    (forall before entry after,
       volumes.LinuxMounter.FileSystems resp = (before ++ entry :: after)%list ->
       Forall (fun entry => volumes.LinuxMounter.Propagation entry = "shared") before ->
       volumes.LinuxMounter.Propagation entry <> "shared" ->
       volumes.LinuxMounter.IsMounted json_Unmarshal e target
       = Return (true, Some (Errorf ("bad mount propagation ("
                                     +:+ volumes.LinuxMounter.Propagation entry
                                     +:+ ") for target " +:+ target)))).
Proof.
  intros json_Unmarshal e target resp out Htarget Hpath Hrun Hout Hjson.
  apply String.eqb_neq in Htarget. apply String.eqb_neq in Hout.
  assert (Hcall : volumes.LinuxMounter.IsMounted json_Unmarshal e target
                  = Return (volumes.LinuxMounter.rangeFileSystems target
                              (volumes.LinuxMounter.FileSystems resp) false)).
  { unfold volumes.LinuxMounter.IsMounted, checkExecutable.
    fold out. rewrite Htarget, Hpath, Hrun, Hout, Hjson. reflexivity. }
  rewrite Hcall. split.
  - intros Hall. rewrite (rangeFileSystems_shared _ _ _ Hall). reflexivity.
  - intros before entry after Hlist Hall Hbad.
    rewrite Hlist, (rangeFileSystems_first_bad _ _ _ _ _ Hall Hbad). reflexivity.
Qed.

Lemma X19_mount_check_decision_witness :
  volumes.LinuxMounter.IsMounted (decode_findmnt "/stage/vol-a")
    (findmnt_host (findmnt_json "/stage/vol-a" "shared") None) "/stage/vol-a"
  = Return (true, None) /\
  volumes.LinuxMounter.IsMounted (decode_findmnt "/stage/vol-a")
    (findmnt_host (findmnt_json "/stage/vol-a" "private") None) "/stage/vol-a"
  = Return (true, Some (Errorf ("bad mount propagation (" +:+ "private"
                                +:+ ") for target " +:+ "/stage/vol-a"))).
Proof.
  split.
  - apply (proj1 (X19_mount_check_decision (decode_findmnt "/stage/vol-a")
             (findmnt_host (findmnt_json "/stage/vol-a" "shared") None) "/stage/vol-a"
             {| volumes.LinuxMounter.FileSystems := [findmnt_entry "/stage/vol-a" "shared"] |}
             ltac:(discriminate) ltac:(reflexivity) ltac:(reflexivity)
             ltac:(vm_compute; discriminate) ltac:(vm_compute; reflexivity))).
    repeat constructor.
  - apply (proj2 (X19_mount_check_decision (decode_findmnt "/stage/vol-a")
             (findmnt_host (findmnt_json "/stage/vol-a" "private") None) "/stage/vol-a"
             {| volumes.LinuxMounter.FileSystems := [findmnt_entry "/stage/vol-a" "private"] |}
             ltac:(discriminate) ltac:(reflexivity) ltac:(reflexivity)
             ltac:(vm_compute; discriminate) ltac:(vm_compute; reflexivity))
             [] (findmnt_entry "/stage/vol-a" "private") []);
      [reflexivity|constructor|discriminate].
Defined.

(** X20. Staging a volume that is already staged succeeds again.  When
    blkid identifies the image as ext4, losetup reports a device for it
    and the staging path is mounted, NodeStageVolume, asked for ext4 or
    for no filesystem type, replies with success, whether or not mkfs, a
    new [losetup --find] or [mount] would work on that host. *)
Theorem X20_staging_again_succeeds :
  forall (json_Unmarshal : string -> result (option volumes.LinuxMounter.findMntResponse))
         (p : Plugin SparseFileVolumeController.t) (e : NodeEnv) (fs : Files)
         (volumeId staging fsType dev rest : string) (options : list string)
         (mode : option VolumeCapability_AccessMode_Mode),
    volumeId <> "" -> staging <> "" -> fsType = "" \/ fsType = "ext4" ->
    let filename :=
      SparseFileVolumeController.getImageFullPath (volumeController p) volumeId in
    SparseFileVolumeController.isFileExists fs filename = true ->
    LookPath (host e) "blkid" = Found ->
    cmd_err (host e) "blkid" ["-o"; "value"; "-s"; "TYPE"; filename] = None ->
    TrimSpace (cmd_out (host e) "blkid" ["-o"; "value"; "-s"; "TYPE"; filename]) = "ext4" ->
    LookPath (host e) "losetup" = Found ->
    cmd_err (host e) "losetup" ["--associated"; filename] = None ->
    cmd_out (host e) "losetup" ["--associated"; filename] = dev +:+ ":" +:+ rest ->
    dev <> "" -> trim_left dev = dev -> ~ mentions dev ":" ->
    volumes.LinuxMounter.IsMounted json_Unmarshal (host e) staging = Return (true, None) ->
    reply (NodeStageVolume
             (MT := volumes_node.LinuxMounter.LinuxMounter_Mounter json_Unmarshal)
             p volumes_node.LinuxMounter.NewLinuxMounter e fs
             {| NodeStageVolumeRequest_VolumeId := volumeId;
                NodeStageVolumeRequest_StagingTargetPath := staging;
                NodeStageVolumeRequest_VolumeCapability :=
                  Some {| AccessType := Some (VolumeCapability_Mount fsType options);
                          AccessMode := mode |} |})
    = Return (Reply Build_NodeStageVolumeResponse).
Proof.
  intros json_Unmarshal p e fs volumeId staging fsType dev rest options mode
    Hid Hstaging Hfs filename Hex Hblkid Hblkrun Hblkout Hlo Hlorun Hloout
    Hdev Htrim Hno Hmounted.
  pose proof (FormatIfNot_formatted (volumeController p) e fs volumeId
                Hid Hex Hblkid Hblkrun Hblkout) as Hformat.
  pose proof (AttachDevice_reported (volumeController p) (host e) fs volumeId dev rest
                Hid Hex Hlo Hlorun Hloout Hdev Htrim Hno) as Hattach.
  pose proof (Mount_mounted json_Unmarshal e dev staging options
                Hdev Hstaging Hmounted) as Hmount.
  apply String.eqb_neq in Hid. apply String.eqb_neq in Hstaging.
  unfold NodeStageVolume.
  cbn -[volumes_node.SparseFileVolumeController.FormatIfNot
        volumes_node.SparseFileVolumeController.AttachDevice
        volumes_node.LinuxMounter.Mount].
  rewrite Hid, Hstaging.
  assert (Htype : (if negb (String.eqb fsType "") then fsType else "ext4") = "ext4")
    by (destruct Hfs as [->| ->]; reflexivity).
  rewrite Htype, Hformat, Hattach, Hmount. reflexivity.
Qed.

Lemma X20_staging_again_succeeds_witness :
  reply (NodeStageVolume (MT := mounter_vol_a) plugin_n1
           volumes_node.LinuxMounter.NewLinuxMounter staged_read_only one_volume
           (stage_vol_a ""))
  = Return (Reply Build_NodeStageVolumeResponse).
Proof.
  apply (X20_staging_again_succeeds (decode_findmnt "/stage/vol-a") plugin_n1
           staged_read_only one_volume "vol-a" "/stage/vol-a" "" "/dev/loop0"
           " [2049]:131 (/data/vol-a.img)" [] (Some SINGLE_NODE_WRITER));
    try discriminate; try (left; reflexivity); try exact loop0_no_colon;
    vm_compute; reflexivity.
Defined.


(** X21. Staging a new volume.  The image exists, blkid exits with
    status 2 (no filesystem on it), losetup reports no device for it and
    the staging path is not mounted.  Then NodeStageVolume succeeds as
    soon as these three commands succeed:
    [mkfs.ext4 <image>];
    [losetup --find --show [--direct-io=on] <image>], with the direct I/O
    flag exactly when the controller is configured for it, whose trimmed
    output is taken as the device;
    [mount [-o <options joined by commas>] <device> <staging path>], with
    [-o] only when the capability has mount options. *)
Theorem X21_first_staging :
  forall (json_Unmarshal : string -> result (option volumes.LinuxMounter.findMntResponse))
         (p : Plugin SparseFileVolumeController.t) (e : NodeEnv) (fs : Files)
         (volumeId staging fsType msg : string) (options : list string)
         (mode : option VolumeCapability_AccessMode_Mode),
    volumeId <> "" -> staging <> "" -> fsType = "" \/ fsType = "ext4" ->
    let s := volumeController p in
    let filename := SparseFileVolumeController.getImageFullPath s volumeId in
    SparseFileVolumeController.isFileExists fs filename = true ->
    LookPath (host e) "blkid" = Found -> LookPath (host e) "mkfs.ext4" = Found ->
    LookPath (host e) "losetup" = Found -> LookPath (host e) "mount" = Found ->
    cmd_err (host e) "blkid" ["-o"; "value"; "-s"; "TYPE"; filename] = Some msg ->
    ExitCode e "blkid" ["-o"; "value"; "-s"; "TYPE"; filename] = Some 2 ->
    cmd_err (host e) "losetup" ["--associated"; filename] = None ->
    TrimSpace (cmd_out (host e) "losetup" ["--associated"; filename]) = "" ->
    volumes.LinuxMounter.IsMounted json_Unmarshal (host e) staging = Return (false, None) ->
    MkdirAll e staging = None ->
    let attach :=
      (["--find"; "--show"]
       ++ (if SparseFileVolumeController.directIO s then ["--direct-io=on"] else [])
       ++ [filename])%list in
    let dev := TrimSpace (cmd_out (host e) "losetup" attach) in
    let mount :=
      (match options with [] => [] | _ => ["-o"; Join options ","] end
       ++ [dev; staging])%list in
    cmd_err (host e) "mkfs.ext4" [filename] = None ->
    cmd_err (host e) "losetup" attach = None ->
    dev <> "" ->
    cmd_err (host e) "mount" mount = None ->
    reply (NodeStageVolume
             (MT := volumes_node.LinuxMounter.LinuxMounter_Mounter json_Unmarshal)
             p volumes_node.LinuxMounter.NewLinuxMounter e fs
             {| NodeStageVolumeRequest_VolumeId := volumeId;
                NodeStageVolumeRequest_StagingTargetPath := staging;
                NodeStageVolumeRequest_VolumeCapability :=
                  Some {| AccessType := Some (VolumeCapability_Mount fsType options);
                          AccessMode := mode |} |})
    = Return (Reply Build_NodeStageVolumeResponse).
Proof.
  intros json_Unmarshal p e fs volumeId staging fsType msg options mode
    Hid Hstaging Hfs s filename Hex Hblkid Hmkfs Hlo Hmnt Hblkrun Hcode Hassoc Hblank
    Hmounted Hmkdir attach dev mount Hformat Hattach Hdev Hmount.
  pose proof (getImageFullPath_nonempty s volumeId) as Hname.
  apply String.eqb_neq in Hname. fold filename in Hname.
  apply String.eqb_neq in Hid. apply String.eqb_neq in Hstaging.
  apply String.eqb_neq in Hdev.
  assert (Htype : (if negb (String.eqb fsType "") then fsType else "ext4") = "ext4")
    by (destruct Hfs as [->| ->]; reflexivity).
  assert (Hf : volumes_node.SparseFileVolumeController.FormatIfNot s e fs volumeId "ext4"
               = Return None).
  { unfold volumes_node.SparseFileVolumeController.FormatIfNot,
      volumes_node.SparseFileVolumeController.getCurrentFilesystem, checkExecutable.
    fold filename. rewrite Hid, Hex, Hname, Hblkid, Hblkrun, Hcode.
    change ("mkfs." +:+ "ext4") with "mkfs.ext4". cbn [negb Z.eqb Pos.eqb].
    change (String.eqb "ext4" "ext4") with true.
    change (String.eqb "" "ext4") with false. cbn [negb].
    rewrite Hmkfs, Hformat. reflexivity. }
  assert (Ha : volumes_node.SparseFileVolumeController.AttachDevice s (host e) fs volumeId
               = Ok dev).
  { unfold volumes_node.SparseFileVolumeController.AttachDevice,
      SparseFileVolumeController.GetDeviceByVolumeId, checkExecutable.
    fold filename. rewrite Hid, Hex, Hlo, Hassoc, Hblank. cbn [negb].
    change (Split "" ":") with [""]. cbn [negb String.eqb].
    assert (Hargs : volumes_node.SparseFileVolumeController.attachArgs s filename = attach).
    { unfold volumes_node.SparseFileVolumeController.attachArgs, attach.
      destruct (SparseFileVolumeController.directIO s); reflexivity. }
    rewrite Hargs, Hattach. reflexivity. }
  assert (Hm : volumes_node.LinuxMounter.Mount json_Unmarshal e dev staging options
               = Return None).
  { unfold volumes_node.LinuxMounter.Mount, checkExecutable.
    rewrite Hdev, Hstaging, Hmounted, Hmkdir, Hmnt.
    assert (Hargs : volumes_node.LinuxMounter.mountArgs dev staging options = mount).
    { unfold volumes_node.LinuxMounter.mountArgs, mount. destruct options; reflexivity. }
    rewrite Hargs, Hmount. reflexivity. }
  unfold NodeStageVolume.
  cbn -[volumes_node.SparseFileVolumeController.FormatIfNot
        volumes_node.SparseFileVolumeController.AttachDevice
        volumes_node.LinuxMounter.Mount].
  rewrite Hid, Hstaging, Htype.
  fold s. rewrite Hf, Ha, Hm. reflexivity.
Qed.

Lemma X21_first_staging_witness :
  reply (NodeStageVolume (MT := mounter_vol_a) plugin_n1
           volumes_node.LinuxMounter.NewLinuxMounter unformatted_vol_a one_volume
           (stage_vol_a "ext4"))
  = Return (Reply Build_NodeStageVolumeResponse).
Proof.
  apply (X21_first_staging (decode_findmnt "/stage/vol-a") plugin_n1
           unformatted_vol_a one_volume "vol-a" "/stage/vol-a" "ext4" "exit status 2" []
           (Some SINGLE_NODE_WRITER));
    try discriminate; try (right; reflexivity); vm_compute; try reflexivity;
    discriminate.
Defined.
